(** * Tracing harness of the demo tenants (bookshop, e-commerce)

    A shallow embedding of [tenants/bookshop/main.py] and
    [tenants/e-commerce/main.py].  The handlers are Python functions that
    mutate module globals, sleep, draw random numbers and open
    OpenTelemetry spans; they are embedded as state-passing functions over a
    process image [World], with Python exceptions as an explicit result.

    The OpenTelemetry SDK, the [random] and [time] modules and the FastAPI
    dispatcher are external to the repository.  The part of their documented
    behaviour which the handlers rely on is embedded in the modules [Py],
    [time], [random], [Otel] and [FastAPI] below:
    - every span is sampled and recorded (the default sampler), and a span
      that ends is handed to the [BatchSpanProcessor]; [exported] lists
      these spans in the order they end.  The background thread that sends
      them in batches, on a timer or a size threshold, is not modelled;
    - a handler runs under whatever span is current when it is called: none
      when it is called directly, the server span when the FastAPI
      instrumentation calls it;
    - calls to the logger do not change the state and are left out;
    - requests are answered one at a time. *)

From Stdlib Require Import ZArith QArith String List Lia DecimalString Sorted.
From stdpp Require Import base option list gmap strings.

Open Scope Z_scope.

(** ** Python values *)

(** Finite Python floats are idealised as the rationals they stand for;
    rounding is not modelled.  No property below depends on a float beyond
    its sign and its comparison with a literal. *)
Definition PyFloat := Q.

(** The JSON-like values handlers return to the framework. *)
#[local] Set Warnings "-register-all".
Inductive Json :=
| JNull
| JBool (b : bool)
| JInt (n : Z)
| JFloat (x : PyFloat)
| JStr (s : string)
| JList (l : list Json)
| JDict (kv : list (string * Json)).

(** The exceptions the two services can raise. *)
Inductive Exception :=
| HTTPException (status_code : Z) (detail : string)
| RuntimeError (msg : string)
| ValueError (msg : string)
| IndexError (msg : string)
| KeyError (msg : string)
| OverflowError (msg : string)
| ZeroDivisionError (msg : string).

Module Py.

(** [str(n)] for an int. *)
Definition str_int (n : Z) : string := NilZero.string_of_int (Z.to_int n).

(** [type(exc).__name__] *)
Definition type_name (e : Exception) : string :=
  match e with
  | HTTPException _ _ => "HTTPException"
  | RuntimeError _ => "RuntimeError"
  | ValueError _ => "ValueError"
  | IndexError _ => "IndexError"
  | KeyError _ => "KeyError"
  | OverflowError _ => "OverflowError"
  | ZeroDivisionError _ => "ZeroDivisionError"
  end.

(** [type(exc).__module__], [None] standing for [builtins]. *)
Definition type_module (e : Exception) : option string :=
  match e with
  | HTTPException _ _ => Some "fastapi.exceptions"
  | _ => None
  end.

(** [str(exc)]; Starlette's [HTTPException.__str__] is
    [f"{status_code}: {detail}"]. *)
Definition str_exc (e : Exception) : string :=
  match e with
  | HTTPException c d => str_int c +:+ ": " +:+ d
  | RuntimeError m | ValueError m | IndexError m | KeyError m
  | OverflowError m | ZeroDivisionError m => m
  end.

(** [needle in haystack] on strings. *)
Definition contains (needle haystack : string) : bool :=
  match index 0 needle haystack with Some _ => true | None => false end.

(** [float(n)] as CPython's [PyLong_AsDouble] does it: ints that round
    to a magnitude of 2^1024 or more raise [OverflowError]. *)
Definition float_of_int (n : Z) : option PyFloat :=
  if Z.abs n <? 2 ^ 1024 - 2 ^ 970 then Some (inject_Z n) else None.

(** Truthiness of an optional float ([None] and [0.0] are falsy). *)
Definition truthy_float (x : option PyFloat) : bool :=
  match x with
  | Some q => negb (Qnum q =? 0)
  | None => false
  end.

(** Truthiness of an optional string ([None] and [""] are falsy). *)
Definition truthy_str (s : option string) : bool :=
  match s with
  | Some EmptyString | None => false
  | Some _ => true
  end.

(** [c.lower()] on ASCII letters; other characters are left alone. *)
Definition lower_ascii (c : Ascii.ascii) : Ascii.ascii :=
  let n := Ascii.nat_of_ascii c in
  if ((65 <=? n)%nat && (n <=? 90)%nat)%bool
  then Ascii.ascii_of_nat (n + 32) else c.

Fixpoint lower (s : string) : string :=
  match s with
  | EmptyString => EmptyString
  | String c r => String (lower_ascii c) (lower r)
  end.

End Py.

(** ** Data models *)

(** [tenants/bookshop/main.py]: a catalog entry, one of the inner dicts of
    [BOOKS_DB]. *)
Module Book.
Record t := mk {
  id : Z;
  title : string;
  author : string;
  price : PyFloat;
  stock : Z
}.

Definition set_stock (b : t) (n : Z) : t :=
  {| id := id b; title := title b; author := author b;
     price := price b; stock := n |}.

Definition to_json (b : t) : Json :=
  JDict [("id", JInt (id b)); ("title", JStr (title b));
         ("author", JStr (author b)); ("price", JFloat (price b));
         ("stock", JInt (stock b))]%string.
End Book.

(** [class OrderRequest(BaseModel)] *)
Record OrderRequest := {
  book_id : Z;
  quantity : Z;
  customer_email : string
}.

(** ** OpenTelemetry data model ([opentelemetry.trace], [opentelemetry.sdk.trace]) *)

(** Trace and span identifiers are never the invalid id 0, so a span context
    is valid by construction. *)
Record SpanContext := {
  trace_id : positive;
  span_id : positive
}.

#[global] Instance SpanContext_eq_dec : EqDecision SpanContext.
Proof. solve_decision. Defined.

Inductive StatusCode := UNSET | OK | ERROR.

#[global] Instance StatusCode_eq_dec : EqDecision StatusCode.
Proof. solve_decision. Defined.

Record Status := {
  status_code : StatusCode;
  description : option string
}.

Inductive AttrValue :=
| AStr (s : string)
| AInt (n : Z)
| AFloat (x : PyFloat)
| ABool (b : bool).

Record Event := {
  event_name : string;
  event_attributes : gmap string AttrValue;
  event_timestamp : Z
}.

(** A span object of the SDK; [end_time] is [None] while the span is open. *)
Record Span := {
  name : string;
  span_context : SpanContext;
  parent : option SpanContext;
  start_time : Z;
  end_time : option Z;
  attributes : gmap string AttrValue;
  events : list Event;
  status : Status;
  resource : gmap string string
}.

(** ** The process image *)

(** Everything a handler can read or change: the bookshop's module global
    [BOOKS_DB] (a dict in insertion order, hence an association list), the
    wall clock, the state of the [random] module, and the state of the tracer
    provider.  Span objects live in a heap indexed by handles, since handlers
    mutate them through references ([parent_span], [db_span], ...).

    The clock and the random generators are explicit sources: [elapsed] lists
    the nanoseconds that pass before each successive clock observation,
    [entropy] the raw outcomes of the successive draws of the [random] module
    and [id_entropy] those of the SDK's id generator.  An exhausted source
    yields 0. *)
Record World := {
  BOOKS_DB : list (Z * Book.t);
  clock : Z;
  elapsed : list N;
  entropy : list Z;
  id_entropy : list N;
  provider_resource : gmap string string;
  spans : gmap nat Span;
  next_handle : nat;
  current : list nat;
  exported : list Span;
  warnings : list string
}.

Definition set_BOOKS_DB (v : list (Z * Book.t)) (w : World) : World :=
  {| BOOKS_DB := v; clock := clock w; elapsed := elapsed w;
     entropy := entropy w; id_entropy := id_entropy w;
     provider_resource := provider_resource w; spans := spans w;
     next_handle := next_handle w; current := current w;
     exported := exported w; warnings := warnings w |}.

Definition set_time (c : Z) (e : list N) (w : World) : World :=
  {| BOOKS_DB := BOOKS_DB w; clock := c; elapsed := e;
     entropy := entropy w; id_entropy := id_entropy w;
     provider_resource := provider_resource w; spans := spans w;
     next_handle := next_handle w; current := current w;
     exported := exported w; warnings := warnings w |}.

Definition set_entropy (v : list Z) (w : World) : World :=
  {| BOOKS_DB := BOOKS_DB w; clock := clock w; elapsed := elapsed w;
     entropy := v; id_entropy := id_entropy w;
     provider_resource := provider_resource w; spans := spans w;
     next_handle := next_handle w; current := current w;
     exported := exported w; warnings := warnings w |}.

Definition set_id_entropy (v : list N) (w : World) : World :=
  {| BOOKS_DB := BOOKS_DB w; clock := clock w; elapsed := elapsed w;
     entropy := entropy w; id_entropy := v;
     provider_resource := provider_resource w; spans := spans w;
     next_handle := next_handle w; current := current w;
     exported := exported w; warnings := warnings w |}.

Definition set_spans (v : gmap nat Span) (w : World) : World :=
  {| BOOKS_DB := BOOKS_DB w; clock := clock w; elapsed := elapsed w;
     entropy := entropy w; id_entropy := id_entropy w;
     provider_resource := provider_resource w; spans := v;
     next_handle := next_handle w; current := current w;
     exported := exported w; warnings := warnings w |}.

Definition set_next_handle (v : nat) (w : World) : World :=
  {| BOOKS_DB := BOOKS_DB w; clock := clock w; elapsed := elapsed w;
     entropy := entropy w; id_entropy := id_entropy w;
     provider_resource := provider_resource w; spans := spans w;
     next_handle := v; current := current w;
     exported := exported w; warnings := warnings w |}.

Definition set_current (v : list nat) (w : World) : World :=
  {| BOOKS_DB := BOOKS_DB w; clock := clock w; elapsed := elapsed w;
     entropy := entropy w; id_entropy := id_entropy w;
     provider_resource := provider_resource w; spans := spans w;
     next_handle := next_handle w; current := v;
     exported := exported w; warnings := warnings w |}.

Definition set_exported (v : list Span) (w : World) : World :=
  {| BOOKS_DB := BOOKS_DB w; clock := clock w; elapsed := elapsed w;
     entropy := entropy w; id_entropy := id_entropy w;
     provider_resource := provider_resource w; spans := spans w;
     next_handle := next_handle w; current := current w;
     exported := v; warnings := warnings w |}.

Definition set_warnings (v : list string) (w : World) : World :=
  {| BOOKS_DB := BOOKS_DB w; clock := clock w; elapsed := elapsed w;
     entropy := entropy w; id_entropy := id_entropy w;
     provider_resource := provider_resource w; spans := spans w;
     next_handle := next_handle w; current := current w;
     exported := exported w; warnings := v |}.

(** ** Computations: state passing with Python exceptions *)

Inductive Result (A : Type) :=
| Return (a : A)
| Raise (e : Exception).
Arguments Return {A} a.
Arguments Raise {A} e.

Definition M (A : Type) : Type := World -> Result A * World.

Definition ret {A} (a : A) : M A := fun w => (Return a, w).

Definition raise {A} (e : Exception) : M A := fun w => (Raise e, w).

Definition bind {A B} (m : M A) (k : A -> M B) : M B :=
  fun w =>
    let '(r, w1) := m w in
    match r with
    | Return a => k a w1
    | Raise e => (Raise e, w1)
    end.

Notation "'let!' x ':=' m 'in' k" := (bind m (fun x => k))
  (at level 10, x name, m at level 100, k at level 200).
Notation "m '>>' k" := (bind m (fun _ => k))
  (at level 90, right associativity).

(** [for x in xs: body x], stopping at the first exception. *)
Fixpoint for_each {A} (xs : list A) (body : A -> M unit) : M unit :=
  match xs with
  | [] => ret tt
  | x :: rest => body x >> for_each rest body
  end.

(** ** The [time] module *)

Module time.

(** The reading of [time.time_ns()] at the next observation of the clock. *)
Definition now (w : World) : Z := clock w + Z.of_N (hd 0%N (elapsed w)).

(** Whole nanoseconds in a duration given in seconds. *)
Definition ns_of_secs (secs : PyFloat) : Z :=
  (Qnum secs * 10 ^ 9) / Zpos (Qden secs).

(** [time.sleep(secs)]: the caller resumes once the duration, and whatever
    the scheduler adds to it, has passed. *)
Definition sleep (secs : PyFloat) : M unit :=
  fun w =>
    if Qnum secs <? 0
    then (Raise (ValueError "sleep length must be non-negative"), w)
    else (Return tt,
          set_time (now w + ns_of_secs secs) (tl (elapsed w)) w).

End time.

(** ** The [random] module *)

Module random.

(** One draw among [n] equally likely outcomes [0 .. n-1]. *)
Definition _randbelow (n : Z) : M Z :=
  fun w => (Return (hd 0 (entropy w) mod n), set_entropy (tl (entropy w)) w).

(** [random.randint(a, b)]: an integer of the closed interval [a, b]. *)
Definition randint (a b : Z) : M Z :=
  if b <? a
  then raise (ValueError "empty range in randrange()")
  else let! r := _randbelow (b - a + 1) in ret (a + r).

(** [random.choice(seq)] is [seq[_randbelow(len(seq))]]. *)
Definition choice {A} (seq : list A) : M A :=
  match seq with
  | [] => raise (IndexError "Cannot choose from an empty sequence")
  | x :: _ =>
      let! i := _randbelow (Z.of_nat (length seq)) in
      ret (nth (Z.to_nat i) seq x)
  end.

(** [random.random()]: a multiple of 2^-53 in [0, 1). *)
Definition random : M PyFloat :=
  let! k := _randbelow (2 ^ 53) in
  ret (Qmake k (2 ^ 53)).

(** [random.uniform(a, b)] is [a + (b - a) * random()].  The sum and the
    product are taken exactly: the float is this value rounded, which lies
    between [a] and [b] and may be [b] itself. *)
Definition uniform (a b : PyFloat) : M PyFloat :=
  let! r := random in
  ret (a + (b - a) * r)%Q.

End random.

(** ** The OpenTelemetry SDK *)

Module Otel.

(** [RandomIdGenerator]: draw [bits] random bits until the id is not the
    invalid id 0 (an exhausted source yields the id 1). *)
Fixpoint generate_id (bits : N) (src : list N) : positive * list N :=
  match src with
  | [] => (1%positive, [])
  | x :: rest =>
      match (x mod 2 ^ bits)%N with
      | N0 => generate_id bits rest
      | Npos p => (p, rest)
      end
  end.

(** The service name [Resource.create] falls back on: "unknown_service",
    followed by the name of the executable when the resource has one. *)
Definition default_service_name (r : gmap string string) : string :=
  if Py.truthy_str (r !! "process.executable.name")
  then "unknown_service:" +:+ default "" (r !! "process.executable.name")
  else "unknown_service".

(** [Resource.create(attributes)]: the given attributes are merged over
    the detected ones ([base]: SDK defaults and [OTEL_RESOURCE_ATTRIBUTES])
    and win over them; a service name that is then missing or empty is
    replaced by the default one. *)
Definition Resource_create (base attrs : gmap string string)
  : gmap string string :=
  let r := attrs ∪ base in
  if Py.truthy_str (r !! "service.name") then r
  else <["service.name" := default_service_name r]> r.

(** [trace.get_current_span().get_span_context()], [None] when no span is
    current. *)
Definition get_current_span_context (w : World) : option SpanContext :=
  match current w with
  | [] => None
  | h :: _ => span_context <$> spans w !! h
  end.

Definition warn (msg : string) (w : World) : World :=
  set_warnings (warnings w ++ [msg]) w.

(** The context of a new span: the trace id is inherited from the parent
    or freshly drawn, then the span id is drawn. *)
Definition new_context (pc : option SpanContext) (src : list N)
  : SpanContext * list N :=
  let tid := match pc with
             | Some c => (trace_id c, src)
             | None => generate_id 128 src
             end in
  let sid := generate_id 64 (snd tid) in
  ({| trace_id := fst tid; span_id := fst sid |}, snd sid).

Definition new_span (name : string) (ctx : SpanContext)
    (pc : option SpanContext) (t : Z) (res : gmap string string) : Span :=
  {| name := name; span_context := ctx; parent := pc;
     start_time := t; end_time := None;
     attributes := ∅; events := [];
     status := {| status_code := UNSET; description := None |};
     resource := res |}.

(** [Tracer.start_span]: the span gets its context, is stamped with the
    clock and with the provider's resource, and is allocated. *)
Definition start_span (name : string) : M nat :=
  fun w =>
    let pc := get_current_span_context w in
    let c := new_context pc (id_entropy w) in
    let s := new_span name (fst c) pc (time.now w) (provider_resource w) in
    (Return (next_handle w),
     set_time (time.now w) (tl (elapsed w))
       (set_id_entropy (snd c)
          (set_next_handle (S (next_handle w))
             (set_spans (<[next_handle w := s]> (spans w)) w)))).

Definition set_attributes (a : gmap string AttrValue) (s : Span) : Span :=
  {| name := name s; span_context := span_context s; parent := parent s;
     start_time := start_time s; end_time := end_time s;
     attributes := a; events := events s; status := status s;
     resource := resource s |}.

Definition set_events (e : list Event) (s : Span) : Span :=
  {| name := name s; span_context := span_context s; parent := parent s;
     start_time := start_time s; end_time := end_time s;
     attributes := attributes s; events := e; status := status s;
     resource := resource s |}.

Definition set_span_status (st : Status) (s : Span) : Span :=
  {| name := name s; span_context := span_context s; parent := parent s;
     start_time := start_time s; end_time := end_time s;
     attributes := attributes s; events := events s; status := st;
     resource := resource s |}.

Definition set_end_time (t : Z) (s : Span) : Span :=
  {| name := name s; span_context := span_context s; parent := parent s;
     start_time := start_time s; end_time := Some t;
     attributes := attributes s; events := events s; status := status s;
     resource := resource s |}.

(** [span.set_attribute(key, value)]; ignored with a warning on an ended
    span or for an empty key. *)
Definition set_attribute (h : nat) (key : string) (value : AttrValue)
  : M unit :=
  fun w =>
    match spans w !! h with
    | None => (Return tt, w)
    | Some s =>
        match end_time s with
        | Some _ => (Return tt, warn "Setting attribute on ended span." w)
        | None =>
            if String.eqb key ""
            then (Return tt, warn "invalid key: must be non-empty string." w)
            else (Return tt,
                  set_spans
                    (<[h := set_attributes (<[key := value]> (attributes s)) s]>
                       (spans w)) w)
        end
    end.

(** [f"{module}.{qualname}"], or the bare name for builtins. *)
Definition exception_type (e : Exception) : string :=
  match Py.type_module e with
  | Some m => m +:+ "." +:+ Py.type_name e
  | None => Py.type_name e
  end.

Definition exception_event (e : Exception) (t : Z) : Event :=
  {| event_name := "exception";
     event_attributes :=
       <["exception.type" := AStr (exception_type e)]>
         (<["exception.message" := AStr (Py.str_exc e)]>
            (<["exception.escaped" := AStr "False"]> ∅));
     event_timestamp := t |}.

(** [span.record_exception(exc)]: an "exception" event (the stack trace
    attribute is left out).  The event is stamped with the clock before
    the span is found ended or not. *)
Definition record_exception (h : nat) (e : Exception) : M unit :=
  fun w =>
    let ev := exception_event e (time.now w) in
    let w1 := set_time (time.now w) (tl (elapsed w)) w in
    match spans w !! h with
    | None => (Return tt, w1)
    | Some s =>
        match end_time s with
        | Some _ =>
            (Return tt, warn "Tried calling _add_event on an ended span." w1)
        | None =>
            (Return tt,
             set_spans (<[h := set_events (events s ++ [ev]) s]> (spans w)) w1)
        end
    end.

(** [span.set_status(Status(code, description))]: ignored on an ended
    span, once the status is OK, and for UNSET. *)
Definition set_status (h : nat) (st : Status) : M unit :=
  fun w =>
    match spans w !! h with
    | None => (Return tt, w)
    | Some s =>
        match end_time s with
        | Some _ => (Return tt, warn "Tried calling set_status on an ended span." w)
        | None =>
            if bool_decide (status_code (status s) = OK)
               || bool_decide (status_code st = UNSET)
            then (Return tt, w)
            else (Return tt,
                  set_spans (<[h := set_span_status st s]> (spans w)) w)
        end
    end.

(** [span.end()]: stamps the end time and hands a snapshot of the span to
    the span processor ([BatchSpanProcessor.on_end], which queues it for
    export).  A second call only logs a warning. *)
Definition end_ (h : nat) : M unit :=
  fun w =>
    match spans w !! h with
    | None => (Return tt, w)
    | Some s =>
        match end_time s with
        | Some _ => (Return tt, warn "Calling end() on an ended span." w)
        | None =>
            let s' := set_end_time (time.now w) s in
            (Return tt,
             set_time (time.now w) (tl (elapsed w))
               (set_exported (exported w ++ [s'])
                  (set_spans (<[h := s']> (spans w)) w)))
        end
    end.

(** The status an exception gives to the span of the [with] block it
    leaves: ERROR, described by [f"{type(exc).__name__}: {exc}"]. *)
Definition error_status (exc : Exception) : Status :=
  {| status_code := ERROR;
     description := Some (Py.type_name exc +:+ ": " +:+ Py.str_exc exc) |}.

(** The exit of [trace.use_span]: the previous context is restored, an
    exception is recorded on the span and sets its status, and the span
    is ended. *)
Definition use_span_exit {A} (span : nat) (saved : list nat)
    (r : Result A) (w : World) : World :=
  let w1 := set_current saved w in
  let w2 :=
    match r with
    | Return _ => w1
    | Raise exc =>
        snd ((record_exception span exc >>
              set_status span (error_status exc)) w1)
    end in
  snd (end_ span w2).

(** [with tracer.start_as_current_span(name) as span: body]: the span is
    started and made current, the body runs, and [use_span_exit] is run on
    every exit path; an exception leaving the body propagates. *)
Definition start_as_current_span {A} (name : string) (body : nat -> M A)
  : M A :=
  fun w =>
    match start_span name w with
    | (Raise e, w1) => (Raise e, w1)
    | (Return span, w1) =>
        let '(r, w2) := body span (set_current (span :: current w1) w1) in
        (r, use_span_exit span (current w1) r w2)
    end.

End Otel.

(** [try: body except Exception as e: handler e] *)
Definition try_except {A} (body : M A) (handler : Exception -> M A) : M A :=
  fun w =>
    let '(r, w1) := body w in
    match r with
    | Return a => (Return a, w1)
    | Raise e => handler e w1
    end.

(** ** The FastAPI dispatcher *)

Module FastAPI.

Record Response := {
  http_status : Z;
  content : Json
}.

(** Status codes whose responses have no body. *)
Definition is_body_allowed_for_status_code (c : Z) : bool :=
  negb ((c <? 200) || (c =? 204) || (c =? 205) || (c =? 304)).

(** A handler's return value becomes a 200 response, an [HTTPException]
    a response with its status code and detail; any other exception is
    answered with a 500 and the server keeps running. *)
Definition respond (r : Result Json) : Response :=
  match r with
  | Return v => {| http_status := 200; content := v |}
  | Raise (HTTPException c d) =>
      {| http_status := c;
         content := if is_body_allowed_for_status_code c
                    then JDict [("detail", JStr d)]%string else JNull |}
  | Raise _ =>
      {| http_status := 500; content := JStr "Internal Server Error" |}
  end.

Definition call (handler : M Json) (w : World) : Response * World :=
  let '(r, w1) := handler w in (respond r, w1).

End FastAPI.

(** [os.getenv(key, default)] *)
Definition getenv (environ : gmap string string) (key default : string)
  : string :=
  match environ !! key with Some v => v | None => default end.

(** ** [tenants/bookshop/main.py] *)

Module Bookshop.

(** *** Configuration and OpenTelemetry setup *)

Definition SERVICE_NAME (environ : gmap string string) : string :=
  getenv environ "OTEL_SERVICE_NAME" "bookshop-service".

Definition ENDPOINT (environ : gmap string string) : string :=
  getenv environ "OTEL_EXPORTER_OTLP_ENDPOINT"
    "https://alloy-gateway.poddle.uz:4317".

Definition resource (environ base : gmap string string)
  : gmap string string :=
  Otel.Resource_create base
    (<["service.name" := SERVICE_NAME environ]>
       (<["service.version" := "0.1.0"%string]>
          (<["deployment.environment" := "development"%string]> ∅))).

(** *** In-memory database *)

Definition BOOKS_DB_init : list (Z * Book.t) :=
  [(1, Book.mk 1 "The Great Gatsby" "F. Scott Fitzgerald" (1299 # 100) 45);
   (2, Book.mk 2 "1984" "George Orwell" (1499 # 100) 32);
   (3, Book.mk 3 "To Kill a Mockingbird" "Harper Lee" (1350 # 100) 28);
   (4, Book.mk 4 "Pride and Prejudice" "Jane Austen" (1199 # 100) 52);
   (5, Book.mk 5 "The Catcher in the Rye" "J.D. Salinger" (1250 # 100) 19)].

(** The process once the module is loaded, for given sources of time and
    randomness. *)
Definition startup (environ base : gmap string string) (t0 : Z)
    (elapsed : list N) (entropy : list Z) (id_entropy : list N) : World :=
  {| BOOKS_DB := BOOKS_DB_init; clock := t0; elapsed := elapsed;
     entropy := entropy; id_entropy := id_entropy;
     provider_resource := resource environ base;
     spans := ∅; next_handle := 0; current := []; exported := [];
     warnings := [] |}.

(** [key in d], [d[key]] and [d.values()] on a dict kept in insertion
    order. *)
Fixpoint dict_get (d : list (Z * Book.t)) (key : Z) : option Book.t :=
  match d with
  | [] => None
  | (k, v) :: rest => if k =? key then Some v else dict_get rest key
  end.

Definition dict_values (d : list (Z * Book.t)) : list Book.t := map snd d.

(** The object stored under [key] replaced by [f] of it: what an update
    through a reference to the inner dict does to the catalog. *)
Fixpoint dict_alter (f : Book.t -> Book.t) (key : Z) (d : list (Z * Book.t))
  : list (Z * Book.t) :=
  match d with
  | [] => []
  | (k, v) :: rest =>
      if k =? key then (k, f v) :: rest else (k, v) :: dict_alter f key rest
  end.

(** [key in BOOKS_DB] *)
Definition contains_key (key : Z) : M bool :=
  fun w => (Return (bool_decide (is_Some (dict_get (BOOKS_DB w) key))), w).

(** [book[field]] for [book = BOOKS_DB[key]]: the handlers hold a reference
    into the catalog, so every read goes through it. *)
Definition getitem {A} (book : Z) (field : Book.t -> A) : M A :=
  fun w =>
    match dict_get (BOOKS_DB w) book with
    | Some b => (Return (field b), w)
    | None => (Raise (KeyError (Py.str_int book)), w)
    end.

(** [book["stock"] = n] through the reference. *)
Definition setitem_stock (book : Z) (n : Z) : M unit :=
  fun w =>
    (Return tt,
     set_BOOKS_DB
       (dict_alter (fun b => Book.set_stock b n) book (BOOKS_DB w)) w).

(** [list(BOOKS_DB.values())] *)
Definition values : M (list Book.t) :=
  fun w => (Return (dict_values (BOOKS_DB w)), w).

(** *** Helper functions *)

(** Simulate database query with random delay. *)
Definition simulate_db_query (operation : string) (delay_ms : option Z)
  : M unit :=
  let! delay_ms :=
    match delay_ms with
    | None => random.randint 10 50
    | Some d => ret d
    end in
  time.sleep (Qmake delay_ms 1000) >>
  ret tt.

(** Simulate cache lookup. *)
Definition simulate_cache_check (key : string) : M bool :=
  let! hit := random.choice [true; false; false] in
  ret hit.

(** *** Routes *)

Definition root (environ : gmap string string) : M Json :=
  Otel.start_as_current_span "root_handler" (fun span =>
    Otel.set_attribute span "endpoint" (AStr "/") >>
    ret (JDict [("status", JStr "ok");
                ("service", JStr (SERVICE_NAME environ));
                ("version", JStr "1.0.0")]%string)).

Definition health (environ : gmap string string) : M Json :=
  Otel.start_as_current_span "health_check" (fun span =>
    Otel.set_attribute span "health_status" (AStr "healthy") >>
    ret (JDict [("status", JStr "healthy");
                ("service", JStr (SERVICE_NAME environ))]%string)).

Definition list_books (author : option string) (min_price : option PyFloat)
  : M Json :=
  Otel.start_as_current_span "list_books" (fun parent_span =>
    Otel.set_attribute parent_span "filter.author"
      (AStr (if Py.truthy_str author then default "" author else "none")) >>
    Otel.set_attribute parent_span "filter.min_price"
      (if Py.truthy_float min_price
       then AFloat (default 0%Q min_price) else AInt 0) >>
    (* Simulate cache check *)
    Otel.start_as_current_span "cache_lookup" (fun _ =>
      let! cache_hit := simulate_cache_check "books_list" in
      ret tt) >>
    (* Simulate database query *)
    let! books := Otel.start_as_current_span "database_query" (fun db_span =>
      Otel.set_attribute db_span "query_type" (AStr "SELECT") >>
      Otel.set_attribute db_span "table" (AStr "books") >>
      simulate_db_query "SELECT * FROM books" None >>
      let! books := values in
      let books :=
        if Py.truthy_str author
        then List.filter
               (fun b => Py.contains (Py.lower (default "" author))
                           (Py.lower (Book.author b))) books
        else books in
      let books :=
        if Py.truthy_float min_price
        then List.filter
               (fun b => Qle_bool (default 0%Q min_price) (Book.price b))
               books
        else books in
      Otel.set_attribute db_span "result_count"
        (AInt (Z.of_nat (length books))) >>
      ret books) in
    (* Simulate response serialization *)
    Otel.start_as_current_span "serialize_response" (fun _ =>
      time.sleep (5 # 1000)) >>
    Otel.set_attribute parent_span "books_returned"
      (AInt (Z.of_nat (length books))) >>
    ret (JDict [("books", JList (map Book.to_json books));
                ("count", JInt (Z.of_nat (length books)))]%string)).

Definition get_book (book_id : Z) : M Json :=
  Otel.start_as_current_span "get_book" (fun parent_span =>
    Otel.set_attribute parent_span "book_id" (AInt book_id) >>
    (* Simulate cache check *)
    Otel.start_as_current_span "cache_lookup" (fun _ =>
      let! cache_hit := simulate_cache_check ("book_" +:+ Py.str_int book_id) in
      ret tt) >>
    (* Simulate database query *)
    let! book := Otel.start_as_current_span "database_query" (fun db_span =>
      Otel.set_attribute db_span "query_type" (AStr "SELECT") >>
      Otel.set_attribute db_span "table" (AStr "books") >>
      Otel.set_attribute db_span "book_id" (AInt book_id) >>
      simulate_db_query
        ("SELECT * FROM books WHERE id=" +:+ Py.str_int book_id) None >>
      let! found := contains_key book_id in
      if negb found then
        Otel.set_attribute db_span "error" (ABool true) >>
        raise (HTTPException 404 "Book not found")
      else
        getitem book_id Book.to_json) in
    ret (JDict [("book", book)]%string)).

(** [create_order], one definition per [with] block of the handler.
    [book] is the reference taken by [book = BOOKS_DB[order.book_id]]. *)

(* Validate book exists *)
Definition validate_book (order : OrderRequest) : M Z :=
  Otel.start_as_current_span "validate_book" (fun validate_span =>
    simulate_db_query
      ("SELECT * FROM books WHERE id=" +:+ Py.str_int (book_id order)) None >>
    let! found := contains_key (book_id order) in
    if negb found then
      Otel.set_attribute validate_span "error" (ABool true) >>
      raise (HTTPException 404 "Book not found")
    else
      ret (book_id order)).

(* Check inventory *)
Definition check_inventory (order : OrderRequest) (book : Z) : M unit :=
  Otel.start_as_current_span "check_inventory" (fun inventory_span =>
    simulate_db_query "SELECT stock FROM books" None >>
    let! stock := getitem book Book.stock in
    Otel.set_attribute inventory_span "available_stock" (AInt stock) >>
    Otel.set_attribute inventory_span "requested_quantity"
      (AInt (quantity order)) >>
    let! stock := getitem book Book.stock in
    if stock <? quantity order then
      Otel.set_attribute inventory_span "error" (ABool true) >>
      raise (HTTPException 400 "Insufficient stock")
    else
      ret tt).

(* Calculate total.  The product is taken exactly: it stands for the float
   product as long as that one is finite.  A float product of a magnitude
   of 2^1024 or more is an infinity, which this type does not hold. *)
Definition calculate_total (order : OrderRequest) (book : Z) : M PyFloat :=
  Otel.start_as_current_span "calculate_total" (fun calc_span =>
    let! price := getitem book Book.price in
    let! total :=
      match Py.float_of_int (quantity order) with
      | Some q => ret (price * q)%Q
      | None => raise (OverflowError "int too large to convert to float")
      end in
    let! price := getitem book Book.price in
    Otel.set_attribute calc_span "unit_price" (AFloat price) >>
    Otel.set_attribute calc_span "total_amount" (AFloat total) >>
    ret total).

(* Process payment *)
Definition process_payment (total : PyFloat) : M unit :=
  Otel.start_as_current_span "process_payment" (fun payment_span =>
    Otel.set_attribute payment_span "amount" (AFloat total) >>
    Otel.set_attribute payment_span "payment_method" (AStr "credit_card") >>
    let! delay_ms := random.randint 100 300 in
    simulate_db_query "INSERT INTO payments" (Some delay_ms)).

(* Update inventory *)
Definition update_inventory (order : OrderRequest) (book : Z) : M unit :=
  Otel.start_as_current_span "update_inventory" (fun update_span =>
    let! stock := getitem book Book.stock in
    setitem_stock book (stock - quantity order) >>
    let! stock := getitem book Book.stock in
    simulate_db_query ("UPDATE books SET stock=" +:+ Py.str_int stock) None >>
    let! stock := getitem book Book.stock in
    Otel.set_attribute update_span "new_stock" (AInt stock)).

(* Send confirmation email (simulated) *)
Definition send_confirmation_email (order : OrderRequest) : M unit :=
  Otel.start_as_current_span "send_confirmation_email" (fun email_span =>
    Otel.set_attribute email_span "recipient" (AStr (customer_email order)) >>
    time.sleep (5 # 100)).

Definition create_order (order : OrderRequest) : M Json :=
  Otel.start_as_current_span "create_order" (fun parent_span =>
    Otel.set_attribute parent_span "book_id" (AInt (book_id order)) >>
    Otel.set_attribute parent_span "quantity" (AInt (quantity order)) >>
    Otel.set_attribute parent_span "customer_email"
      (AStr (customer_email order)) >>
    let! book := validate_book order in
    check_inventory order book >>
    let! total := calculate_total order book in
    process_payment total >>
    update_inventory order book >>
    send_confirmation_email order >>
    let! order_id := random.randint 10000 99999 in
    Otel.set_attribute parent_span "order_id" (AInt order_id) >>
    let! title := getitem book Book.title in
    ret (JDict [("order_id", JInt order_id);
                ("book", JStr title);
                ("quantity", JInt (quantity order));
                ("total", JFloat total);
                ("status", JStr "confirmed")]%string)).

(** [sum(...)] over ints and over floats. *)
Definition sum_Z (l : list Z) : Z := fold_left Z.add l 0.
Definition sum_Q (l : list PyFloat) : PyFloat := fold_left Qplus l 0%Q.

(** [max(...)] of a non-empty sequence of floats (the first maximum). *)
Definition max_Q (x : PyFloat) (l : list PyFloat) : PyFloat :=
  fold_left (fun m y => if Qle_bool y m then m else y) l x.

(** [round(x, 2)], on the idealised value: nearest hundredth, ties to the
    even one. *)
Definition round2 (x : PyFloat) : PyFloat :=
  let n := Qnum x * 100 in
  let d := Zpos (Qden x) in
  let f := n / d in
  let r := n mod d in
  let up := match 2 * r ?= d with
            | Lt => false
            | Gt => true
            | Eq => Z.odd f
            end in
  Qmake (if up then f + 1 else f) 100.

(** [sorted(books, key=lambda x: x["stock"])]: stable. *)
Fixpoint insert_by_stock (b : Book.t) (l : list Book.t) : list Book.t :=
  match l with
  | [] => [b]
  | y :: rest =>
      if Book.stock b <=? Book.stock y then b :: y :: rest
      else y :: insert_by_stock b rest
  end.

Definition sorted_by_stock (l : list Book.t) : list Book.t :=
  fold_right insert_by_stock [] l.

Definition get_stats : M Json :=
  Otel.start_as_current_span "get_stats" (fun parent_span =>
    (* Calculate various statistics *)
    let! total_stock :=
      Otel.start_as_current_span "calculate_inventory_stats" (fun _ =>
        simulate_db_query "SELECT SUM(stock) FROM books" None >>
        let! books := values in
        ret (sum_Z (map Book.stock books))) in
    let! value_stats :=
      Otel.start_as_current_span "calculate_value_stats" (fun _ =>
        simulate_db_query "SELECT AVG(price), MAX(price) FROM books" None >>
        let! books := values in
        match map Book.price books with
        | [] => raise (ZeroDivisionError "division by zero")
        | p :: ps =>
            ret ((sum_Q (p :: ps) / inject_Z (Z.of_nat (length books)))%Q,
                 max_Q p ps)
        end) in
    let! popular :=
      Otel.start_as_current_span "find_popular_books" (fun _ =>
        simulate_db_query "SELECT * FROM books ORDER BY sales DESC LIMIT 3"
          None >>
        (* Simulate popularity based on lower stock *)
        let! books := values in
        ret (firstn 3 (sorted_by_stock books))) in
    let! books := values in
    Otel.set_attribute parent_span "stats.total_books"
      (AInt (Z.of_nat (length books))) >>
    ret (JDict [("total_books", JInt (Z.of_nat (length books)));
                ("total_stock", JInt total_stock);
                ("avg_price", JFloat (round2 (fst value_stats)));
                ("max_price", JFloat (snd value_stats));
                ("popular_books",
                 JList (map (fun b => JStr (Book.title b)) popular))]%string)).

End Bookshop.

(** ** [tenants/e-commerce/main.py] *)

Module ECommerce.

Definition service_name (environ : gmap string string) : string :=
  getenv environ "OTEL_SERVICE_NAME" "poddle-demo-app".

Definition resource (environ base : gmap string string)
  : gmap string string :=
  Otel.Resource_create base
    (<["service.name" := service_name environ]>
       (<["service.version" := "0.1.0"%string]> ∅)).

Definition startup (environ base : gmap string string) (t0 : Z)
    (elapsed : list N) (entropy : list Z) (id_entropy : list N) : World :=
  {| BOOKS_DB := []; clock := t0; elapsed := elapsed;
     entropy := entropy; id_entropy := id_entropy;
     provider_resource := resource environ base;
     spans := ∅; next_handle := 0; current := []; exported := [];
     warnings := [] |}.

Definition root : M Json :=
  ret (JDict [("status", JStr "ok")]%string).

(** [x < y] on floats. *)
Definition flt (x y : PyFloat) : bool :=
  Qnum x * Zpos (Qden y) <? Qnum y * Zpos (Qden x).

Definition do_work : M Json :=
  Otel.start_as_current_span "work.parent" (fun parent =>
    Otel.set_attribute parent "work.type" (AStr "demo") >>
    Otel.set_attribute parent "tenant.id" (AStr "example-tenant") >>
    for_each [0; 1; 2] (fun i =>
      Otel.start_as_current_span ("work.child." +:+ Py.str_int i) (fun child =>
        let! delay := random.uniform (1 # 10) (5 # 10) in
        Otel.set_attribute child "iteration" (AInt i) >>
        Otel.set_attribute child "delay.seconds" (AFloat delay) >>
        time.sleep delay)) >>
    (* simulate error span *)
    let! r := random.random in
    if flt r (3 # 10) then
      try_except
        (raise (RuntimeError "simulated failure"))
        (fun e =>
           Otel.record_exception parent e >>
           Otel.set_status parent
             {| status_code := ERROR; description := None |})
    else ret tt) >>
  ret (JDict [("result", JStr "done")]%string).

End ECommerce.

(** * Specifications *)

(** ** Vocabulary *)

(** Two processes right after start-up, with sources long enough for any
    one request. *)
Definition sample_bookshop : World :=
  Bookshop.startup ∅ ∅ 1000
    [5; 7; 11; 13; 17; 19; 23; 29; 31; 37; 41; 43; 47; 53; 59; 61; 67]%N
    [0; 3; 4; 5; 6; 7; 8; 9]
    [11; 0; 22; 33; 44; 55; 66; 77; 88; 99]%N.

Definition sample_ecommerce : World :=
  ECommerce.startup ∅ ∅ 1000
    [5; 7; 11; 13; 17; 19; 23; 29; 31; 37]%N
    [1; 2; 3; 4]
    [11; 0; 22; 33; 44; 55; 66]%N.

Definition book_1984 : Book.t :=
  Book.mk 2 "1984" "George Orwell" (1499 # 100) 32.

(** The outcome of [random.random()] in a run of [do_work]: the fourth draw
    of the call, after those of the three delays. *)
Definition fault_draw (w : World) : PyFloat :=
  Qmake (hd 0 (tl (tl (tl (entropy w)))) mod 2 ^ 53) (2 ^ 53).

#[global] Instance Exception_eq_dec : EqDecision Exception.
Proof. solve_decision. Defined.

#[global] Instance Result_eq_dec {A} `{EqDecision A} : EqDecision (Result A).
Proof. solve_decision. Defined.

(** [wp m w Q]: running [m] from [w] ends in a result and a world that
    satisfy [Q]. *)
Definition wp {A} (m : M A) (w : World) (Q : Result A -> World -> Prop) : Prop :=
  Q (m w).1 (m w).2.

(** The possible outcomes of [k] successive draws, each among [outcomes]. *)
Fixpoint all_draws (outcomes : list Z) (k : nat) : list (list Z) :=
  match k with
  | O => [[]]
  | S k' => flat_map (fun d => map (cons d) (all_draws outcomes k')) outcomes
  end.

(** [simulate_cache_check] called once per key, in order. *)
Fixpoint cache_checks (keys : list string) : M (list bool) :=
  match keys with
  | [] => ret []
  | key :: rest =>
      let! hit := Bookshop.simulate_cache_check key in
      let! hits := cache_checks rest in
      ret (hit :: hits)
  end.

(** How many of the given draw sequences make the calls answer [expected]. *)
Definition count_draws (keys : list string) (expected : list bool)
    (w : World) (draws : list (list Z)) : nat :=
  length (List.filter
            (fun ds => bool_decide
               ((cache_checks keys (set_entropy ds w)).1 = Return expected))
            draws).

(** The requests the two services answer, with their parameters
    ([environ] is the environment the bookshop was started in). *)
Inductive Request :=
| GET_bookshop_root (environ : gmap string string)
| GET_health (environ : gmap string string)
| GET_books (author : option string) (min_price : option PyFloat)
| GET_book (book_id : Z)
| POST_orders (order : OrderRequest)
| GET_stats
| GET_ecommerce_root
| GET_work.

Definition handler (q : Request) : M Json :=
  match q with
  | GET_bookshop_root environ => Bookshop.root environ
  | GET_health environ => Bookshop.health environ
  | GET_books author min_price => Bookshop.list_books author min_price
  | GET_book book_id => Bookshop.get_book book_id
  | POST_orders order => Bookshop.create_order order
  | GET_stats => Bookshop.get_stats
  | GET_ecommerce_root => ECommerce.root
  | GET_work => ECommerce.do_work
  end.

(** The context stack only holds handles of allocated spans. *)
Definition well_formed (w : World) : Prop :=
  Forall (fun h => (h < next_handle w)%nat) (current w).

(** The spans a piece of code exports, in the order they end, when it runs
    between the clock readings [lo] and [hi] under the current span [pc] in
    a process with resource [res]: a sequence of trees, each made of the
    spans nested in a [with] block followed by the span of the block. *)
Inductive span_forest (res : gmap string string) (pc : option SpanContext)
    (lo hi : Z) : list Span -> Prop :=
| forest_nil : lo <= hi -> span_forest res pc lo hi []
| forest_tree earlier kids s t :
    span_forest res pc lo hi earlier ->
    parent s = pc ->
    resource s = res ->
    end_time s = Some t ->
    lo <= start_time s ->
    start_time s <= t ->
    t <= hi ->
    span_forest res (Some (span_context s)) (start_time s) t kids ->
    span_forest res pc lo hi (earlier ++ kids ++ [s]).

(** What no operation on a span changes once it is started and, for the end
    time, once it is ended. *)
Definition span_core (s : Span)
  : SpanContext * option SpanContext * Z * option Z * gmap string string :=
  (span_context s, parent s, start_time s, end_time s, resource s).

(** [follows w w']: [w'] is reached from [w] by code that keeps to the
    discipline of [with] blocks. *)
Record follows (w w' : World) : Prop := {
  follows_clock : clock w <= clock w';
  follows_current : current w' = current w;
  follows_handles : (next_handle w <= next_handle w')%nat;
  follows_resource : provider_resource w' = provider_resource w;
  follows_heap : forall h,
    (h < next_handle w)%nat ->
    span_core <$> spans w' !! h = span_core <$> spans w !! h;
  follows_exported : exists new,
    exported w' = exported w ++ new
    /\ span_forest (provider_resource w) (Otel.get_current_span_context w)
         (clock w) (clock w') new
}.

Definition traced {A} (m : M A) : Prop :=
  forall w, well_formed w -> follows w (m w).2.

(** The lifetime of [c] lies within the lifetime of [p]. *)
Definition interval_within (c p : Span) : Prop :=
  exists tc tp,
    end_time c = Some tc /\ end_time p = Some tp
    /\ start_time p <= start_time c /\ tc <= tp.

(** Every stock of the catalog is non-negative. *)
Definition stocks_nonneg (db : list (Z * Book.t)) : Prop :=
  Forall (fun kv => 0 <= Book.stock kv.2) db.

(** The process after a sequence of orders, each answered before the next
    arrives. *)
Fixpoint place_orders (orders : list OrderRequest) (w : World) : World :=
  match orders with
  | [] => w
  | order :: rest => place_orders rest (Bookshop.create_order order w).2
  end.

(** What one order does to the catalog: a failed order nothing, a successful
    one takes the quantity off the stock of the book, which held at least as
    many. *)
Definition order_effect (order : OrderRequest) (r : Result Json)
    (db db' : list (Z * Book.t)) : Prop :=
  match r with
  | Raise _ => db' = db
  | Return _ =>
      exists b,
        Bookshop.dict_get db (book_id order) = Some b
        /\ quantity order <= Book.stock b
        /\ db' = Bookshop.dict_alter
                   (fun b' => Book.set_stock b' (Book.stock b - quantity order))
                   (book_id order) db
  end.

(** *** Further vocabulary *)

(** Code that leaves the catalog as it finds it. *)
Definition read_only {A} (m : M A) : Prop :=
  forall w, BOOKS_DB (m w).2 = BOOKS_DB w.

(** The request is an order, the one request that writes to the catalog. *)
Definition is_order (q : Request) : bool :=
  match q with
  | POST_orders _ => true
  | _ => false
  end.

(** What identifies the books of a catalog: everything but the stocks. *)
Definition catalog_shape (db : list (Z * Book.t))
  : list (Z * (Z * string * string * PyFloat)) :=
  map (fun kv => (kv.1, (Book.id kv.2, Book.title kv.2, Book.author kv.2,
                         Book.price kv.2))) db.

(** The number of copies in the catalog. *)
Definition total_stock (db : list (Z * Book.t)) : Z :=
  Bookshop.sum_Z (map Book.stock (Bookshop.dict_values db)).

(** The total of an order for the book [b] is a finite float: the quantity
    and the product with the price have a magnitude of 2^1023 at most, half
    of where floats end. *)
Definition total_in_range (b : Book.t) (order : OrderRequest) : Prop :=
  Z.abs (quantity order) <= 2 ^ 1023
  /\ (- inject_Z (2 ^ 1023)
      <= Book.price b * inject_Z (quantity order)
      <= inject_Z (2 ^ 1023))%Q.

(** The process after a sequence of requests, each answered before the next
    arrives. *)
Fixpoint serve (requests : list Request) (w : World) : World :=
  match requests with
  | [] => w
  | q :: rest => serve rest (handler q w).2
  end.

(** Code that starts and ends no span. *)
Definition quiet {A} (m : M A) : Prop :=
  forall w,
    next_handle (m w).2 = next_handle w /\ exported (m w).2 = exported w.

(** [closes w w']: every span started on the way from [w] to [w'] is ended
    and exported by then, and the spans exported belong to the trace of the
    span that was current, if there was one. *)
Record closes (w w' : World) : Prop := {
  closes_heap : forall h,
    (next_handle w <= h < next_handle w')%nat ->
    exists s t, spans w' !! h = Some s /\ end_time s = Some t;
  closes_exported : exists new,
    exported w' = exported w ++ new
    /\ length new = (next_handle w' - next_handle w)%nat
    /\ forall c, Otel.get_current_span_context w = Some c ->
         Forall (fun s => trace_id (span_context s) = trace_id c) new
}.

(** Code that keeps to the discipline of [with] blocks and leaves no span
    of its own open. *)
Definition tidy {A} (m : M A) : Prop :=
  forall w, well_formed w -> follows w (m w).2 /\ closes w (m w).2.

(** The time, in nanoseconds, that the simulated queries and calls of a
    route take at the least, whatever the request and its outcome. *)
Definition min_latency (q : Request) : Z :=
  match q with
  | GET_bookshop_root _ | GET_health _ | GET_ecommerce_root => 0
  | GET_books _ _ => 15 * 10 ^ 6
  | GET_book _ => 10 * 10 ^ 6
  | POST_orders _ => 10 * 10 ^ 6
  | GET_stats => 30 * 10 ^ 6
  | GET_work => 300 * 10 ^ 6
  end.

(** * Proofs *)

(** ** The operation simulator *)

Lemma cache_check_run key w :
  Bookshop.simulate_cache_check key w =
  (Return (hd 0 (entropy w) mod 3 =? 0), set_entropy (tl (entropy w)) w).
Proof.
  unfold Bookshop.simulate_cache_check, random.choice, bind, random._randbelow, ret.
  change (Z.of_nat (length [true; false; false])) with 3.
  assert (H: 0 <= hd 0 (entropy w) mod 3 < 3) by (apply Z.mod_pos_bound; lia).
  do 2 f_equal.
  destruct (Z.eqb_spec (hd 0 (entropy w) mod 3) 0) as [E|E].
  - by rewrite E.
  - destruct (Z.to_nat (hd 0 (entropy w) mod 3)) as [|[|[|n]]] eqn:En;
      try reflexivity; lia.
Qed.

Lemma cache_checks_entropy keys : forall w1 w2,
  entropy w1 = entropy w2 -> (cache_checks keys w1).1 = (cache_checks keys w2).1.
Proof.
  induction keys as [|k keys IH]; intros w1 w2 E; [reflexivity|].
  cbn [cache_checks]. unfold bind at 1 3.
  rewrite !cache_check_run, E. unfold bind.
  specialize (IH (set_entropy (tl (entropy w2)) w1)
                 (set_entropy (tl (entropy w2)) w2) eq_refl).
  destruct (cache_checks keys (set_entropy (tl (entropy w2)) w1)) as [r1 w1'].
  destruct (cache_checks keys (set_entropy (tl (entropy w2)) w2)) as [r2 w2'].
  cbn in IH. subst r2. by destruct r1.
Qed.

Lemma cache_checks_cons key keys d ds w :
  (cache_checks (key :: keys) (set_entropy (d :: ds) w)).1 =
  match (cache_checks keys (set_entropy ds w)).1 with
  | Return hits => Return ((d mod 3 =? 0) :: hits)
  | Raise e => Raise e
  end.
Proof.
  cbn [cache_checks]. unfold bind at 1. rewrite cache_check_run.
  cbn [entropy set_entropy hd tl]. unfold bind.
  rewrite (surjective_pairing (cache_checks keys _)).
  erewrite (cache_checks_entropy keys _ (set_entropy ds w)) by reflexivity.
  by destruct ((cache_checks keys (set_entropy ds w)).1).
Qed.

Lemma count_draws_cons key keys b bs w d draws :
  count_draws (key :: keys) (b :: bs) w (map (cons d) draws) =
  if Bool.eqb (d mod 3 =? 0) b then count_draws keys bs w draws else 0%nat.
Proof.
  unfold count_draws.
  induction draws as [|ds draws IH]; [by destruct (Bool.eqb _ _)|].
  cbn [map List.filter]. rewrite cache_checks_cons.
  destruct (Bool.eqb (d mod 3 =? 0) b) eqn:Hb.
  - apply Bool.eqb_prop in Hb.
    destruct ((cache_checks keys (set_entropy ds w)).1) as [hits|e].
    + destruct (decide (hits = bs)) as [->|Hne].
      * rewrite Hb, !bool_decide_eq_true_2 by done. cbn [length]. by rewrite IH.
      * rewrite !bool_decide_eq_false_2 by congruence. exact IH.
    + rewrite !bool_decide_eq_false_2 by discriminate. exact IH.
  - apply Bool.eqb_false_iff in Hb.
    destruct ((cache_checks keys (set_entropy ds w)).1) as [hits|e];
      rewrite bool_decide_eq_false_2 by congruence; exact IH.
Qed.

Lemma count_draws_app keys bs w l1 l2 :
  count_draws keys bs w (l1 ++ l2) =
  (count_draws keys bs w l1 + count_draws keys bs w l2)%nat.
Proof. unfold count_draws. by rewrite List.filter_app, length_app. Qed.

Lemma all_draws_length k : length (all_draws [0; 1; 2] k) = (3 ^ k)%nat.
Proof.
  induction k as [|k IH]; [reflexivity|].
  cbn [all_draws flat_map]. rewrite !length_app, !length_map, IH.
  cbn [length Nat.pow]. lia.
Qed.

(** C3: the cache-lookup simulator answers from one draw among three equally
    likely outcomes, of which exactly one is a hit, on every call and whatever
    the key and the state.  Successive calls use successive draws: of the
    [3 ^ n] outcomes of [n] calls, those that produce a given pattern of
    answers number [1] per hit times [2] per miss, which is the product law
    of independent calls with hit probability one third. *)
Theorem cache_hit_one_in_three :
  (forall key w,
      (Bookshop.simulate_cache_check key w).1
      = Return (hd 0 (entropy w) mod 3 =? 0))
  /\ (forall key w, count_draws [key] [true] w (all_draws [0; 1; 2] 1) = 1%nat)
  /\ (forall (calls : list (string * bool)) w,
        count_draws (map fst calls) (map snd calls) w
          (all_draws [0; 1; 2] (length calls))
        = (2 ^ length (List.filter negb (map snd calls)))%nat
        /\ length (all_draws [0; 1; 2] (length calls)) = (3 ^ length calls)%nat).
Proof.
  split; [|split].
  - intros key w. by rewrite cache_check_run.
  - intros key w. cbn [all_draws flat_map app map].
    change ([[0]; [1]; [2]])
      with (map (cons 0) [[]] ++ map (cons 1) [[]] ++ map (cons 2) [[]]).
    by rewrite !count_draws_app, !count_draws_cons.
  - intros calls w. split; [|apply all_draws_length].
    induction calls as [|[key b] calls IH]; [reflexivity|].
    cbn [length all_draws flat_map map fst snd].
    rewrite app_nil_r, !count_draws_app, !count_draws_cons, IH.
    change (0 mod 3 =? 0) with true. change (1 mod 3 =? 0) with false.
    change (2 mod 3 =? 0) with false.
    destruct b; cbn; lia.
Qed.

(** ** Running computations *)

Lemma wp_ret {A} (a : A) w Q : Q (Return a) w -> wp (ret a) w Q.
Proof. done. Qed.

Lemma wp_raise {A} e w (Q : Result A -> World -> Prop) :
  Q (Raise e) w -> wp (raise e) w Q.
Proof. done. Qed.

Lemma wp_bind {A B} (m : M A) (k : A -> M B) w Q :
  wp m w (fun r w1 => match r with
                      | Return a => wp (k a) w1 Q
                      | Raise e => Q (Raise e) w1
                      end) ->
  wp (bind m k) w Q.
Proof.
  unfold wp, bind. destruct (m w) as [[a|e] w1]; cbn; [|done].
  by destruct (k a w1).
Qed.

Lemma wp_run {A} (m : M A) w r w' Q : m w = (r, w') -> Q r w' -> wp m w Q.
Proof. unfold wp. by intros ->. Qed.

Lemma wp_elim {A} (m : M A) w Q : wp m w Q -> exists r w', m w = (r, w') /\ Q r w'.
Proof. unfold wp. destruct (m w) as [r w']. eauto. Qed.

Lemma sleep_run secs w :
  0 <= Qnum secs ->
  time.sleep secs w =
  (Return tt, set_time (time.now w + time.ns_of_secs secs) (tl (elapsed w)) w).
Proof.
  intros H. unfold time.sleep.
  destruct (Z.ltb_spec (Qnum secs) 0); [lia|done].
Qed.

Lemma randint_run a b w :
  a <= b ->
  random.randint a b w =
  (Return (a + hd 0 (entropy w) mod (b - a + 1)), set_entropy (tl (entropy w)) w).
Proof.
  intros H. unfold random.randint.
  destruct (Z.ltb_spec b a); [lia|done].
Qed.

Lemma ns_of_ms d : time.ns_of_secs (Qmake d 1000) = d * 10 ^ 6.
Proof.
  unfold time.ns_of_secs. cbn [Qnum Qden].
  replace (d * 10 ^ 9) with (d * 10 ^ 6 * 1000) by lia.
  by rewrite Z.div_mul.
Qed.

Lemma simulate_db_query_run op d w :
  0 <= d ->
  Bookshop.simulate_db_query op (Some d) w =
  (Return tt, set_time (time.now w + d * 10 ^ 6) (tl (elapsed w)) w).
Proof.
  intros H. unfold Bookshop.simulate_db_query, bind, ret.
  rewrite sleep_run by done. by rewrite ns_of_ms.
Qed.

Lemma simulate_db_query_default_run op w :
  Bookshop.simulate_db_query op None w =
  (Return tt,
   set_time (time.now w + (10 + hd 0 (entropy w) mod 41) * 10 ^ 6)
     (tl (elapsed w)) (set_entropy (tl (entropy w)) w)).
Proof.
  unfold Bookshop.simulate_db_query, bind at 1.
  rewrite randint_run by lia. change (50 - 10 + 1) with 41.
  pose proof (Z.mod_pos_bound (hd 0 (entropy w)) 41 ltac:(lia)).
  unfold bind, ret. rewrite sleep_run by (cbn; lia). by rewrite ns_of_ms.
Qed.

Lemma set_attribute_run h key v w s :
  spans w !! h = Some s -> end_time s = None -> String.eqb key "" = false ->
  Otel.set_attribute h key v w =
  (Return tt,
   set_spans
     (<[h := Otel.set_attributes (<[key := v]> (attributes s)) s]> (spans w)) w).
Proof. intros H1 H2 H3. unfold Otel.set_attribute. by rewrite H1, H2, H3. Qed.

Lemma contains_key_run key w :
  Bookshop.contains_key key w =
  (Return (bool_decide (is_Some (Bookshop.dict_get (BOOKS_DB w) key))), w).
Proof. done. Qed.

Lemma getitem_run {A} key (field : Book.t -> A) w b :
  Bookshop.dict_get (BOOKS_DB w) key = Some b ->
  Bookshop.getitem key field w = (Return (field b), w).
Proof. intros H. unfold Bookshop.getitem. by rewrite H. Qed.

(** The world in which the body of a [with] block starts. *)
Lemma wp_with {A} name (body : nat -> M A) w Q :
  (forall pc ctx src,
      pc = Otel.get_current_span_context w ->
      Otel.new_context pc (id_entropy w) = (ctx, src) ->
      wp (body (next_handle w))
        (set_current (next_handle w :: current w)
           (set_time (time.now w) (tl (elapsed w))
              (set_id_entropy src
                 (set_next_handle (S (next_handle w))
                    (set_spans
                       (<[next_handle w :=
                            Otel.new_span name ctx pc
                              (time.now w) (provider_resource w)]> (spans w))
                       w)))))
        (fun r w2 =>
           Q r (Otel.use_span_exit (next_handle w) (current w) r w2))) ->
  wp (Otel.start_as_current_span name body) w Q.
Proof.
  intros H. unfold wp, Otel.start_as_current_span, Otel.start_span.
  destruct (Otel.new_context _ _) as [ctx src] eqn:E.
  specialize (H _ ctx src eq_refl E). unfold wp in H. cbn [fst snd].
  cbn [current set_time set_id_entropy set_next_handle set_spans] in *.
  match goal with |- context [body ?h ?w1] => destruct (body h w1) as [r w2] end.
  exact H.
Qed.

Ltac world_simpl :=
  cbn beta iota zeta delta
    [set_BOOKS_DB set_time set_entropy set_id_entropy set_spans set_next_handle
     set_current set_exported set_warnings Otel.warn
     BOOKS_DB clock elapsed entropy id_entropy provider_resource spans
     next_handle current exported warnings time.now
     Otel.set_attributes Otel.set_events Otel.set_span_status Otel.set_end_time
     Otel.new_span
     name span_context parent start_time end_time attributes events status
     resource].

Ltac world_simpl_in H :=
  cbn beta iota zeta delta
    [set_BOOKS_DB set_time set_entropy set_id_entropy set_spans set_next_handle
     set_current set_exported set_warnings Otel.warn
     BOOKS_DB clock elapsed entropy id_entropy provider_resource spans
     next_handle current exported warnings time.now
     Otel.set_attributes Otel.set_events Otel.set_span_status Otel.set_end_time
     Otel.new_span
     name span_context parent start_time end_time attributes events status
     resource] in H.

Ltac world_norm :=
  cbv beta iota zeta delta
    [set_BOOKS_DB set_time set_entropy set_id_entropy set_spans set_next_handle
     set_current set_exported set_warnings Otel.warn
     BOOKS_DB clock elapsed entropy id_entropy provider_resource spans
     next_handle current exported warnings time.now
     Otel.set_attributes Otel.set_events Otel.set_span_status Otel.set_end_time
     Otel.new_span
     name span_context parent start_time end_time attributes events status
     resource].

Ltac world_norm_in H :=
  cbv beta iota zeta delta
    [set_BOOKS_DB set_time set_entropy set_id_entropy set_spans set_next_handle
     set_current set_exported set_warnings Otel.warn
     BOOKS_DB clock elapsed entropy id_entropy provider_resource spans
     next_handle current exported warnings time.now
     Otel.set_attributes Otel.set_events Otel.set_span_status Otel.set_end_time
     Otel.new_span
     name span_context parent start_time end_time attributes events status
     resource] in H.

Ltac heap_lookup :=
  world_norm;
  repeat first [ rewrite lookup_insert_eq | rewrite lookup_insert_ne by lia ];
  reflexivity.

Lemma use_span_exit_return {A} h saved (a : A) w s :
  spans w !! h = Some s -> end_time s = None ->
  Otel.use_span_exit h saved (Return a) w =
  set_time (time.now w) (tl (elapsed w))
    (set_exported (exported w ++ [Otel.set_end_time (time.now w) s])
       (set_spans (<[h := Otel.set_end_time (time.now w) s]> (spans w))
          (set_current saved w))).
Proof.
  intros H1 H2. unfold Otel.use_span_exit, Otel.end_. world_simpl.
  by rewrite H1, H2.
Qed.

Lemma use_span_exit_raise {A} h saved e w s :
  spans w !! h = Some s -> end_time s = None ->
  status_code (status s) <> OK ->
  let t1 := time.now w in
  let t2 := t1 + Z.of_N (hd 0%N (tl (elapsed w))) in
  let s' := Otel.set_end_time t2
              (Otel.set_span_status (Otel.error_status e)
                 (Otel.set_events
                    (events s ++ [Otel.exception_event e t1]) s)) in
  Otel.use_span_exit (A:=A) h saved (Raise e) w =
  set_time t2 (tl (tl (elapsed w)))
    (set_exported (exported w ++ [s'])
       (set_spans
          (<[h := s']>
             (<[h := Otel.set_span_status (Otel.error_status e)
                       (Otel.set_events
                          (events s ++ [Otel.exception_event e t1]) s)]>
                (<[h := Otel.set_events
                          (events s ++ [Otel.exception_event e t1]) s]>
                   (spans w))))
          (set_current saved w))).
Proof.
  intros H1 H2 H3 t1 t2 s'.
  unfold Otel.use_span_exit, bind, Otel.record_exception. world_simpl.
  rewrite H1, H2. unfold Otel.set_status. cbn [fst snd]. world_simpl.
  rewrite lookup_insert_eq. world_simpl. rewrite H2.
  rewrite (bool_decide_eq_false_2 _ H3). cbn [orb bool_decide fst snd].
  rewrite (bool_decide_eq_false_2 (ERROR = UNSET)) by discriminate.
  unfold Otel.end_. cbn [fst snd]. world_simpl.
  rewrite lookup_insert_eq. world_simpl. by rewrite H2.
Qed.

(** The context seen by a child: the span on top of the stack. *)
Lemma current_context_top w h rest s :
  current w = h :: rest -> spans w !! h = Some s ->
  Otel.get_current_span_context w = Some (span_context s).
Proof. intros H1 H2. unfold Otel.get_current_span_context. by rewrite H1, H2. Qed.

Lemma new_context_child c src :
  Otel.new_context (Some c) src =
  ({| trace_id := trace_id c; span_id := (Otel.generate_id 64 src).1 |},
   (Otel.generate_id 64 src).2).
Proof. done. Qed.

Lemma new_context_trace_id c src ctx src' :
  Otel.new_context (Some c) src = (ctx, src') -> trace_id ctx = trace_id c.
Proof. rewrite new_context_child. by intros [= <- _]. Qed.

Lemma record_exception_run h e w s :
  spans w !! h = Some s -> end_time s = None ->
  Otel.record_exception h e w =
  (Return tt,
   set_spans
     (<[h := Otel.set_events
               (events s ++ [Otel.exception_event e (time.now w)]) s]>
        (spans w))
     (set_time (time.now w) (tl (elapsed w)) w)).
Proof. intros H1 H2. unfold Otel.record_exception. by rewrite H1, H2. Qed.

Lemma set_status_run h st w s :
  spans w !! h = Some s -> end_time s = None ->
  status_code (status s) <> OK -> status_code st <> UNSET ->
  Otel.set_status h st w =
  (Return tt, set_spans (<[h := Otel.set_span_status st s]> (spans w)) w).
Proof.
  intros H1 H2 H3 H4. unfold Otel.set_status. rewrite H1, H2.
  by rewrite (bool_decide_eq_false_2 _ H3), (bool_decide_eq_false_2 _ H4).
Qed.

Lemma random_run w :
  random.random w =
  (Return (Qmake (hd 0 (entropy w) mod 2 ^ 53) (2 ^ 53)),
   set_entropy (tl (entropy w)) w).
Proof. done. Qed.

Lemma uniform_run a b w :
  random.uniform a b w =
  (Return (a + (b - a)
              * Qmake (hd 0%Z (entropy w) mod 2 ^ 53)%Z (2 ^ 53)%positive)%Q,
   set_entropy (tl (entropy w)) w).
Proof. done. Qed.

Lemma uniform_delay_nonneg k :
  0 <= k ->
  0 <= Qnum ((1 # 10) + ((5 # 10) - (1 # 10)) * Qmake k (2 ^ 53)%positive)%Q.
Proof. intros H. cbn. lia. Qed.

Lemma wp_try_except {A} (body : M A) handler w Q :
  wp body w (fun r w1 => match r with
                         | Return a => Q (Return a) w1
                         | Raise e => wp (handler e) w1 Q
                         end) ->
  wp (try_except body handler) w Q.
Proof.
  unfold wp, try_except. destruct (body w) as [[a|e] w1]; cbn; [done|].
  by destruct (handler e w1).
Qed.

Lemma setitem_stock_run key n w :
  Bookshop.setitem_stock key n w =
  (Return tt,
   set_BOOKS_DB
     (Bookshop.dict_alter (fun b => Book.set_stock b n) key (BOOKS_DB w)) w).
Proof. done. Qed.

Lemma values_run w :
  Bookshop.values w = (Return (Bookshop.dict_values (BOOKS_DB w)), w).
Proof. done. Qed.

(** One step of a run; afterwards the world is again a record of explicit
    fields. *)
Ltac status_neq := world_norm; cbv [status_code]; discriminate.

Ltac wp_exit :=
  repeat match goal with
  | |- context [@Otel.use_span_exit ?A ?h ?saved (Return ?a) ?w] =>
      erewrite (@use_span_exit_return A h saved a w)
        by (first [heap_lookup | reflexivity]);
      world_norm
  | |- context [@Otel.use_span_exit ?A ?h ?saved (Raise ?e) ?w] =>
      erewrite (@use_span_exit_raise A h saved e w)
        by (first [heap_lookup | reflexivity | status_neq]);
      world_norm
  end.

Ltac wp_with_step :=
  apply wp_with;
  let pc := fresh "pc" in
  let ctx := fresh "ctx" in let src := fresh "src" in
  let Hpc := fresh "Hpc" in let Hctx := fresh "Hctx" in
  intros pc ctx src Hpc Hctx; world_norm; world_norm_in Hctx;
  try (erewrite current_context_top in Hpc
         by (first [reflexivity | heap_lookup]);
       world_norm_in Hpc; subst pc).

Ltac wp_prim :=
  lazymatch goal with
  | |- wp (bind _ _) _ _ => apply wp_bind
  | |- wp (ret _) _ _ => apply wp_ret
  | |- wp (raise _) _ _ => apply wp_raise
  | |- wp (try_except _ _) _ _ => apply wp_try_except
  | |- wp (Otel.start_as_current_span _ _) _ _ => wp_with_step
  | |- wp (Otel.set_attribute _ _ _) _ _ =>
      eapply wp_run;
      [eapply set_attribute_run; [heap_lookup | reflexivity | reflexivity] |]
  | |- wp (Otel.record_exception _ _) _ _ =>
      eapply wp_run;
      [eapply record_exception_run; [heap_lookup | reflexivity] |]
  | |- wp (Otel.set_status _ _) _ _ =>
      eapply wp_run;
      [eapply set_status_run;
       [heap_lookup | reflexivity | status_neq | status_neq] |]
  | |- wp (Bookshop.simulate_db_query _ None) _ _ =>
      eapply wp_run; [apply simulate_db_query_default_run |]
  | |- wp (Bookshop.simulate_cache_check _) _ _ =>
      eapply wp_run; [apply cache_check_run |]
  | |- wp (Bookshop.contains_key _) _ _ =>
      eapply wp_run; [apply contains_key_run |]
  | |- wp (Bookshop.getitem _ _) _ _ =>
      eapply wp_run; [eapply getitem_run; world_norm; eassumption |]
  | |- wp (Bookshop.setitem_stock _ _) _ _ =>
      eapply wp_run; [apply setitem_stock_run |]
  | |- wp Bookshop.values _ _ =>
      eapply wp_run; [apply values_run |]
  | |- wp (time.sleep _) _ _ =>
      eapply wp_run;
      [apply sleep_run;
       first [ apply uniform_delay_nonneg; apply Z.mod_pos_bound; lia
             | cbn; lia ] |]
  | |- wp (Bookshop.simulate_db_query _ (Some _)) _ _ =>
      eapply wp_run;
      [apply simulate_db_query_run;
       match goal with
       | |- 0 <= ?a + ?x mod ?n =>
           pose proof (Z.mod_pos_bound x n ltac:(lia)); lia
       end |]
  | |- wp (random.randint _ _) _ _ =>
      eapply wp_run; [apply randint_run; lia |]
  | |- wp random.random _ _ =>
      eapply wp_run; [apply random_run |]
  | |- wp (random.uniform _ _) _ _ =>
      eapply wp_run; [apply uniform_run |]
  end.

Ltac wp_step :=
  wp_prim; cbv beta iota; wp_exit; world_norm; rewrite ?insert_insert_eq.

Ltac wp_run := repeat wp_step.

(** ** The span trees of the bookshop handlers *)

(** C1 (as amended): a request for a book of the catalog returns the book and
    hands exactly three spans to the exporter, "cache_lookup",
    "database_query" and "get_book" in the order they end.  The two children
    have the "get_book" span as parent and share its trace id, the
    "get_book" span has the span current at the call as parent, hence none
    when the handler starts the trace.  "database_query" carries the
    attribute book_id.  No status is ever set on this path: the three spans
    end with status UNSET, not OK. *)
Theorem get_book_span_tree (book_id : Z) (b : Book.t) (w : World) :
  Bookshop.dict_get (BOOKS_DB w) book_id = Some b ->
  exists cache query root w',
    Bookshop.get_book book_id w
    = (Return (JDict [("book", Book.to_json b)]%string), w')
    /\ exported w' = exported w ++ [cache; query; root]
    /\ name cache = "cache_lookup"%string
    /\ name query = "database_query"%string
    /\ name root = "get_book"%string
    /\ parent root = Otel.get_current_span_context w
    /\ (current w = [] -> parent root = None)
    /\ parent cache = Some (span_context root)
    /\ parent query = Some (span_context root)
    /\ trace_id (span_context cache) = trace_id (span_context root)
    /\ trace_id (span_context query) = trace_id (span_context root)
    /\ attributes query !! "book_id"%string = Some (AInt book_id)
    /\ status_code (status root) = UNSET
    /\ status_code (status cache) = UNSET
    /\ status_code (status query) = UNSET.
Proof.
  intros Hb.
  enough (H : wp (Bookshop.get_book book_id) w (fun r w' =>
    exists cache query root,
      r = Return (JDict [("book", Book.to_json b)]%string)
      /\ exported w' = exported w ++ [cache; query; root]
      /\ name cache = "cache_lookup"%string
      /\ name query = "database_query"%string
      /\ name root = "get_book"%string
      /\ parent root = Otel.get_current_span_context w
      /\ parent cache = Some (span_context root)
      /\ parent query = Some (span_context root)
      /\ trace_id (span_context cache) = trace_id (span_context root)
      /\ trace_id (span_context query) = trace_id (span_context root)
      /\ attributes query !! "book_id"%string = Some (AInt book_id)
      /\ status_code (status root) = UNSET
      /\ status_code (status cache) = UNSET
      /\ status_code (status query) = UNSET)).
  { apply wp_elim in H as (r & w' & Hrun & cache & query & root & -> & H).
    exists cache, query, root, w'. split; [done|].
    destruct H as (?&?&?&?&Hp&?). repeat split; try tauto.
    intros Hcur. rewrite Hp. unfold Otel.get_current_span_context.
    by rewrite Hcur. }
  destruct w as [db clk els ent ident res sp nh cur ex wn].
  cbn in Hb. unfold Bookshop.get_book.
  wp_run.
  rewrite bool_decide_eq_true_2 by (rewrite Hb; eauto). cbn [negb].
  wp_run.
  do 3 eexists. split; [reflexivity|]. split.
  { rewrite <- !app_assoc. reflexivity. }
  apply new_context_trace_id in Hctx0, Hctx1.
  world_norm. rewrite lookup_insert_eq. by repeat split.
Qed.

Lemma get_book_span_tree_witness :
  Bookshop.dict_get (BOOKS_DB sample_bookshop) 2 = Some book_1984
  /\ exists cache query root w',
      Bookshop.get_book 2 sample_bookshop
      = (Return (JDict [("book", Book.to_json book_1984)]%string), w')
      /\ exported w' = exported sample_bookshop ++ [cache; query; root]
      /\ parent root = None
      /\ status_code (status root) = UNSET.
Proof.
  split; [reflexivity|].
  destruct (get_book_span_tree 2 book_1984 sample_bookshop eq_refl)
    as (cache & query & root & w' & H1 & H2 & _ & _ & _ & _ & H3 & _ & _ & _
        & _ & _ & H4 & _).
  exists cache, query, root, w'. repeat split; auto.
Defined.

(** C1 as stated has the root span end with status OK; on the
    request for book 2 the "get_book" span is exported with status UNSET. *)
Lemma get_book_root_status_is_not_OK :
  exists root,
    last (exported (Bookshop.get_book 2 sample_bookshop).2) = Some root
    /\ name root = "get_book"%string
    /\ status_code (status root) = UNSET
    /\ status_code (status root) <> OK.
Proof. eexists. split; [vm_compute; reflexivity|]. by repeat split. Qed.

Lemma contains_key_absent db key :
  Bookshop.dict_get db key = None ->
  bool_decide (is_Some (Bookshop.dict_get db key)) = false.
Proof. intros ->. apply bool_decide_eq_false_2. by intros [? ?]. Qed.

Lemma contains_key_present db key b :
  Bookshop.dict_get db key = Some b ->
  bool_decide (is_Some (Bookshop.dict_get db key)) = true.
Proof. intros ->. by apply bool_decide_eq_true_2. Qed.

(** C2: an order for a book that is not in the catalog fails in
    "validate_book".  Exactly two spans are exported, "validate_book" under
    "create_order"; both carry the recorded exception and the status ERROR
    with a description that contains "not found".  The caller gets the
    response 404 "Book not found", the process goes on with an unchanged
    catalog. *)
Theorem create_order_unknown_book (order : OrderRequest) (w : World) :
  Bookshop.dict_get (BOOKS_DB w) (book_id order) = None ->
  exists validate root w' t t',
    Bookshop.create_order order w
    = (Raise (HTTPException 404 "Book not found"), w')
    /\ FastAPI.call (Bookshop.create_order order) w
       = ({| FastAPI.http_status := 404;
             FastAPI.content := JDict [("detail", JStr "Book not found")]%string |},
          w')
    /\ exported w' = exported w ++ [validate; root]
    /\ name validate = "validate_book"%string
    /\ name root = "create_order"%string
    /\ parent root = Otel.get_current_span_context w
    /\ parent validate = Some (span_context root)
    /\ trace_id (span_context validate) = trace_id (span_context root)
    /\ status validate
       = {| status_code := ERROR;
            description := Some "HTTPException: 404: Book not found"%string |}
    /\ status root = status validate
    /\ Py.contains "not found" "HTTPException: 404: Book not found" = true
    /\ attributes validate !! "error"%string = Some (ABool true)
    /\ events validate
       = [Otel.exception_event (HTTPException 404 "Book not found") t]
    /\ events root
       = [Otel.exception_event (HTTPException 404 "Book not found") t']
    /\ BOOKS_DB w' = BOOKS_DB w.
Proof.
  intros Hb.
  enough (H : wp (Bookshop.create_order order) w (fun r w' =>
    exists validate root t t',
      r = Raise (HTTPException 404 "Book not found")
      /\ exported w' = exported w ++ [validate; root]
      /\ name validate = "validate_book"%string
      /\ name root = "create_order"%string
      /\ parent root = Otel.get_current_span_context w
      /\ parent validate = Some (span_context root)
      /\ trace_id (span_context validate) = trace_id (span_context root)
      /\ status validate
         = {| status_code := ERROR;
              description := Some "HTTPException: 404: Book not found"%string |}
      /\ status root = status validate
      /\ Py.contains "not found" "HTTPException: 404: Book not found" = true
      /\ attributes validate !! "error"%string = Some (ABool true)
      /\ events validate
         = [Otel.exception_event (HTTPException 404 "Book not found") t]
      /\ events root
         = [Otel.exception_event (HTTPException 404 "Book not found") t']
      /\ BOOKS_DB w' = BOOKS_DB w)).
  { apply wp_elim in H as (r & w' & Hrun & validate & root & t & t' & -> & H).
    exists validate, root, w', t, t'. split; [done|]. split; [|done].
    unfold FastAPI.call. by rewrite Hrun. }
  destruct w as [db clk els ent ident res sp nh cur ex wn].
  cbn in Hb. unfold Bookshop.create_order, Bookshop.validate_book.
  wp_run.
  rewrite (contains_key_absent _ _ Hb). cbn [negb].
  wp_run.
  do 4 eexists. split; [reflexivity|]. split.
  { rewrite <- !app_assoc. reflexivity. }
  apply new_context_trace_id in Hctx0.
  world_norm. rewrite lookup_insert_eq. by repeat split.
Qed.

Lemma create_order_unknown_book_witness :
  Bookshop.dict_get (BOOKS_DB sample_bookshop) 999 = None
  /\ exists validate root w',
      FastAPI.call
        (Bookshop.create_order
           {| book_id := 999; quantity := 1; customer_email := "a@b.c" |})
        sample_bookshop
      = ({| FastAPI.http_status := 404;
            FastAPI.content := JDict [("detail", JStr "Book not found")]%string |},
         w')
      /\ exported w' = exported sample_bookshop ++ [validate; root]
      /\ status_code (status validate) = ERROR
      /\ status_code (status root) = ERROR.
Proof.
  split; [reflexivity|].
  destruct (create_order_unknown_book
              {| book_id := 999; quantity := 1; customer_email := "a@b.c" |}
              sample_bookshop eq_refl)
    as (validate & root & w' & t & t' & _ & H1 & H2 & _ & _ & _ & _ & _ & H3
        & H4 & _).
  exists validate, root, w'. rewrite H4, H3. repeat split; auto.
Defined.

(** C7: an order for more copies than the catalog holds fails in
    "check_inventory".  That span records the exception and the attribute
    error, and ends with status ERROR, as does "create_order".  The caller
    gets the response 400 "Insufficient stock", and the catalog is left as
    it was. *)
Theorem create_order_insufficient_stock (order : OrderRequest) (b : Book.t)
    (w : World) :
  Bookshop.dict_get (BOOKS_DB w) (book_id order) = Some b ->
  Book.stock b < quantity order ->
  exists validate inventory root w' t,
    Bookshop.create_order order w
    = (Raise (HTTPException 400 "Insufficient stock"), w')
    /\ FastAPI.call (Bookshop.create_order order) w
       = ({| FastAPI.http_status := 400;
             FastAPI.content :=
               JDict [("detail", JStr "Insufficient stock")]%string |},
          w')
    /\ exported w' = exported w ++ [validate; inventory; root]
    /\ name validate = "validate_book"%string
    /\ name inventory = "check_inventory"%string
    /\ name root = "create_order"%string
    /\ parent inventory = Some (span_context root)
    /\ status inventory
       = {| status_code := ERROR;
            description :=
              Some "HTTPException: 400: Insufficient stock"%string |}
    /\ events inventory
       = [Otel.exception_event (HTTPException 400 "Insufficient stock") t]
    /\ attributes inventory !! "error"%string = Some (ABool true)
    /\ attributes inventory !! "available_stock"%string
       = Some (AInt (Book.stock b))
    /\ attributes inventory !! "requested_quantity"%string
       = Some (AInt (quantity order))
    /\ status_code (status validate) = UNSET
    /\ status root = status inventory
    /\ BOOKS_DB w' = BOOKS_DB w.
Proof.
  intros Hb Hlt.
  enough (H : wp (Bookshop.create_order order) w (fun r w' =>
    exists validate inventory root t,
      r = Raise (HTTPException 400 "Insufficient stock")
      /\ exported w' = exported w ++ [validate; inventory; root]
      /\ name validate = "validate_book"%string
      /\ name inventory = "check_inventory"%string
      /\ name root = "create_order"%string
      /\ parent inventory = Some (span_context root)
      /\ status inventory
         = {| status_code := ERROR;
              description :=
                Some "HTTPException: 400: Insufficient stock"%string |}
      /\ events inventory
         = [Otel.exception_event (HTTPException 400 "Insufficient stock") t]
      /\ attributes inventory !! "error"%string = Some (ABool true)
      /\ attributes inventory !! "available_stock"%string
         = Some (AInt (Book.stock b))
      /\ attributes inventory !! "requested_quantity"%string
         = Some (AInt (quantity order))
      /\ status_code (status validate) = UNSET
      /\ status root = status inventory
      /\ BOOKS_DB w' = BOOKS_DB w)).
  { apply wp_elim in H as (r & w' & Hrun & validate & inventory & root & t & -> & H).
    exists validate, inventory, root, w', t. split; [done|]. split; [|done].
    unfold FastAPI.call. by rewrite Hrun. }
  destruct w as [db clk els ent ident res sp nh cur ex wn].
  cbn in Hb. unfold Bookshop.create_order, Bookshop.validate_book.
  wp_run.
  rewrite (contains_key_present _ _ _ Hb). cbn [negb].
  wp_run. unfold Bookshop.check_inventory. wp_run.
  destruct (Z.ltb_spec (Book.stock b) (quantity order)); [|lia].
  wp_run.
  do 4 eexists. split; [reflexivity|]. split.
  { rewrite <- !app_assoc. reflexivity. }
  world_norm.
  rewrite lookup_insert_eq, lookup_insert_ne, lookup_insert_ne, lookup_insert_eq by done.
  by repeat split.
Qed.

Lemma create_order_insufficient_stock_witness :
  Bookshop.dict_get (BOOKS_DB sample_bookshop) 2 = Some book_1984
  /\ Book.stock book_1984 < 33
  /\ exists validate inventory root w',
      FastAPI.call
        (Bookshop.create_order
           {| book_id := 2; quantity := 33; customer_email := "a@b.c" |})
        sample_bookshop
      = ({| FastAPI.http_status := 400;
            FastAPI.content :=
              JDict [("detail", JStr "Insufficient stock")]%string |},
         w')
      /\ exported w' = exported sample_bookshop ++ [validate; inventory; root]
      /\ status_code (status inventory) = ERROR
      /\ BOOKS_DB w' = BOOKS_DB sample_bookshop.
Proof.
  split; [reflexivity|]. split; [reflexivity|].
  destruct (create_order_insufficient_stock
              {| book_id := 2; quantity := 33; customer_email := "a@b.c" |}
              book_1984 sample_bookshop eq_refl eq_refl)
    as (validate & inventory & root & w' & t & _ & H1 & H2 & _ & _ & _ & _
        & H3 & _ & _ & _ & _ & _ & _ & H4).
  exists validate, inventory, root, w'. rewrite H3. repeat split; auto.
Defined.

(** ** The e-commerce handler *)

(** The fault fires for the draws [k / 2^53] with [k <= 2702159776422297]:
    the comparison with the rational 3/10 decides as the comparison with
    the double nearest to 0.3, which is [5404319552844595 / 2^54]. *)
Lemma fault_threshold k :
  ECommerce.flt (Qmake k (2 ^ 53)) (3 # 10) = (2 * k <? 5404319552844595).
Proof.
  unfold ECommerce.flt. cbn [Qnum Qden].
  destruct (Z.ltb_spec (k * 10) (3 * Z.pos (2 ^ 53)));
    destruct (Z.ltb_spec (2 * k) 5404319552844595); try reflexivity; lia.
Qed.

(** C6: when the injected fault of /work fires, the exception is recorded on
    the "work.parent" span and its status is set to ERROR, the three children
    are untouched, and the handler still returns [{"result": "done"}], which
    the caller receives as a 200 response. *)
Theorem do_work_injected_fault (w : World) :
  ECommerce.flt (fault_draw w) (3 # 10) = true ->
  exists child0 child1 child2 root w' t,
    ECommerce.do_work w = (Return (JDict [("result", JStr "done")]%string), w')
    /\ FastAPI.call ECommerce.do_work w
       = ({| FastAPI.http_status := 200;
             FastAPI.content := JDict [("result", JStr "done")]%string |}, w')
    /\ exported w' = exported w ++ [child0; child1; child2; root]
    /\ name root = "work.parent"%string
    /\ map name [child0; child1; child2]
       = ["work.child.0"; "work.child.1"; "work.child.2"]%string
    /\ status root = {| status_code := ERROR; description := None |}
    /\ events root
       = [Otel.exception_event (RuntimeError "simulated failure") t]
    /\ event_attributes (Otel.exception_event (RuntimeError "simulated failure") t)
         !! "exception.message"%string
       = Some (AStr "simulated failure")
    /\ map (fun s => status_code (status s)) [child0; child1; child2]
       = [UNSET; UNSET; UNSET]
    /\ map parent [child0; child1; child2]
       = [Some (span_context root); Some (span_context root);
          Some (span_context root)].
Proof.
  intros Hf.
  enough (H : wp ECommerce.do_work w (fun r w' =>
    exists child0 child1 child2 root t,
      r = Return (JDict [("result", JStr "done")]%string)
      /\ exported w' = exported w ++ [child0; child1; child2; root]
      /\ name root = "work.parent"%string
      /\ map name [child0; child1; child2]
         = ["work.child.0"; "work.child.1"; "work.child.2"]%string
      /\ status root = {| status_code := ERROR; description := None |}
      /\ events root
         = [Otel.exception_event (RuntimeError "simulated failure") t]
      /\ event_attributes (Otel.exception_event (RuntimeError "simulated failure") t)
           !! "exception.message"%string
         = Some (AStr "simulated failure")
      /\ map (fun s => status_code (status s)) [child0; child1; child2]
         = [UNSET; UNSET; UNSET]
      /\ map parent [child0; child1; child2]
         = [Some (span_context root); Some (span_context root);
            Some (span_context root)])).
  { apply wp_elim in H
      as (r & w' & Hrun & c0 & c1 & c2 & root & t & -> & H).
    exists c0, c1, c2, root, w', t. split; [done|]. split; [|done].
    unfold FastAPI.call. by rewrite Hrun. }
  destruct w as [db clk els ent ident res sp nh cur ex wn].
  unfold fault_draw in Hf. cbn [entropy] in Hf.
  unfold ECommerce.do_work. cbn [for_each].
  wp_run.
  change (tail ?l) with (tl l). rewrite Hf.
  wp_run.
  do 5 eexists. split; [reflexivity|]. split.
  { rewrite <- !app_assoc. reflexivity. }
  world_norm. by repeat split.
Qed.

Lemma do_work_injected_fault_witness :
  ECommerce.flt (fault_draw sample_ecommerce) (3 # 10) = true
  /\ exists child0 child1 child2 root w',
      ECommerce.do_work sample_ecommerce
      = (Return (JDict [("result", JStr "done")]%string), w')
      /\ exported w' = exported sample_ecommerce ++ [child0; child1; child2; root]
      /\ status root = {| status_code := ERROR; description := None |}.
Proof.
  split; [reflexivity|].
  destruct (do_work_injected_fault sample_ecommerce eq_refl)
    as (c0 & c1 & c2 & root & w' & t & H1 & _ & H2 & _ & _ & H3 & _).
  exists c0, c1, c2, root, w'. repeat split; auto.
Defined.

(** ** The latency simulator *)

(** C4 (as amended): [simulate_db_query] without a delay draws one uniformly
    from the closed interval 10..50 ms (each of the 41 outcomes of the draw
    gives another value of the interval), sleeps for it and returns nothing:
    the result is [None] whatever the delay.  The cache lookup does not
    sleep.  The payment step of [create_order] draws its delay the same way
    from 100..300 ms, and the "process_payment" span lasts at least that
    long. *)
Theorem simulate_db_query_latency :
  (forall op w,
      Bookshop.simulate_db_query op None w
      = (Return tt,
         set_time (time.now w + (10 + hd 0 (entropy w) mod 41) * 10 ^ 6)
           (tl (elapsed w)) (set_entropy (tl (entropy w)) w)))
  /\ map (fun r => 10 + r mod 41) (seqZ 0 41) = seqZ 10 41
  /\ (forall r, 10 <= 10 + r mod 41 <= 50)
  /\ (forall key w, clock (Bookshop.simulate_cache_check key w).2 = clock w)
  /\ (forall total w,
        exists s w',
          Bookshop.process_payment total w = (Return tt, w')
          /\ exported w' = exported w ++ [s]
          /\ name s = "process_payment"%string
          /\ end_time s
             = Some (start_time s
                     + Z.of_N (hd 0%N (tl (elapsed w)))
                     + (100 + hd 0 (entropy w) mod 201) * 10 ^ 6
                     + Z.of_N (hd 0%N (tl (tl (elapsed w))))))
  /\ map (fun r => 100 + r mod 201) (seqZ 0 201) = seqZ 100 201
  /\ (forall r, 100 <= 100 + r mod 201 <= 300).
Proof.
  split; [exact simulate_db_query_default_run|].
  split; [by vm_compute|].
  split; [intros r; pose proof (Z.mod_pos_bound r 41); lia|].
  split; [intros key w; by rewrite cache_check_run|].
  split; [|split; [by vm_compute|]].
  2: { intros r; pose proof (Z.mod_pos_bound r 201); lia. }
  intros total w.
  enough (H : wp (Bookshop.process_payment total) w (fun r w' =>
    exists s, r = Return tt
      /\ exported w' = exported w ++ [s]
      /\ name s = "process_payment"%string
      /\ end_time s
         = Some (start_time s
                 + Z.of_N (hd 0%N (tl (elapsed w)))
                 + (100 + hd 0 (entropy w) mod 201) * 10 ^ 6
                 + Z.of_N (hd 0%N (tl (tl (elapsed w))))))).
  { apply wp_elim in H as (r & w' & Hrun & s & -> & H). by exists s, w'. }
  destruct w as [db clk els ent ident res sp nh cur ex wn].
  unfold Bookshop.process_payment. wp_run.
  eexists. split; [reflexivity|]. split; [reflexivity|]. world_norm.
  by change (300 - 100 + 1) with 201.
Qed.

(** C4 as stated has the simulator return the elapsed latency and
    draw the small latencies from 1..50 ms.  Two calls that sleep 10 ms and
    50 ms return the same [None], and no outcome of the draw gives a latency
    under 10 ms. *)
Lemma simulate_db_query_returns_no_latency :
  let w10 := set_entropy [0] sample_bookshop in
  let w50 := set_entropy [40] sample_bookshop in
  (Bookshop.simulate_db_query "SELECT" None w10).1 = Return tt
  /\ (Bookshop.simulate_db_query "SELECT" None w50).1 = Return tt
  /\ clock (Bookshop.simulate_db_query "SELECT" None w10).2 - time.now w10
     = 10 * 10 ^ 6
  /\ clock (Bookshop.simulate_db_query "SELECT" None w50).2 - time.now w50
     = 50 * 10 ^ 6
  /\ List.filter (fun r => 10 + r mod 41 <? 10) (seqZ 0 41) = [].
Proof. by vm_compute. Qed.

(** ** Ending a span twice *)

Lemma end_open_run h w s :
  spans w !! h = Some s -> end_time s = None ->
  Otel.end_ h w =
  (Return tt,
   set_time (time.now w) (tl (elapsed w))
     (set_exported (exported w ++ [Otel.set_end_time (time.now w) s])
        (set_spans (<[h := Otel.set_end_time (time.now w) s]> (spans w)) w))).
Proof. intros H1 H2. unfold Otel.end_. by rewrite H1, H2. Qed.

Lemma end_ended_run h w s t :
  spans w !! h = Some s -> end_time s = Some t ->
  Otel.end_ h w = (Return tt, Otel.warn "Calling end() on an ended span." w).
Proof. intros H1 H2. unfold Otel.end_. by rewrite H1, H2. Qed.

Lemma end_missing_run h w :
  spans w !! h = None -> Otel.end_ h w = (Return tt, w).
Proof. intros H1. unfold Otel.end_. by rewrite H1. Qed.

(** C9 (as amended): a second [end()] on a span raises nothing.  It returns
    normally, logs a warning, and leaves the export queue as the first call
    left it: a span that was started and ended twice is in the queue
    once. *)
Theorem end_twice_is_ignored :
  (forall h w,
      let w1 := (Otel.end_ h w).2 in
      (Otel.end_ h w1).1 = Return tt
      /\ exported (Otel.end_ h w1).2 = exported w1)
  /\ (forall name w,
        let h := next_handle w in
        let w1 := (Otel.start_span name w).2 in
        let w2 := (Otel.end_ h w1).2 in
        let w3 := (Otel.end_ h w2).2 in
        exists s,
          exported w2 = exported w ++ [s]
          /\ exported w3 = exported w ++ [s]
          /\ warnings w3 = warnings w ++ ["Calling end() on an ended span."]%string).
Proof.
  split.
  - intros h w. cbv zeta.
    destruct (spans w !! h) as [s|] eqn:Hs.
    + destruct (end_time s) as [t|] eqn:Ht.
      * rewrite (end_ended_run h w s t Hs Ht). cbn [snd].
        by erewrite end_ended_run by (world_simpl; eassumption).
      * rewrite (end_open_run h w s Hs Ht). cbn [snd].
        erewrite end_ended_run;
          [done | world_simpl; apply lookup_insert_eq | done].
    + rewrite (end_missing_run h w Hs). cbn [snd].
      by rewrite (end_missing_run h w Hs).
  - intros name w. cbn zeta. unfold Otel.start_span. cbn [snd].
    erewrite end_open_run;
      [| world_simpl; apply lookup_insert_eq | done].
    cbn [snd]. erewrite end_ended_run;
      [| world_simpl; apply lookup_insert_eq | done].
    eexists. by world_simpl.
Qed.

(** C9 as stated has the second call signal a [DoubleEndError]: it
    returns normally. *)
Lemma end_twice_raises_nothing :
  let w1 := (Otel.start_span "span" sample_bookshop).2 in
  let w2 := (Otel.end_ 0 w1).2 in
  (Otel.end_ 0 w2).1 = Return tt
  /\ (forall e, (Otel.end_ 0 w2).1 <> Raise e)
  /\ length (exported (Otel.end_ 0 w2).2) = 1%nat.
Proof. by vm_compute. Qed.

(** ** Span forests *)

Lemma forest_bounds res pc lo hi l : span_forest res pc lo hi l -> lo <= hi.
Proof. induction 1; lia. Qed.

Lemma forest_weaken res pc lo hi l lo' hi' :
  span_forest res pc lo hi l -> lo' <= lo -> hi <= hi' ->
  span_forest res pc lo' hi' l.
Proof.
  induction 1 as [pc lo hi Hlh|pc lo hi earlier kids s t He IHe Hp Hr Ht H1 H2 H3 Hk _];
    intros Hlo Hhi.
  - constructor. lia.
  - apply (forest_tree _ _ _ _ earlier kids s t); auto; lia.
Qed.

Lemma forest_app res pc lo hi l1 l2 :
  span_forest res pc lo hi l1 -> span_forest res pc lo hi l2 ->
  span_forest res pc lo hi (l1 ++ l2).
Proof.
  intros H1.
  induction 1 as [pc lo hi Hlh|pc lo hi earlier kids s t He IHe Hp Hr Ht Ha Hb Hc Hk _].
  - by rewrite app_nil_r.
  - rewrite app_assoc. apply (forest_tree _ _ _ _ _ kids s t); auto.
Qed.

Lemma forest_single res pc lo hi kids s t :
  parent s = pc -> resource s = res -> end_time s = Some t ->
  lo <= start_time s -> start_time s <= t -> t <= hi ->
  span_forest res (Some (span_context s)) (start_time s) t kids ->
  span_forest res pc lo hi (kids ++ [s]).
Proof.
  intros. change (kids ++ [s]) with ([] ++ kids ++ [s]).
  apply (forest_tree _ _ _ _ [] kids s t); auto. constructor. lia.
Qed.

Lemma forest_spans res pc lo hi l s :
  span_forest res pc lo hi l -> s ∈ l ->
  exists t, end_time s = Some t /\ lo <= start_time s /\ start_time s <= t
            /\ t <= hi /\ resource s = res.
Proof.
  induction 1
    as [pc lo hi Hlh|pc lo hi earlier kids s' t He IHe Hp Hr Ht Ha Hb Hc Hk IHk];
    intros Hin.
  - by apply elem_of_nil in Hin.
  - rewrite !elem_of_app, list_elem_of_singleton in Hin.
    destruct Hin as [Hin|[Hin| ->]]; [by apply IHe| |by eauto 10].
    destruct (IHk Hin) as (t' & ? & ? & ? & ? & ?).
    exists t'. repeat split; auto; lia.
Qed.

Lemma forest_parent res pc lo hi l c :
  span_forest res pc lo hi l -> c ∈ l ->
  parent c = pc
  \/ exists p, p ∈ l /\ parent c = Some (span_context p) /\ interval_within c p.
Proof.
  induction 1
    as [pc lo hi Hlh|pc lo hi earlier kids s t He IHe Hp Hr Ht Ha Hb Hc Hk IHk];
    intros Hin.
  - by apply elem_of_nil in Hin.
  - rewrite !elem_of_app, list_elem_of_singleton in Hin.
    destruct Hin as [Hin|[Hin| ->]]; [| |by left].
    + destruct (IHe Hin) as [?|(p & Hp' & ? & ?)]; [by left|].
      right. exists p. rewrite !elem_of_app. auto.
    + right. destruct (IHk Hin) as [Hc'|(p & Hp' & ? & ?)].
      * exists s. rewrite !elem_of_app, list_elem_of_singleton.
        split; [auto|]. split; [done|].
        destruct (forest_spans _ _ _ _ _ _ Hk Hin) as (tc & ? & ? & ? & ? & ?).
        exists tc, t. auto.
      * exists p. rewrite !elem_of_app. auto.
Qed.

Lemma NoDup_fmap_eq {A B} (f : A -> B) (l : list A) x y :
  NoDup (f <$> l) -> x ∈ l -> y ∈ l -> f x = f y -> x = y.
Proof.
  induction l as [|a l IH]; intros Hnd Hx Hy Hf.
  - by apply elem_of_nil in Hx.
  - rewrite fmap_cons in Hnd. apply NoDup_cons in Hnd as [Hni Hnd].
    apply elem_of_cons in Hx as [->|Hx]; apply elem_of_cons in Hy as [->|Hy];
      auto.
    + exfalso. apply Hni. rewrite Hf. by apply list_elem_of_fmap_2.
    + exfalso. apply Hni. rewrite <- Hf. by apply list_elem_of_fmap_2.
Qed.

(** With unique span contexts, the span a child names as its parent is the
    one whose [with] block encloses it. *)
Lemma forest_nested res pc lo hi l c p :
  span_forest res pc lo hi l ->
  NoDup (span_context <$> l) ->
  (forall s, s ∈ l -> Some (span_context s) <> pc) ->
  c ∈ l -> p ∈ l -> parent c = Some (span_context p) ->
  interval_within c p.
Proof.
  intros Hf Hnd Hpc Hc Hp Hcp.
  destruct (forest_parent _ _ _ _ _ _ Hf Hc) as [Htop|(p' & Hp' & Hcp' & Hin)].
  - exfalso. apply (Hpc p Hp). congruence.
  - assert (p' = p) as ->; [|done].
    eapply (NoDup_fmap_eq span_context); eauto. congruence.
Qed.

(** ** Code that keeps to the discipline of [with] blocks *)

Lemma follows_refl w : follows w w.
Proof.
  split; auto; try lia. exists []. split; [by rewrite app_nil_r|].
  constructor. lia.
Qed.

Lemma well_formed_follows w w' : well_formed w -> follows w w' -> well_formed w'.
Proof.
  intros Hwf [_ Hcur Hh _ _ _]. unfold well_formed in *. rewrite Hcur.
  eapply Forall_impl; [exact Hwf|]. cbn. lia.
Qed.

Lemma current_context_follows w w' :
  well_formed w -> follows w w' ->
  Otel.get_current_span_context w' = Otel.get_current_span_context w.
Proof.
  intros Hwf [_ Hcur _ _ Hheap _]. unfold Otel.get_current_span_context.
  rewrite Hcur. destruct (current w) as [|h rest] eqn:E; [done|].
  unfold well_formed in Hwf. rewrite E in Hwf.
  apply Forall_cons in Hwf as [Hh _]. specialize (Hheap h Hh).
  destruct (spans w' !! h), (spans w !! h); unfold span_core in *; cbn in *;
    congruence.
Qed.

Lemma follows_trans w w1 w2 :
  well_formed w -> follows w w1 -> follows w1 w2 -> follows w w2.
Proof.
  intros Hwf H1 H2.
  pose proof (current_context_follows _ _ Hwf H1) as Hpc.
  destruct H1 as [Hc1 Hcur1 Hh1 Hr1 Hheap1 (n1 & He1 & Hf1)].
  destruct H2 as [Hc2 Hcur2 Hh2 Hr2 Hheap2 (n2 & He2 & Hf2)].
  split; try lia; try congruence.
  - intros h Hh. rewrite Hheap2 by lia. by apply Hheap1.
  - exists (n1 ++ n2). split; [by rewrite He2, He1, app_assoc|].
    rewrite Hr1, Hpc in Hf2.
    apply forest_app; eapply forest_weaken; eauto; lia.
Qed.

(** Steps that leave the tracer alone. *)
Lemma follows_quiet w w' :
  clock w <= clock w' -> current w' = current w ->
  next_handle w' = next_handle w ->
  provider_resource w' = provider_resource w ->
  spans w' = spans w -> exported w' = exported w ->
  follows w w'.
Proof.
  intros Hc Hcur Hh Hr Hs He. split; auto; try lia.
  - intros h _. by rewrite Hs.
  - exists []. split; [by rewrite app_nil_r|]. constructor. lia.
Qed.

(** Steps that change a span without touching its core. *)
Lemma follows_update w w' h s s' :
  spans w !! h = Some s -> span_core s' = span_core s ->
  clock w <= clock w' -> current w' = current w ->
  next_handle w' = next_handle w ->
  provider_resource w' = provider_resource w ->
  spans w' = <[h := s']> (spans w) -> exported w' = exported w ->
  follows w w'.
Proof.
  intros Hs Hcore Hc Hcur Hh Hr Hsp He. split; auto; try lia.
  - intros h' _. rewrite Hsp. destruct (decide (h = h')) as [<-|Hne].
    + rewrite lookup_insert_eq, Hs. cbn. by rewrite Hcore.
    + by rewrite lookup_insert_ne.
  - exists []. split; [by rewrite app_nil_r|]. constructor. lia.
Qed.

Lemma traced_ret {A} (a : A) : traced (ret a).
Proof. intros w _. apply follows_refl. Qed.

Lemma traced_raise {A} e : traced (raise (A:=A) e).
Proof. intros w _. apply follows_refl. Qed.

Lemma traced_bind {A B} (m : M A) (k : A -> M B) :
  traced m -> (forall a, traced (k a)) -> traced (bind m k).
Proof.
  intros Hm Hk w Hwf. specialize (Hm w Hwf). unfold bind.
  destruct (m w) as [[a|e] w1]; cbn in *; [|done].
  eapply follows_trans; eauto. apply Hk. eapply well_formed_follows; eauto.
Qed.

Lemma traced_try_except {A} (body : M A) handler :
  traced body -> (forall e, traced (handler e)) ->
  traced (try_except body handler).
Proof.
  intros Hm Hk w Hwf. specialize (Hm w Hwf). unfold try_except.
  destruct (body w) as [[a|e] w1]; cbn in *; [done|].
  eapply follows_trans; eauto. apply Hk. eapply well_formed_follows; eauto.
Qed.

Lemma traced_for_each {A} (xs : list A) body :
  (forall x, traced (body x)) -> traced (for_each xs body).
Proof.
  intros Hb. induction xs as [|x xs IH]; cbn [for_each].
  - apply traced_ret.
  - apply traced_bind; auto.
Qed.

Lemma now_ge w : clock w <= time.now w.
Proof. unfold time.now. lia. Qed.

Lemma ns_of_secs_nonneg secs : 0 <= Qnum secs -> 0 <= time.ns_of_secs secs.
Proof. intros H. unfold time.ns_of_secs. apply Z.div_pos; lia. Qed.

Lemma traced_sleep secs : traced (time.sleep secs).
Proof.
  intros w _. unfold time.sleep.
  destruct (Z.ltb_spec (Qnum secs) 0); [apply follows_refl|].
  apply follows_quiet; auto. cbn.
  pose proof (now_ge w). pose proof (ns_of_secs_nonneg secs). lia.
Qed.

Lemma traced_randbelow n : traced (random._randbelow n).
Proof. intros w _. by apply follows_quiet; cbn. Qed.

Lemma traced_randint a b : traced (random.randint a b).
Proof.
  unfold random.randint. destruct (b <? a); [apply traced_raise|].
  apply traced_bind; [apply traced_randbelow|]. intros; apply traced_ret.
Qed.

Lemma traced_choice {A} (seq : list A) : traced (random.choice seq).
Proof.
  unfold random.choice. destruct seq; [apply traced_raise|].
  apply traced_bind; [apply traced_randbelow|]. intros; apply traced_ret.
Qed.

Lemma traced_random : traced random.random.
Proof.
  apply traced_bind; [apply traced_randbelow|]. intros; apply traced_ret.
Qed.

Lemma traced_uniform a b : traced (random.uniform a b).
Proof.
  apply traced_bind; [apply traced_random|]. intros; apply traced_ret.
Qed.

Lemma traced_contains_key key : traced (Bookshop.contains_key key).
Proof. intros w _. apply follows_refl. Qed.

Lemma traced_getitem {A} key (field : Book.t -> A) :
  traced (Bookshop.getitem key field).
Proof.
  intros w _. unfold Bookshop.getitem.
  destruct (Bookshop.dict_get _ _); apply follows_refl.
Qed.

Lemma traced_setitem_stock key n : traced (Bookshop.setitem_stock key n).
Proof. intros w _. by apply follows_quiet; cbn. Qed.

Lemma traced_values : traced Bookshop.values.
Proof. intros w _. apply follows_refl. Qed.

Lemma traced_simulate_db_query op d : traced (Bookshop.simulate_db_query op d).
Proof.
  apply traced_bind.
  - destruct d; [apply traced_ret|apply traced_randint].
  - intros. apply traced_bind; [apply traced_sleep|]. intros; apply traced_ret.
Qed.

Lemma traced_simulate_cache_check key :
  traced (Bookshop.simulate_cache_check key).
Proof.
  apply traced_bind; [apply traced_choice|]. intros; apply traced_ret.
Qed.

Lemma follows_warn msg w : follows w (Otel.warn msg w).
Proof. by apply follows_quiet; cbn. Qed.

Lemma traced_set_attribute h key v : traced (Otel.set_attribute h key v).
Proof.
  intros w _. unfold Otel.set_attribute.
  destruct (spans w !! h) as [s|] eqn:Hs; [|apply follows_refl].
  destruct (end_time s); [apply follows_warn|].
  destruct (String.eqb key ""); [apply follows_warn|].
  by apply (follows_update _ _ h s
              (Otel.set_attributes (<[key:=v]> (attributes s)) s)).
Qed.

Lemma traced_record_exception h e : traced (Otel.record_exception h e).
Proof.
  intros w _. unfold Otel.record_exception. pose proof (now_ge w).
  destruct (spans w !! h) as [s|] eqn:Hs; [|by apply follows_quiet; cbn].
  destruct (end_time s); [by apply follows_quiet; cbn|].
  by apply (follows_update _ _ h s
              (Otel.set_events
                 (events s ++ [Otel.exception_event e (time.now w)]) s)).
Qed.

Lemma traced_set_status h st : traced (Otel.set_status h st).
Proof.
  intros w _. unfold Otel.set_status.
  destruct (spans w !! h) as [s|] eqn:Hs; [|apply follows_refl].
  destruct (end_time s); [apply follows_warn|].
  destruct (_ || _); [apply follows_refl|].
  by apply (follows_update _ _ h s (Otel.set_span_status st s)).
Qed.

(** Leaving a [with] block whose span is still open: the span is exported
    with its core and the clock reading at which it ends. *)
Lemma use_span_exit_open {A} h saved (r : Result A) w s :
  spans w !! h = Some s -> end_time s = None ->
  exists s' t,
    exported (Otel.use_span_exit h saved r w) = exported w ++ [s']
    /\ end_time s' = Some t
    /\ clock w <= t
    /\ clock (Otel.use_span_exit h saved r w) = t
    /\ span_context s' = span_context s
    /\ parent s' = parent s
    /\ start_time s' = start_time s
    /\ resource s' = resource s
    /\ current (Otel.use_span_exit h saved r w) = saved
    /\ next_handle (Otel.use_span_exit h saved r w) = next_handle w
    /\ provider_resource (Otel.use_span_exit h saved r w) = provider_resource w
    /\ BOOKS_DB (Otel.use_span_exit h saved r w) = BOOKS_DB w
    /\ (forall h', h' <> h ->
          spans (Otel.use_span_exit h saved r w) !! h' = spans w !! h').
Proof.
  intros Hs Ht. destruct r as [a|e].
  - rewrite (use_span_exit_return h saved a w s Hs Ht). world_simpl.
    do 2 eexists. split; [reflexivity|]. world_simpl.
    repeat split; try reflexivity; [apply now_ge|].
    intros h' Hne. by rewrite lookup_insert_ne.
  - unfold Otel.use_span_exit, bind.
    rewrite (record_exception_run h e _ s) by (world_simpl; done).
    set (s1 := Otel.set_events _ s).
    set (w1 := set_spans _ _).
    assert (Hs1 : spans w1 !! h = Some s1) by (subst w1; world_simpl; apply lookup_insert_eq).
    destruct (Otel.set_status h (Otel.error_status e) w1) as [r2 w2] eqn:E2.
    assert (H2 : exists s2, spans w2 !! h = Some s2 /\ span_core s2 = span_core s
                 /\ clock w2 = clock w1 /\ elapsed w2 = elapsed w1
                 /\ exported w2 = exported w1 /\ current w2 = current w1
                 /\ next_handle w2 = next_handle w1
                 /\ provider_resource w2 = provider_resource w1
                 /\ BOOKS_DB w2 = BOOKS_DB w1
                 /\ forall h', h' <> h -> spans w2 !! h' = spans w1 !! h').
    { unfold Otel.set_status in E2. rewrite Hs1 in E2.
      change (end_time s1) with (end_time s) in E2. rewrite Ht in E2.
      destruct (_ || _); injection E2 as <- <-.
      - exists s1. by repeat split.
      - exists (Otel.set_span_status (Otel.error_status e) s1). world_simpl.
        rewrite lookup_insert_eq. repeat split; auto.
        intros h' Hne. by rewrite lookup_insert_ne. }
    destruct H2 as (s2 & Hs2 & Hcore & Hc2 & Hel2 & He2 & Hcur2 & Hh2 & Hr2 & Hdb2 & Hheap2).
    cbn [fst snd].
    assert (Ht2 : end_time s2 = None).
    { unfold span_core in Hcore. congruence. }
    rewrite (end_open_run h w2 s2 Hs2 Ht2). cbn [snd]. world_simpl.
    do 2 eexists. split; [by rewrite He2; subst w1; world_simpl|].
    unfold span_core in Hcore. injection Hcore as Hctx Hpar Hst _ Hres.
    unfold time.now. rewrite Hc2, Hel2, Hcur2, Hh2, Hr2, Hdb2. subst w1.
    world_simpl. repeat split; auto.
    + unfold time.now. world_simpl. lia.
    + intros h' Hne. rewrite lookup_insert_ne by done. rewrite Hheap2 by done.
      world_simpl. by rewrite lookup_insert_ne.
Qed.

Lemma traced_with {A} name (body : nat -> M A) :
  (forall h, traced (body h)) ->
  traced (Otel.start_as_current_span name body).
Proof.
  intros Hbody w Hwf. unfold Otel.start_as_current_span, Otel.start_span.
  set (pc := Otel.get_current_span_context w).
  set (c := Otel.new_context pc (id_entropy w)).
  set (s0 := Otel.new_span name c.1 pc (time.now w) (provider_resource w)).
  set (nh := next_handle w).
  world_simpl.
  match goal with |- context [body nh ?w1] => set (W1 := w1) end.
  assert (Hwf1 : well_formed W1).
  { unfold well_formed. subst W1. world_simpl. apply Forall_cons. split; [lia|].
    eapply Forall_impl; [exact Hwf|]. cbn. lia. }
  specialize (Hbody nh W1 Hwf1).
  destruct (body nh W1) as [r W2]. cbn [snd] in *.
  destruct Hbody as [Hc Hcur Hh Hr Hheap (kids & He & Hf)].
  assert (Hpc1 : Otel.get_current_span_context W1 = Some c.1).
  { apply (current_context_top W1 nh (current w) s0); subst W1; world_simpl;
      [done|apply lookup_insert_eq]. }
  assert (Hs2 : exists s2, spans W2 !! nh = Some s2 /\ span_core s2 = span_core s0).
  { specialize (Hheap nh). subst W1. world_simpl_in Hheap.
    rewrite lookup_insert_eq in Hheap. specialize (Hheap ltac:(lia)).
    destruct (spans W2 !! nh) as [s2|]; [|done].
    exists s2. split; [done|]. cbn in Hheap. congruence. }
  destruct Hs2 as (s2 & Hs2 & Hcore).
  unfold span_core in Hcore. subst s0. world_simpl_in Hcore.
  injection Hcore as Hctx Hpar Hst Hend Hres.
  destruct (use_span_exit_open nh (current w) r W2 s2 Hs2 Hend)
    as (s' & t & Hex & Hend' & Hct & Hclk & Hctx' & Hpar' & Hst' & Hres'
        & Hcur' & Hh' & Hr' & _ & Hheap').
  subst W1. world_simpl_in Hc. world_simpl_in Hh. world_simpl_in Hr.
  world_simpl_in He. world_simpl_in Hf. pose proof (now_ge w).
  split.
  - lia.
  - done.
  - lia.
  - congruence.
  - intros h Hlt. rewrite Hheap' by lia. rewrite Hheap by (world_simpl; lia).
    world_simpl. by rewrite lookup_insert_ne by lia.
  - exists (kids ++ [s']). split; [by rewrite Hex, He, app_assoc|].
    rewrite Hclk. apply (forest_single _ _ _ _ kids s' t).
    + by rewrite Hpar', Hpar.
    + by rewrite Hres', Hres.
    + done.
    + rewrite Hst', Hst. done.
    + rewrite Hst', Hst. lia.
    + lia.
    + rewrite Hctx', Hctx, Hst', Hst. rewrite Hpc1 in Hf.
      eapply forest_weaken; [exact Hf| |]; lia.
Qed.

Create HintDb traced.

#[local] Hint Resolve traced_ret traced_raise traced_sleep traced_randint
  traced_choice traced_random traced_uniform traced_contains_key
  traced_getitem traced_setitem_stock traced_values traced_simulate_db_query
  traced_simulate_cache_check traced_set_attribute traced_record_exception
  traced_set_status : traced.

Ltac traced_step :=
  match goal with
  | |- forall _, _ => intro
  | |- traced (bind _ _) => apply traced_bind
  | |- traced (Otel.start_as_current_span _ _) => apply traced_with
  | |- traced (try_except _ _) => apply traced_try_except
  | |- traced (for_each _ _) => apply traced_for_each
  | |- traced (if ?b then _ else _) => destruct b
  | |- traced (match ?x with _ => _ end) => destruct x
  | |- traced _ => solve [auto with traced]
  end.

Lemma handler_traced q : traced (handler q).
Proof.
  destruct q; cbn [handler];
    unfold Bookshop.root, Bookshop.health, Bookshop.list_books,
      Bookshop.get_book, Bookshop.create_order, Bookshop.validate_book,
      Bookshop.check_inventory, Bookshop.calculate_total,
      Bookshop.process_payment, Bookshop.update_inventory,
      Bookshop.send_confirmation_email, Bookshop.get_stats, ECommerce.root,
      ECommerce.do_work;
    repeat traced_step.
Qed.

(** ** Span lifetimes *)

(** C5: the spans a handler exports all end no earlier than they start, and
    each of them is either a span opened at the top of the handler or has,
    among the exported spans, the parent it names, whose lifetime contains
    its own.  When span contexts are unique, as random 64-bit ids make them,
    this parent is the only span with that context: the lifetime of every
    exported span lies within that of any exported span it names as its
    parent. *)
Theorem span_intervals_nested (q : Request) (w : World) :
  well_formed w ->
  exists new,
    exported (handler q w).2 = exported w ++ new
    /\ (forall s, s ∈ new ->
          exists t, end_time s = Some t /\ start_time s <= t)
    /\ (forall c, c ∈ new ->
          parent c = Otel.get_current_span_context w
          \/ exists p, p ∈ new /\ parent c = Some (span_context p)
                       /\ interval_within c p)
    /\ (NoDup (span_context <$> new) ->
        (forall s, s ∈ new ->
           Some (span_context s) <> Otel.get_current_span_context w) ->
        forall c p, c ∈ new -> p ∈ new ->
          parent c = Some (span_context p) -> interval_within c p).
Proof.
  intros Hwf.
  destruct (handler_traced q w Hwf) as [_ _ _ _ _ (new & He & Hf)].
  exists new. split; [done|]. split; [|split].
  - intros s Hs.
    destruct (forest_spans _ _ _ _ _ _ Hf Hs) as (t & ? & ? & ? & _). eauto.
  - intros c Hc. exact (forest_parent _ _ _ _ _ _ Hf Hc).
  - intros Hnd Hpc c p Hc Hp Hcp. exact (forest_nested _ _ _ _ _ _ _ Hf Hnd Hpc Hc Hp Hcp).
Qed.

Lemma span_intervals_nested_witness :
  well_formed sample_bookshop
  /\ exists new,
      exported (handler (GET_books None None) sample_bookshop).2
      = exported sample_bookshop ++ new
      /\ length new = 4%nat
      /\ NoDup (span_context <$> new)
      /\ forall c p, c ∈ new -> p ∈ new ->
           parent c = Some (span_context p) -> interval_within c p.
Proof.
  assert (Hwf : well_formed sample_bookshop) by constructor.
  split; [exact Hwf|].
  destruct (span_intervals_nested (GET_books None None) sample_bookshop Hwf)
    as (new & He & _ & _ & Hn).
  exists new. split; [exact He|].
  assert (Hnew : new = exported (handler (GET_books None None) sample_bookshop).2).
  { rewrite He. reflexivity. }
  assert (Hnd : NoDup (span_context <$> new)).
  { rewrite Hnew. refine (bool_decide_unpack _ _). vm_compute. exact I. }
  split; [rewrite Hnew; vm_compute; reflexivity|]. split; [exact Hnd|].
  apply Hn; [exact Hnd|].
  intros s Hs.
  change (Otel.get_current_span_context sample_bookshop) with (@None SpanContext).
  discriminate.
Defined.

(** ** Resource metadata *)

(** What [Resource.create] makes of a service name [name] given in the
    attributes. *)
Lemma Resource_create_service_name base attrs name :
  attrs !! "service.name"%string = Some name ->
  attrs !! "process.executable.name"%string = None ->
  Otel.Resource_create base attrs !! "service.name"%string
  = Some (if Py.truthy_str (Some name) then name
          else Otel.default_service_name base).
Proof.
  intros Hname Hexe. unfold Otel.Resource_create. cbv zeta.
  rewrite (lookup_union_Some_l attrs base _ _ Hname).
  destruct (Py.truthy_str (Some name)).
  - by apply lookup_union_Some_l.
  - rewrite lookup_insert_eq. f_equal. unfold Otel.default_service_name.
    by rewrite (lookup_union_r attrs base _ Hexe).
Qed.

(** The other attributes are those given, then those detected. *)
Lemma Resource_create_other base attrs key :
  key <> "service.name"%string ->
  Otel.Resource_create base attrs !! key = (attrs ∪ base) !! key.
Proof.
  intros Hne. unfold Otel.Resource_create. cbv zeta.
  destruct (Py.truthy_str _); [done|]. by rewrite lookup_insert_ne.
Qed.

(** Started with an empty [OTEL_SERVICE_NAME], the bookshop names itself
    with the empty string and its resource carries the default name. *)
Lemma resource_of_empty_service_name :
  Bookshop.SERVICE_NAME {["OTEL_SERVICE_NAME"%string := ""%string]}
  = ""%string
  /\ Bookshop.resource {["OTEL_SERVICE_NAME"%string := ""%string]} ∅
       !! "service.name"%string
     = Some "unknown_service"%string.
Proof. by vm_compute. Qed.

(** C8 (as amended): each service builds its resource once, at start-up.
    Both resources hold a service name and the service version: the name
    is the one the service was configured with or, if that one is empty,
    the default name of the SDK.  The bookshop's resource also holds the
    deployment environment, the e-commerce one only has a deployment
    environment if the detected attributes bring one.  No handler changes
    the provider's resource, and every span a handler exports carries it. *)
Theorem resource_metadata (q : Request) (w : World) :
  well_formed w ->
  (forall environ base,
      Bookshop.resource environ base !! "service.name"%string
      = Some (if Py.truthy_str (Some (Bookshop.SERVICE_NAME environ))
              then Bookshop.SERVICE_NAME environ
              else Otel.default_service_name base)
      /\ Bookshop.resource environ base !! "service.version"%string
         = Some "0.1.0"%string
      /\ Bookshop.resource environ base !! "deployment.environment"%string
         = Some "development"%string)
  /\ (forall environ base,
        ECommerce.resource environ base !! "service.name"%string
        = Some (if Py.truthy_str (Some (ECommerce.service_name environ))
                then ECommerce.service_name environ
                else Otel.default_service_name base)
        /\ ECommerce.resource environ base !! "service.version"%string
           = Some "0.1.0"%string
        /\ ECommerce.resource environ base !! "deployment.environment"%string
           = base !! "deployment.environment"%string)
  /\ (forall environ base t0 elapsed entropy ids,
        provider_resource
          (Bookshop.startup environ base t0 elapsed entropy ids)
        = Bookshop.resource environ base
        /\ provider_resource
             (ECommerce.startup environ base t0 elapsed entropy ids)
           = ECommerce.resource environ base)
  /\ provider_resource (handler q w).2 = provider_resource w
  /\ exists new,
      exported (handler q w).2 = exported w ++ new
      /\ forall s, s ∈ new -> resource s = provider_resource w.
Proof.
  intros Hwf. split; [|split; [|split; [done|]]].
  - intros environ base. unfold Bookshop.resource.
    split; [apply Resource_create_service_name; by simplify_map_eq|].
    split; (rewrite Resource_create_other by done);
      apply lookup_union_Some_l; by simplify_map_eq.
  - intros environ base. unfold ECommerce.resource.
    split; [apply Resource_create_service_name; by simplify_map_eq|].
    split; (rewrite Resource_create_other by done).
    + apply lookup_union_Some_l. by simplify_map_eq.
    + apply lookup_union_r. by simplify_map_eq.
  - destruct (handler_traced q w Hwf) as [_ _ _ Hr _ (new & He & Hf)].
    split; [done|]. exists new. split; [done|].
    intros s Hs. by destruct (forest_spans _ _ _ _ _ _ Hf Hs) as (t & _ & _ & _ & _ & ?).
Qed.

Lemma resource_metadata_witness :
  well_formed sample_ecommerce
  /\ provider_resource (handler GET_work sample_ecommerce).2
     = ECommerce.resource ∅ ∅
  /\ exists new,
      exported (handler GET_work sample_ecommerce).2
      = exported sample_ecommerce ++ new
      /\ forall s, s ∈ new -> resource s = ECommerce.resource ∅ ∅.
Proof.
  assert (Hwf : well_formed sample_ecommerce) by constructor.
  split; [exact Hwf|].
  destruct (resource_metadata GET_work sample_ecommerce Hwf)
    as (_ & _ & _ & H1 & H2).
  split; [exact H1|exact H2].
Defined.

(** C8 as stated has every instrumented service put the deployment
    environment in its resource: started with nothing to detect, the
    e-commerce service has none, and neither have the spans it exports. *)
Lemma ecommerce_resource_has_no_environment :
  ECommerce.resource ∅ ∅ !! "deployment.environment"%string = None
  /\ Bookshop.resource ∅ ∅ !! "deployment.environment"%string
     = Some "development"%string
  /\ (fun s => (name s, resource s !! "deployment.environment"%string))
       <$> exported (ECommerce.do_work sample_ecommerce).2
     = [("work.child.0", None); ("work.child.1", None);
        ("work.child.2", None); ("work.parent", None)]%string.
Proof. by vm_compute. Qed.

(** ** The catalog *)

Lemma dict_get_alter_eq f key db b :
  Bookshop.dict_get db key = Some b ->
  Bookshop.dict_get (Bookshop.dict_alter f key db) key = Some (f b).
Proof.
  induction db as [|[k v] db IH]; cbn; [done|].
  destruct (Z.eqb_spec k key) as [->|Hne]; cbn.
  - rewrite Z.eqb_refl. congruence.
  - destruct (Z.eqb_spec k key); [done|]. exact IH.
Qed.

Lemma stocks_nonneg_alter key n db :
  0 <= n -> stocks_nonneg db ->
  stocks_nonneg (Bookshop.dict_alter (fun b => Book.set_stock b n) key db).
Proof.
  intros Hn. unfold stocks_nonneg.
  induction db as [|[k v] db IH]; cbn; [done|].
  intros [Hv Hdb]%Forall_cons.
  destruct (k =? key); apply Forall_cons; auto.
Qed.

Lemma create_order_effect (order : OrderRequest) (w : World) :
  order_effect order (Bookshop.create_order order w).1 (BOOKS_DB w)
    (BOOKS_DB (Bookshop.create_order order w).2).
Proof.
  change (wp (Bookshop.create_order order) w
            (fun r w' => order_effect order r (BOOKS_DB w) (BOOKS_DB w'))).
  destruct w as [db clk els ent ident res sp nh cur ex wn].
  unfold Bookshop.create_order, Bookshop.validate_book. wp_run.
  destruct (Bookshop.dict_get db (book_id order)) as [b|] eqn:Hb.
  2: { rewrite bool_decide_eq_false_2 by (by intros [? ?]). cbn [negb].
       wp_run. done. }
  rewrite bool_decide_eq_true_2 by eauto. cbn [negb]. wp_run.
  unfold Bookshop.check_inventory. wp_run.
  destruct (Z.ltb_spec (Book.stock b) (quantity order)) as [Hlt|Hge].
  { wp_run. done. }
  wp_run. unfold Bookshop.calculate_total. wp_run.
  destruct (Py.float_of_int (quantity order)) as [qf|].
  2: { wp_run. done. }
  wp_run. unfold Bookshop.process_payment. wp_run.
  unfold Bookshop.update_inventory.
  pose proof (dict_get_alter_eq
                (fun b' => Book.set_stock b' (Book.stock b - quantity order))
                _ _ _ Hb) as Hb'.
  wp_run. unfold Bookshop.send_confirmation_email. wp_run.
  cbn. eauto.
Qed.

(** C10: whatever orders arrive one after the other, and whatever their
    quantities, no stock of the catalog ever becomes negative.  An order
    that fails leaves the catalog as it was; an order that succeeds passed
    the inventory check [stock >= quantity] and takes the quantity off the
    stock of its book. *)
Theorem stock_never_negative (orders : list OrderRequest) (w : World) :
  stocks_nonneg (BOOKS_DB w) ->
  stocks_nonneg (BOOKS_DB (place_orders orders w))
  /\ (forall order w0,
        order_effect order (Bookshop.create_order order w0).1 (BOOKS_DB w0)
          (BOOKS_DB (Bookshop.create_order order w0).2)).
Proof.
  intros Hw. split; [|exact create_order_effect].
  revert w Hw. induction orders as [|order orders IH]; intros w Hw; [done|].
  cbn [place_orders]. apply IH.
  pose proof (create_order_effect order w) as He. unfold order_effect in He.
  destruct (Bookshop.create_order order w) as [[v|e] w']; cbn [fst snd] in *.
  - destruct He as (b & Hb & Hq & ->). apply stocks_nonneg_alter; [lia|done].
  - by rewrite He.
Qed.

Lemma stock_never_negative_witness :
  stocks_nonneg (BOOKS_DB sample_bookshop)
  /\ stocks_nonneg
       (BOOKS_DB
          (place_orders
             [{| book_id := 2; quantity := 30; customer_email := "a@b.c" |};
              {| book_id := 2; quantity := 3; customer_email := "a@b.c" |};
              {| book_id := 5; quantity := -4; customer_email := "a@b.c" |}]
             sample_bookshop)).
Proof.
  assert (H : stocks_nonneg (BOOKS_DB sample_bookshop)).
  { refine (bool_decide_unpack _ _). vm_compute. exact I. }
  split; [exact H|]. exact (proj1 (stock_never_negative _ _ H)).
Defined.

(** * Further properties of the two services *)

(** ** Handlers that only read the catalog *)

Lemma read_only_ret {A} (a : A) : read_only (ret a).
Proof. done. Qed.

Lemma read_only_raise {A} e : read_only (raise (A:=A) e).
Proof. done. Qed.

Lemma read_only_bind {A B} (m : M A) (k : A -> M B) :
  read_only m -> (forall a, read_only (k a)) -> read_only (bind m k).
Proof.
  intros Hm Hk w. specialize (Hm w). unfold bind.
  destruct (m w) as [[a|e] w1]; cbn in *; [|done].
  by rewrite Hk.
Qed.

Lemma read_only_try_except {A} (body : M A) handler :
  read_only body -> (forall e, read_only (handler e)) ->
  read_only (try_except body handler).
Proof.
  intros Hm Hk w. specialize (Hm w). unfold try_except.
  destruct (body w) as [[a|e] w1]; cbn in *; [done|].
  by rewrite Hk.
Qed.

Lemma read_only_for_each {A} (xs : list A) body :
  (forall x, read_only (body x)) -> read_only (for_each xs body).
Proof.
  intros Hb. induction xs as [|x xs IH]; cbn [for_each].
  - apply read_only_ret.
  - apply read_only_bind; auto.
Qed.

Lemma read_only_sleep secs : read_only (time.sleep secs).
Proof. intros w. unfold time.sleep. by destruct (_ <? _). Qed.

Lemma read_only_randbelow n : read_only (random._randbelow n).
Proof. done. Qed.

Lemma read_only_randint a b : read_only (random.randint a b).
Proof.
  unfold random.randint. destruct (b <? a); [apply read_only_raise|].
  apply read_only_bind; [apply read_only_randbelow|].
  intros; apply read_only_ret.
Qed.

Lemma read_only_choice {A} (seq : list A) : read_only (random.choice seq).
Proof.
  unfold random.choice. destruct seq; [apply read_only_raise|].
  apply read_only_bind; [apply read_only_randbelow|].
  intros; apply read_only_ret.
Qed.

Lemma read_only_random : read_only random.random.
Proof. done. Qed.

Lemma read_only_uniform a b : read_only (random.uniform a b).
Proof. done. Qed.

Lemma read_only_contains_key key : read_only (Bookshop.contains_key key).
Proof. done. Qed.

Lemma read_only_getitem {A} key (field : Book.t -> A) :
  read_only (Bookshop.getitem key field).
Proof. intros w. unfold Bookshop.getitem. by destruct (Bookshop.dict_get _ _). Qed.

Lemma read_only_values : read_only Bookshop.values.
Proof. done. Qed.

Lemma read_only_simulate_db_query op d :
  read_only (Bookshop.simulate_db_query op d).
Proof.
  apply read_only_bind.
  - destruct d; [apply read_only_ret|apply read_only_randint].
  - intros. apply read_only_bind; [apply read_only_sleep|].
    intros; apply read_only_ret.
Qed.

Lemma read_only_simulate_cache_check key :
  read_only (Bookshop.simulate_cache_check key).
Proof.
  apply read_only_bind; [apply read_only_choice|]. intros; apply read_only_ret.
Qed.

Lemma read_only_set_attribute h key v : read_only (Otel.set_attribute h key v).
Proof.
  intros w. unfold Otel.set_attribute.
  destruct (spans w !! h) as [s|]; [|done].
  destruct (end_time s); [done|]. by destruct (String.eqb key "").
Qed.

Lemma read_only_record_exception h e : read_only (Otel.record_exception h e).
Proof.
  intros w. unfold Otel.record_exception.
  destruct (spans w !! h) as [s|]; [|done]. by destruct (end_time s).
Qed.

Lemma read_only_set_status h st : read_only (Otel.set_status h st).
Proof.
  intros w. unfold Otel.set_status.
  destruct (spans w !! h) as [s|]; [|done].
  destruct (end_time s); [done|]. by destruct (_ || _).
Qed.

Lemma read_only_end h : read_only (Otel.end_ h).
Proof.
  intros w. unfold Otel.end_.
  destruct (spans w !! h) as [s|]; [|done]. by destruct (end_time s).
Qed.

Lemma use_span_exit_catalog {A} h saved (r : Result A) w :
  BOOKS_DB (Otel.use_span_exit h saved r w) = BOOKS_DB w.
Proof.
  unfold Otel.use_span_exit. rewrite read_only_end. destruct r as [a|e]; [done|].
  rewrite (read_only_bind _ _ (read_only_record_exception h e)
             (fun _ => read_only_set_status h _)).
  done.
Qed.

Lemma read_only_with {A} name (body : nat -> M A) :
  (forall h, read_only (body h)) ->
  read_only (Otel.start_as_current_span name body).
Proof.
  intros Hb w. unfold Otel.start_as_current_span, Otel.start_span.
  match goal with |- context [body ?h ?w1] =>
    specialize (Hb h w1); destruct (body h w1) as [r w2] end.
  cbn [snd] in *. by rewrite use_span_exit_catalog, Hb.
Qed.

Create HintDb read_only.

#[local] Hint Resolve read_only_ret read_only_raise read_only_sleep
  read_only_randint read_only_choice read_only_random read_only_uniform
  read_only_contains_key read_only_getitem read_only_values
  read_only_simulate_db_query read_only_simulate_cache_check
  read_only_set_attribute read_only_record_exception read_only_set_status
  : read_only.

Ltac read_only_step :=
  match goal with
  | |- forall _, _ => intro
  | |- read_only (bind _ _) => apply read_only_bind
  | |- read_only (Otel.start_as_current_span _ _) => apply read_only_with
  | |- read_only (try_except _ _) => apply read_only_try_except
  | |- read_only (for_each _ _) => apply read_only_for_each
  | |- read_only (if ?b then _ else _) => destruct b
  | |- read_only (match ?x with _ => _ end) => destruct x
  | |- read_only _ => solve [auto with read_only]
  end.

Lemma handler_read_only q : is_order q = false -> read_only (handler q).
Proof.
  intros Hq.
  destruct q; try discriminate; cbn [handler];
    unfold Bookshop.root, Bookshop.health, Bookshop.list_books,
      Bookshop.get_book, Bookshop.get_stats, ECommerce.root,
      ECommerce.do_work;
    repeat read_only_step.
Qed.

(** X1: every handler but [create_order] leaves the catalog untouched,
    whatever its parameters, the draws and its outcome. *)
Theorem handlers_read_only (q : Request) (w : World) :
  is_order q = false -> BOOKS_DB (handler q w).2 = BOOKS_DB w.
Proof. intros Hq. exact (handler_read_only q Hq w). Qed.

Lemma handlers_read_only_witness :
  is_order GET_stats = false
  /\ BOOKS_DB (handler GET_stats sample_bookshop).2 = BOOKS_DB sample_bookshop.
Proof. split; [reflexivity|]. exact (handlers_read_only GET_stats _ eq_refl). Defined.

(** ** What an order does to the catalog *)

Lemma catalog_shape_alter n key db :
  catalog_shape (Bookshop.dict_alter (fun b => Book.set_stock b n) key db)
  = catalog_shape db.
Proof.
  unfold catalog_shape.
  induction db as [|[k v] db IH]; cbn; [done|].
  destruct (k =? key); cbn; [done|]. by rewrite IH.
Qed.

Lemma dict_get_alter_ne f key key' db :
  key' <> key ->
  Bookshop.dict_get (Bookshop.dict_alter f key db) key'
  = Bookshop.dict_get db key'.
Proof.
  intros Hne. induction db as [|[k v] db IH]; cbn; [done|].
  destruct (Z.eqb_spec k key) as [->|Hk]; cbn.
  - by destruct (Z.eqb_spec key key').
  - by rewrite IH.
Qed.

Lemma fold_add_acc l : forall acc,
  fold_left Z.add l acc = acc + fold_left Z.add l 0.
Proof.
  induction l as [|y l IH]; intros acc; cbn; [lia|].
  rewrite (IH (acc + y)), (IH (0 + y)). lia.
Qed.

Lemma sum_Z_cons x l : Bookshop.sum_Z (x :: l) = x + Bookshop.sum_Z l.
Proof. unfold Bookshop.sum_Z. cbn. apply fold_add_acc. Qed.

Lemma total_stock_alter n key db b :
  Bookshop.dict_get db key = Some b ->
  total_stock (Bookshop.dict_alter (fun b' => Book.set_stock b' n) key db)
  = total_stock db - Book.stock b + n.
Proof.
  unfold total_stock, Bookshop.dict_values.
  induction db as [|[k v] db IH];
    cbn [Bookshop.dict_alter Bookshop.dict_get]; [done|].
  destruct (Z.eqb_spec k key) as [->|Hk]; cbn [map snd].
  - intros [= ->]. rewrite !sum_Z_cons. cbn [Book.stock Book.set_stock]. lia.
  - intros Hb. rewrite !sum_Z_cons, (IH Hb). lia.
Qed.

(** X2: an order never adds, removes, renames or reprices a book, and never
    touches the stock of another book than the one ordered; the number of
    copies in the catalog goes down by the quantity of a successful order
    and stays as it is when the order fails. *)
Theorem create_order_keeps_shape (order : OrderRequest) (w : World) :
  let r := (Bookshop.create_order order w).1 in
  let w' := (Bookshop.create_order order w).2 in
  catalog_shape (BOOKS_DB w') = catalog_shape (BOOKS_DB w)
  /\ (forall key, key <> book_id order ->
        Bookshop.dict_get (BOOKS_DB w') key = Bookshop.dict_get (BOOKS_DB w) key)
  /\ total_stock (BOOKS_DB w')
     = total_stock (BOOKS_DB w)
       - match r with Return _ => quantity order | Raise _ => 0 end.
Proof.
  cbv zeta. pose proof (create_order_effect order w) as He.
  unfold order_effect in He.
  destruct (Bookshop.create_order order w) as [[v|e] w']; cbn [fst snd] in *.
  - destruct He as (b & Hb & Hq & ->). split; [apply catalog_shape_alter|].
    split; [intros key Hk; by apply dict_get_alter_ne|].
    rewrite (total_stock_alter _ _ _ b Hb). lia.
  - rewrite He. repeat split; auto. lia.
Qed.

(** ** Looking a book up *)

(** X3: a request for a book that is not in the catalog fails with the
    response 404 "Book not found" after both the cache lookup and the
    database query have run: three spans are exported, "database_query"
    carries the attribute error and the recorded exception and ends with
    status ERROR, as does "get_book"; "cache_lookup" is not affected. *)
Theorem get_book_not_found (book_id : Z) (w : World) :
  Bookshop.dict_get (BOOKS_DB w) book_id = None ->
  exists cache query root w' t t',
    Bookshop.get_book book_id w
    = (Raise (HTTPException 404 "Book not found"), w')
    /\ FastAPI.call (Bookshop.get_book book_id) w
       = ({| FastAPI.http_status := 404;
             FastAPI.content := JDict [("detail", JStr "Book not found")]%string |},
          w')
    /\ exported w' = exported w ++ [cache; query; root]
    /\ map name [cache; query; root]
       = ["cache_lookup"; "database_query"; "get_book"]%string
    /\ parent cache = Some (span_context root)
    /\ parent query = Some (span_context root)
    /\ attributes query !! "error"%string = Some (ABool true)
    /\ attributes query !! "book_id"%string = Some (AInt book_id)
    /\ status query
       = {| status_code := ERROR;
            description := Some "HTTPException: 404: Book not found"%string |}
    /\ status root = status query
    /\ events query
       = [Otel.exception_event (HTTPException 404 "Book not found") t]
    /\ events root
       = [Otel.exception_event (HTTPException 404 "Book not found") t']
    /\ status_code (status cache) = UNSET
    /\ events cache = [].
Proof.
  intros Hb.
  enough (H : wp (Bookshop.get_book book_id) w (fun r w' =>
    exists cache query root t t',
      r = Raise (HTTPException 404 "Book not found")
      /\ exported w' = exported w ++ [cache; query; root]
      /\ map name [cache; query; root]
         = ["cache_lookup"; "database_query"; "get_book"]%string
      /\ parent cache = Some (span_context root)
      /\ parent query = Some (span_context root)
      /\ attributes query !! "error"%string = Some (ABool true)
      /\ attributes query !! "book_id"%string = Some (AInt book_id)
      /\ status query
         = {| status_code := ERROR;
              description := Some "HTTPException: 404: Book not found"%string |}
      /\ status root = status query
      /\ events query
         = [Otel.exception_event (HTTPException 404 "Book not found") t]
      /\ events root
         = [Otel.exception_event (HTTPException 404 "Book not found") t']
      /\ status_code (status cache) = UNSET
      /\ events cache = [])).
  { apply wp_elim in H
      as (r & w' & Hrun & cache & query & root & t & t' & -> & H).
    exists cache, query, root, w', t, t'. split; [done|]. split; [|done].
    unfold FastAPI.call. by rewrite Hrun. }
  destruct w as [db clk els ent ident res sp nh cur ex wn].
  cbn in Hb. unfold Bookshop.get_book. wp_run.
  rewrite (contains_key_absent _ _ Hb). cbn [negb]. wp_run.
  do 5 eexists. split; [reflexivity|]. split.
  { rewrite <- !app_assoc. reflexivity. }
  world_norm. repeat split; try reflexivity; by simplify_map_eq.
Qed.

Lemma get_book_not_found_witness :
  Bookshop.dict_get (BOOKS_DB sample_bookshop) 999 = None
  /\ exists cache query root w',
      FastAPI.call (Bookshop.get_book 999) sample_bookshop
      = ({| FastAPI.http_status := 404;
            FastAPI.content := JDict [("detail", JStr "Book not found")]%string |},
         w')
      /\ exported w' = exported sample_bookshop ++ [cache; query; root]
      /\ status_code (status query) = ERROR.
Proof.
  split; [reflexivity|].
  destruct (get_book_not_found 999 sample_bookshop eq_refl)
    as (cache & query & root & w' & t & t' & _ & H1 & H2 & _ & _ & _ & _ & _
        & H3 & _).
  exists cache, query, root, w'. rewrite H3. repeat split; auto.
Defined.

(** X4: the outcome of the cache lookup changes nothing to a request for a
    book: hit or miss, the database query runs, the same three spans are
    exported, and the answer is read off the catalog alone, the book if it
    has the id and the error 404 if not. *)
Theorem get_book_ignores_cache (book_id : Z) (w : World) :
  exists cache query root,
    (Bookshop.get_book book_id w).1
    = match Bookshop.dict_get (BOOKS_DB w) book_id with
      | Some b => Return (JDict [("book", Book.to_json b)]%string)
      | None => Raise (HTTPException 404 "Book not found")
      end
    /\ exported (Bookshop.get_book book_id w).2
       = exported w ++ [cache; query; root]
    /\ map name [cache; query; root]
       = ["cache_lookup"; "database_query"; "get_book"]%string
    /\ entropy (Bookshop.get_book book_id w).2 = tl (tl (entropy w)).
Proof.
  change (wp (Bookshop.get_book book_id) w (fun r w' =>
    exists cache query root,
      r = match Bookshop.dict_get (BOOKS_DB w) book_id with
          | Some b => Return (JDict [("book", Book.to_json b)]%string)
          | None => Raise (HTTPException 404 "Book not found")
          end
      /\ exported w' = exported w ++ [cache; query; root]
      /\ map name [cache; query; root]
         = ["cache_lookup"; "database_query"; "get_book"]%string
      /\ entropy w' = tl (tl (entropy w)))).
  destruct w as [db clk els ent ident res sp nh cur ex wn].
  unfold Bookshop.get_book. wp_run. world_norm.
  destruct (Bookshop.dict_get db book_id) as [b|] eqn:Hb.
  - rewrite bool_decide_eq_true_2 by eauto. cbn [negb]. wp_run.
    do 3 eexists. split; [reflexivity|].
    split; [rewrite <- !app_assoc; reflexivity|]. world_norm. by split.
  - rewrite bool_decide_eq_false_2 by (by intros [? ?]). cbn [negb]. wp_run.
    do 3 eexists. split; [reflexivity|].
    split; [rewrite <- !app_assoc; reflexivity|]. world_norm. by split.
Qed.

(** ** Confirmed orders *)

Lemma float_of_int_in_range n :
  Z.abs n < 2 ^ 1024 - 2 ^ 970 -> Py.float_of_int n = Some (inject_Z n).
Proof.
  intros H. unfold Py.float_of_int.
  by destruct (Z.ltb_spec (Z.abs n) (2 ^ 1024 - 2 ^ 970)); [|lia].
Qed.

(** The run of an order that passes the inventory check. *)
Lemma create_order_confirmed_run (order : OrderRequest) (b : Book.t) (w : World) :
  Bookshop.dict_get (BOOKS_DB w) (book_id order) = Some b ->
  quantity order <= Book.stock b ->
  Z.abs (quantity order) < 2 ^ 1024 - 2 ^ 970 ->
  wp (Bookshop.create_order order) w (fun r w' =>
    exists new root order_id,
      r = Return
            (JDict [("order_id", JInt order_id);
                    ("book", JStr (Book.title b));
                    ("quantity", JInt (quantity order));
                    ("total", JFloat (Book.price b * inject_Z (quantity order))%Q);
                    ("status", JStr "confirmed")]%string)
      /\ 10000 <= order_id <= 99999
      /\ exported w' = exported w ++ new ++ [root]
      /\ map name new
         = ["validate_book"; "check_inventory"; "calculate_total";
            "process_payment"; "update_inventory";
            "send_confirmation_email"]%string
      /\ name root = "create_order"%string
      /\ Forall (fun s => parent s = Some (span_context root)
                          /\ status_code (status s) = UNSET) new
      /\ status_code (status root) = UNSET
      /\ attributes root !! "order_id"%string = Some (AInt order_id)
      /\ (exists update, new !! 4%nat = Some update
            /\ attributes update !! "new_stock"%string
               = Some (AInt (Book.stock b - quantity order)))
      /\ BOOKS_DB w'
         = Bookshop.dict_alter
             (fun b' => Book.set_stock b' (Book.stock b - quantity order))
             (book_id order) (BOOKS_DB w)).
Proof.
  intros Hb Hq Hrange.
  destruct w as [db clk els ent ident res sp nh cur ex wn].
  cbn in Hb. unfold Bookshop.create_order, Bookshop.validate_book. wp_run.
  rewrite (contains_key_present _ _ _ Hb). cbn [negb]. wp_run.
  unfold Bookshop.check_inventory. wp_run.
  destruct (Z.ltb_spec (Book.stock b) (quantity order)) as [Hlt|_]; [lia|].
  wp_run. unfold Bookshop.calculate_total. wp_run.
  rewrite (float_of_int_in_range _ Hrange).
  wp_run. unfold Bookshop.process_payment. wp_run.
  unfold Bookshop.update_inventory.
  pose proof (dict_get_alter_eq
                (fun b' => Book.set_stock b' (Book.stock b - quantity order))
                _ _ _ Hb) as Hb'.
  wp_run. unfold Bookshop.send_confirmation_email. wp_run.
  eexists [_; _; _; _; _; _], _, _. split; [reflexivity|].
  split.
  { change (99999 - 10000 + 1) with 90000.
    match goal with |- _ <= _ + ?x mod _ <= _ =>
      pose proof (Z.mod_pos_bound x 90000 ltac:(lia)) end. lia. }
  split. { rewrite <- !app_assoc. reflexivity. }
  world_norm. split; [done|]. split; [done|].
  split. { repeat constructor. }
  split; [done|]. split; [by simplify_map_eq|].
  split; [|done]. eexists. split; [reflexivity|]. world_norm. by simplify_map_eq.
Qed.

Lemma total_in_range_float b order :
  total_in_range b order -> Z.abs (quantity order) < 2 ^ 1024 - 2 ^ 970.
Proof.
  intros [H _]. assert (2 ^ 1023 < 2 ^ 1024 - 2 ^ 970) by (by vm_compute). lia.
Qed.

(** X5: an order for a book of the catalog, for no more copies than its
    stock holds and with a total that is a finite float, is confirmed.  The
    answer names the book, the quantity, the total [price * quantity], taken
    in exact arithmetic, and an order id between 10000 and 99999; seven
    spans are exported, the six steps in their order under "create_order",
    none with a status; and the stock of the book, in the catalog and in the
    attribute new_stock, is the old stock less the quantity. *)
Theorem create_order_confirmed (order : OrderRequest) (b : Book.t) (w : World) :
  Bookshop.dict_get (BOOKS_DB w) (book_id order) = Some b ->
  quantity order <= Book.stock b ->
  total_in_range b order ->
  exists new root order_id w',
    Bookshop.create_order order w
    = (Return
         (JDict [("order_id", JInt order_id);
                 ("book", JStr (Book.title b));
                 ("quantity", JInt (quantity order));
                 ("total", JFloat (Book.price b * inject_Z (quantity order))%Q);
                 ("status", JStr "confirmed")]%string), w')
    /\ 10000 <= order_id <= 99999
    /\ exported w' = exported w ++ new ++ [root]
    /\ map name new
       = ["validate_book"; "check_inventory"; "calculate_total";
          "process_payment"; "update_inventory";
          "send_confirmation_email"]%string
    /\ name root = "create_order"%string
    /\ Forall (fun s => parent s = Some (span_context root)
                        /\ status_code (status s) = UNSET) new
    /\ status_code (status root) = UNSET
    /\ attributes root !! "order_id"%string = Some (AInt order_id)
    /\ (exists update, new !! 4%nat = Some update
          /\ attributes update !! "new_stock"%string
             = Some (AInt (Book.stock b - quantity order)))
    /\ Bookshop.dict_get (BOOKS_DB w') (book_id order)
       = Some (Book.set_stock b (Book.stock b - quantity order)).
Proof.
  intros Hb Hq Hrange. apply total_in_range_float in Hrange.
  destruct (wp_elim _ _ _ (create_order_confirmed_run order b w Hb Hq Hrange))
    as (r & w' & Hrun & new & root & order_id & -> & H1 & H2 & H3 & H4 & H5
        & H6 & H7 & H8 & H9).
  exists new, root, order_id, w'. repeat (split; [done|]).
  rewrite H9.
  exact (dict_get_alter_eq
           (fun b' => Book.set_stock b' (Book.stock b - quantity order))
           _ _ _ Hb).
Qed.

Lemma create_order_confirmed_witness :
  Bookshop.dict_get (BOOKS_DB sample_bookshop) 2 = Some book_1984
  /\ 3 <= Book.stock book_1984
  /\ total_in_range book_1984
       {| book_id := 2; quantity := 3; customer_email := "a@b.c" |}
  /\ exists new root order_id w',
      (Bookshop.create_order
         {| book_id := 2; quantity := 3; customer_email := "a@b.c" |}
         sample_bookshop).2 = w'
      /\ exported w' = exported sample_bookshop ++ new ++ [root]
      /\ 10000 <= order_id <= 99999
      /\ Bookshop.dict_get (BOOKS_DB w') 2 = Some (Book.set_stock book_1984 29).
Proof.
  split; [reflexivity|]. split; [by vm_compute|]. split; [by vm_compute|].
  destruct (create_order_confirmed
              {| book_id := 2; quantity := 3; customer_email := "a@b.c" |}
              book_1984 sample_bookshop eq_refl)
    as (new & root & order_id & w' & H1 & H2 & H3 & _ & _ & _ & _ & _ & _ & H4).
  - by vm_compute.
  - by vm_compute.
  - exists new, root, order_id, w'. rewrite H1. repeat split; auto; lia.
Defined.

(** X6: the quantity of an order is not checked for its sign.  An order
    for a negative number of copies of a book of the catalog, with a total
    that is a finite float, passes the inventory check, is confirmed, and
    adds the copies to the stock. *)
Theorem create_order_negative_quantity (order : OrderRequest) (b : Book.t)
    (w : World) :
  Bookshop.dict_get (BOOKS_DB w) (book_id order) = Some b ->
  0 <= Book.stock b ->
  quantity order < 0 ->
  total_in_range b order ->
  exists order_id total w',
    Bookshop.create_order order w
    = (Return
         (JDict [("order_id", JInt order_id);
                 ("book", JStr (Book.title b));
                 ("quantity", JInt (quantity order));
                 ("total", JFloat total);
                 ("status", JStr "confirmed")]%string), w')
    /\ Bookshop.dict_get (BOOKS_DB w') (book_id order)
       = Some (Book.set_stock b (Book.stock b + Z.abs (quantity order)))
    /\ total_stock (BOOKS_DB w')
       = total_stock (BOOKS_DB w) + Z.abs (quantity order).
Proof.
  intros Hb Hs Hq Hrange. apply total_in_range_float in Hrange.
  destruct (wp_elim _ _ _
              (create_order_confirmed_run order b w Hb ltac:(lia) Hrange))
    as (r & w' & Hrun & new & root & order_id & -> & _ & _ & _ & _ & _ & _ & _
        & _ & Hdb).
  exists order_id, (Book.price b * inject_Z (quantity order))%Q, w'.
  split; [exact Hrun|].
  rewrite Hdb. split.
  - rewrite (dict_get_alter_eq
               (fun b' => Book.set_stock b' (Book.stock b - quantity order))
               _ _ _ Hb).
    do 2 f_equal. lia.
  - rewrite (total_stock_alter _ _ _ b Hb). lia.
Qed.

Lemma create_order_negative_quantity_witness :
  Bookshop.dict_get (BOOKS_DB sample_bookshop) 2 = Some book_1984
  /\ 0 <= Book.stock book_1984
  /\ -5 < 0
  /\ total_in_range book_1984
       {| book_id := 2; quantity := -5; customer_email := "a@b.c" |}
  /\ exists w',
      (Bookshop.create_order
         {| book_id := 2; quantity := -5; customer_email := "a@b.c" |}
         sample_bookshop).2 = w'
      /\ Bookshop.dict_get (BOOKS_DB w') 2 = Some (Book.set_stock book_1984 37).
Proof.
  split; [reflexivity|]. split; [by vm_compute|]. split; [by vm_compute|].
  split; [by vm_compute|].
  destruct (create_order_negative_quantity
              {| book_id := 2; quantity := -5; customer_email := "a@b.c" |}
              book_1984 sample_bookshop eq_refl)
    as (order_id & total & w' & H1 & H2 & _).
  - by vm_compute.
  - by vm_compute.
  - by vm_compute.
  - exists w'. split; [by rewrite H1|exact H2].
Defined.

Lemma get_book_answer (book_id : Z) (w : World) :
  (Bookshop.get_book book_id w).1
  = match Bookshop.dict_get (BOOKS_DB w) book_id with
    | Some b => Return (JDict [("book", Book.to_json b)]%string)
    | None => Raise (HTTPException 404 "Book not found")
    end.
Proof.
  change (wp (Bookshop.get_book book_id) w (fun r w' =>
    r = match Bookshop.dict_get (BOOKS_DB w) book_id with
        | Some b => Return (JDict [("book", Book.to_json b)]%string)
        | None => Raise (HTTPException 404 "Book not found")
        end)).
  destruct w as [db clk els ent ident res sp nh cur ex wn].
  unfold Bookshop.get_book. wp_run. world_norm.
  destruct (Bookshop.dict_get db book_id) as [b|] eqn:Hb.
  - rewrite bool_decide_eq_true_2 by eauto. cbn [negb]. by wp_run.
  - rewrite bool_decide_eq_false_2 by (by intros [? ?]). cbn [negb]. by wp_run.
Qed.

(** X7: a confirmed order is seen by the next lookup: the book comes back
    with the stock the order left, and with its other fields as before. *)
Theorem get_book_after_order (order : OrderRequest) (b : Book.t) (w : World) :
  Bookshop.dict_get (BOOKS_DB w) (book_id order) = Some b ->
  quantity order <= Book.stock b ->
  Z.abs (quantity order) < 2 ^ 1024 - 2 ^ 970 ->
  (Bookshop.get_book (book_id order) (Bookshop.create_order order w).2).1
  = Return
      (JDict [("book",
               JDict [("id", JInt (Book.id b));
                      ("title", JStr (Book.title b));
                      ("author", JStr (Book.author b));
                      ("price", JFloat (Book.price b));
                      ("stock", JInt (Book.stock b - quantity order))])]%string).
Proof.
  intros Hb Hq Hrange.
  destruct (wp_elim _ _ _ (create_order_confirmed_run order b w Hb Hq Hrange))
    as (r & w' & Hrun & new & root & order_id & -> & _ & _ & _ & _ & _ & _ & _
        & _ & Hdb).
  rewrite Hrun. cbn [snd]. rewrite get_book_answer, Hdb.
  by rewrite (dict_get_alter_eq
                (fun b' => Book.set_stock b' (Book.stock b - quantity order))
                _ _ _ Hb).
Qed.

Lemma get_book_after_order_witness :
  Bookshop.dict_get (BOOKS_DB sample_bookshop) 2 = Some book_1984
  /\ 3 <= Book.stock book_1984
  /\ Z.abs 3 < 2 ^ 1024 - 2 ^ 970
  /\ (Bookshop.get_book 2
        (Bookshop.create_order
           {| book_id := 2; quantity := 3; customer_email := "a@b.c" |}
           sample_bookshop).2).1
     = Return (JDict [("book", Book.to_json (Book.set_stock book_1984 29))]%string).
Proof.
  split; [reflexivity|]. split; [by vm_compute|]. split; [by vm_compute|].
  apply (get_book_after_order
           {| book_id := 2; quantity := 3; customer_email := "a@b.c" |}
           book_1984 sample_bookshop eq_refl); by vm_compute.
Defined.

(** ** Listing the books *)

Lemma filter_sublist {A} (f : A -> bool) (l : list A) :
  sublist (List.filter f l) l.
Proof.
  induction l as [|x l IH]; cbn; [constructor|].
  destruct (f x); by constructor.
Qed.

Lemma sublist_elem_of {A} (l1 l2 : list A) x : sublist l1 l2 -> x ∈ l1 -> x ∈ l2.
Proof. intros Hs Hx. by eapply sublist_submseteq, elem_of_submseteq in Hs. Qed.

(** X8: [list_books] never fails.  It answers with books of the catalog in
    catalog order, namely those whose author contains the [author] asked
    for, letter case aside, and whose price is at least [min_price]; a
    filter that is absent, the empty author or the price 0 does not filter.
    The count of the answer and the attributes result_count and
    books_returned are the number of books returned, and four spans are
    exported. *)
Theorem list_books_answer (author : option string) (min_price : option PyFloat)
    (w : World) :
  exists books cache query serialize root w',
    Bookshop.list_books author min_price w
    = (Return (JDict [("books", JList (map Book.to_json books));
                      ("count", JInt (Z.of_nat (length books)))]%string), w')
    /\ sublist books (Bookshop.dict_values (BOOKS_DB w))
    /\ (forall b, b ∈ books <->
          b ∈ Bookshop.dict_values (BOOKS_DB w)
          /\ (Py.truthy_str author = true ->
              Py.contains (Py.lower (default "" author))
                (Py.lower (Book.author b)) = true)
          /\ (Py.truthy_float min_price = true ->
              (default 0 min_price <= Book.price b)%Q))
    /\ (Py.truthy_str author = false -> Py.truthy_float min_price = false ->
        books = Bookshop.dict_values (BOOKS_DB w))
    /\ exported w' = exported w ++ [cache; query; serialize; root]
    /\ map name [cache; query; serialize; root]
       = ["cache_lookup"; "database_query"; "serialize_response";
          "list_books"]%string
    /\ attributes query !! "result_count"%string
       = Some (AInt (Z.of_nat (length books)))
    /\ attributes root !! "books_returned"%string
       = Some (AInt (Z.of_nat (length books)))
    /\ Forall (fun s => status_code (status s) = UNSET)
         [cache; query; serialize; root].
Proof.
  enough (H : wp (Bookshop.list_books author min_price) w (fun r w' =>
    exists books cache query serialize root,
      r = Return (JDict [("books", JList (map Book.to_json books));
                         ("count", JInt (Z.of_nat (length books)))]%string)
      /\ books
         = (let l := Bookshop.dict_values (BOOKS_DB w) in
            let l := if Py.truthy_str author
                     then List.filter
                            (fun b => Py.contains (Py.lower (default "" author))
                                        (Py.lower (Book.author b))) l
                     else l in
            if Py.truthy_float min_price
            then List.filter
                   (fun b => Qle_bool (default 0%Q min_price) (Book.price b)) l
            else l)
      /\ exported w' = exported w ++ [cache; query; serialize; root]
      /\ map name [cache; query; serialize; root]
         = ["cache_lookup"; "database_query"; "serialize_response";
            "list_books"]%string
      /\ attributes query !! "result_count"%string
         = Some (AInt (Z.of_nat (length books)))
      /\ attributes root !! "books_returned"%string
         = Some (AInt (Z.of_nat (length books)))
      /\ Forall (fun s => status_code (status s) = UNSET)
           [cache; query; serialize; root])).
  { apply wp_elim in H
      as (r & w' & Hrun & books & cache & query & serialize & root
          & -> & Hbooks & H).
    exists books, cache, query, serialize, root, w'. split; [done|].
    cbv zeta in Hbooks.
    split; [|split; [|split; [|exact H]]].
    - rewrite Hbooks.
      destruct (Py.truthy_str author), (Py.truthy_float min_price);
        try done; try apply filter_sublist.
      etrans; apply filter_sublist.
    - intros b. rewrite Hbooks.
      destruct (Py.truthy_str author), (Py.truthy_float min_price);
        rewrite ?list_elem_of_In, ?List.filter_In, ?Qle_bool_iff,
          <- ?list_elem_of_In; intuition congruence.
    - intros Ha Hm. by rewrite Hbooks, Ha, Hm. }
  destruct w as [db clk els ent ident res sp nh cur ex wn].
  unfold Bookshop.list_books. wp_run.
  do 5 eexists. split; [reflexivity|]. split; [reflexivity|].
  split. { rewrite <- !app_assoc. reflexivity. }
  world_norm. split; [done|]. split; [by simplify_map_eq|].
  split; [by simplify_map_eq|]. repeat constructor.
Qed.

(** ** Statistics *)











(** ** The work of the e-commerce service *)

Lemma uniform_delay_bounds k :
  0 <= k < 2 ^ 53 ->
  let d := ((1 # 10) + ((5 # 10) - (1 # 10)) * Qmake k (2 ^ 53)%positive)%Q in
  (1 # 10 <= d)%Q /\ (d <= 5 # 10)%Q.
Proof.
  intros Hk. cbv zeta. unfold Qle. cbn. cbn in Hk. lia.
Qed.

Lemma draw_bounds r : 0 <= r mod 2 ^ 53 < 2 ^ 53.
Proof. apply Z.mod_pos_bound. lia. Qed.

(** X10: [do_work] always answers [{"result": "done"}] and exports four
    spans, the three children in the order of the loop and then
    "work.parent".  Child [i] carries its iteration [i] and its delay, a
    number of seconds from 0.1 to 0.5, has no status and lasts at least
    that long.  The parent ends with status ERROR if the draw of the
    injected fault is below 0.3, and otherwise with no status and no
    event. *)
Theorem do_work_answer (w : World) :
  exists child0 child1 child2 root w',
    ECommerce.do_work w = (Return (JDict [("result", JStr "done")]%string), w')
    /\ exported w' = exported w ++ [child0; child1; child2; root]
    /\ name root = "work.parent"%string
    /\ Forall2
         (fun i c =>
            name c = ("work.child." +:+ Py.str_int i)%string
            /\ parent c = Some (span_context root)
            /\ status_code (status c) = UNSET
            /\ attributes c !! "iteration"%string = Some (AInt i)
            /\ exists d t,
                attributes c !! "delay.seconds"%string = Some (AFloat d)
                /\ (1 # 10 <= d)%Q /\ (d <= 5 # 10)%Q
                /\ end_time c = Some t
                /\ start_time c + time.ns_of_secs d <= t)
         [0; 1; 2] [child0; child1; child2]
    /\ status_code (status root)
       = (if ECommerce.flt (fault_draw w) (3 # 10) then ERROR else UNSET)
    /\ (ECommerce.flt (fault_draw w) (3 # 10) = false -> events root = []).
Proof.
  enough (H : wp ECommerce.do_work w (fun r w' =>
    exists child0 child1 child2 root,
      r = Return (JDict [("result", JStr "done")]%string)
      /\ exported w' = exported w ++ [child0; child1; child2; root]
      /\ name root = "work.parent"%string
      /\ Forall2
           (fun i c =>
              name c = ("work.child." +:+ Py.str_int i)%string
              /\ parent c = Some (span_context root)
              /\ status_code (status c) = UNSET
              /\ attributes c !! "iteration"%string = Some (AInt i)
              /\ exists d t,
                  attributes c !! "delay.seconds"%string = Some (AFloat d)
                  /\ (1 # 10 <= d)%Q /\ (d <= 5 # 10)%Q
                  /\ end_time c = Some t
                  /\ start_time c + time.ns_of_secs d <= t)
           [0; 1; 2] [child0; child1; child2]
      /\ status_code (status root)
         = (if ECommerce.flt (fault_draw w) (3 # 10) then ERROR else UNSET)
      /\ (ECommerce.flt (fault_draw w) (3 # 10) = false -> events root = []))).
  { apply wp_elim in H as (r & w' & Hrun & c0 & c1 & c2 & root & -> & H).
    by exists c0, c1, c2, root, w'. }
  destruct w as [db clk els ent ident res sp nh cur ex wn].
  unfold fault_draw. cbn [entropy].
  unfold ECommerce.do_work. cbn [for_each].
  wp_run.
  change (tail ?l) with (tl l).
  pose proof (uniform_delay_bounds _ (draw_bounds (hd 0 ent))) as [? ?].
  pose proof (uniform_delay_bounds _ (draw_bounds (hd 0 (tl ent)))) as [? ?].
  pose proof (uniform_delay_bounds _ (draw_bounds (hd 0 (tl (tl ent))))) as [? ?].
  destruct (ECommerce.flt _ _) eqn:Hf; wp_run;
    (do 4 eexists; split; [reflexivity|]; split;
     [rewrite <- !app_assoc; reflexivity|]; world_norm;
     split; [reflexivity|]; split; [|split; [reflexivity|done]];
     repeat (apply Forall2_cons; split;
             [split; [reflexivity|]; split; [reflexivity|];
              split; [reflexivity|]; split; [by simplify_map_eq|];
              do 2 eexists; split; [by simplify_map_eq|];
              split; [eassumption|]; split; [eassumption|];
              split; [reflexivity|]; lia|]);
     apply Forall2_nil_2).
Qed.

(** ** The root and health routes of the bookshop *)

(** X11: in a bookshop whose tracer provider holds the resource built at
    start-up, the root and health routes report the service name the process
    was configured with, and the span the route exports carries the same
    name unless that name is empty: the span then carries the default name
    of the SDK.  Each of the two routes exports that one span, with its one
    attribute and no status, and never fails. *)
Theorem root_and_health_name_the_service (environ base : gmap string string)
    (w : World) :
  provider_resource w = Bookshop.resource environ base ->
  exists service s1 w1 s2 w2,
    Bookshop.root environ w
    = (Return (JDict [("status", JStr "ok"); ("service", JStr service);
                      ("version", JStr "1.0.0")]%string), w1)
    /\ Bookshop.health environ w
       = (Return (JDict [("status", JStr "healthy");
                         ("service", JStr service)]%string), w2)
    /\ exported w1 = exported w ++ [s1]
    /\ exported w2 = exported w ++ [s2]
    /\ name s1 = "root_handler"%string
    /\ name s2 = "health_check"%string
    /\ attributes s1 = {["endpoint"%string := AStr "/"]}
    /\ attributes s2 = {["health_status"%string := AStr "healthy"]}
    /\ resource s1 !! "service.name"%string
       = Some (if Py.truthy_str (Some service) then service
               else Otel.default_service_name base)
    /\ resource s2 !! "service.name"%string
       = Some (if Py.truthy_str (Some service) then service
               else Otel.default_service_name base)
    /\ status_code (status s1) = UNSET
    /\ status_code (status s2) = UNSET
    /\ service = getenv environ "OTEL_SERVICE_NAME" "bookshop-service".
Proof.
  intros Hres.
  assert (Hname : Bookshop.resource environ base !! "service.name"%string
                  = Some (if Py.truthy_str (Some (Bookshop.SERVICE_NAME environ))
                          then Bookshop.SERVICE_NAME environ
                          else Otel.default_service_name base)).
  { unfold Bookshop.resource.
    apply Resource_create_service_name; by simplify_map_eq. }
  assert (H1 : wp (Bookshop.root environ) w (fun r w1 =>
    exists s1,
      r = Return (JDict [("status", JStr "ok");
                         ("service", JStr (Bookshop.SERVICE_NAME environ));
                         ("version", JStr "1.0.0")]%string)
      /\ exported w1 = exported w ++ [s1]
      /\ name s1 = "root_handler"%string
      /\ attributes s1 = {["endpoint"%string := AStr "/"]}
      /\ resource s1 = provider_resource w
      /\ status_code (status s1) = UNSET)).
  { destruct w as [db clk els ent ident res sp nh cur ex wn].
    unfold Bookshop.root. wp_run. eexists. split; [reflexivity|].
    split; [reflexivity|]. world_norm. by repeat split. }
  assert (H2 : wp (Bookshop.health environ) w (fun r w2 =>
    exists s2,
      r = Return (JDict [("status", JStr "healthy");
                         ("service", JStr (Bookshop.SERVICE_NAME environ))]%string)
      /\ exported w2 = exported w ++ [s2]
      /\ name s2 = "health_check"%string
      /\ attributes s2 = {["health_status"%string := AStr "healthy"]}
      /\ resource s2 = provider_resource w
      /\ status_code (status s2) = UNSET)).
  { destruct w as [db clk els ent ident res sp nh cur ex wn].
    unfold Bookshop.health. wp_run. eexists. split; [reflexivity|].
    split; [reflexivity|]. world_norm. by repeat split. }
  apply wp_elim in H1 as (r1 & w1 & Hrun1 & s1 & -> & He1 & Hn1 & Ha1 & Hr1 & Hs1).
  apply wp_elim in H2 as (r2 & w2 & Hrun2 & s2 & -> & He2 & Hn2 & Ha2 & Hr2 & Hs2).
  exists (Bookshop.SERVICE_NAME environ), s1, w1, s2, w2.
  rewrite Hr1, Hr2, Hres. by repeat split.
Qed.

Lemma root_and_health_name_the_service_witness :
  provider_resource sample_bookshop = Bookshop.resource ∅ ∅
  /\ exists s1 w1 s2 w2,
      Bookshop.root ∅ sample_bookshop
      = (Return (JDict [("status", JStr "ok");
                        ("service", JStr "bookshop-service");
                        ("version", JStr "1.0.0")]%string), w1)
      /\ Bookshop.health ∅ sample_bookshop
         = (Return (JDict [("status", JStr "healthy");
                           ("service", JStr "bookshop-service")]%string), w2)
      /\ resource s1 !! "service.name"%string = Some "bookshop-service"%string
      /\ resource s2 !! "service.name"%string = Some "bookshop-service"%string.
Proof.
  split; [reflexivity|].
  destruct (root_and_health_name_the_service ∅ ∅ sample_bookshop eq_refl)
    as (service & s1 & w1 & s2 & w2 & H1 & H2 & _ & _ & _ & _ & _ & _ & H3 & H4
        & _ & _ & ->).
  exists s1, w1, s2, w2.
  split; [exact H1|]. split; [exact H2|]. split; [exact H3|exact H4].
Defined.

(** ** Spans are ended, and belong to one trace *)

Lemma closes_refl w : closes w w.
Proof.
  split; [intros h; lia|]. exists []. rewrite app_nil_r, Nat.sub_diag.
  by repeat split.
Qed.

Lemma closes_trans w w1 w2 :
  well_formed w -> follows w w1 -> follows w1 w2 ->
  closes w w1 -> closes w1 w2 -> closes w w2.
Proof.
  intros Hwf F1 F2 [Hh1 (n1 & He1 & Hl1 & Ht1)] [Hh2 (n2 & He2 & Hl2 & Ht2)].
  pose proof (current_context_follows _ _ Hwf F1) as Hpc.
  destruct F1 as [_ _ Hn1 _ _ _]. destruct F2 as [_ _ Hn2 _ Hheap2 _].
  split.
  - intros h Hh. destruct (decide (h < next_handle w1)%nat) as [Hlt|Hge].
    + destruct (Hh1 h ltac:(lia)) as (s & t & Hs & Ht).
      specialize (Hheap2 h Hlt). rewrite Hs in Hheap2.
      destruct (spans w2 !! h) as [s2|]; [|done].
      exists s2, t. split; [done|]. cbn in Hheap2. unfold span_core in Hheap2.
      congruence.
    + apply Hh2. lia.
  - exists (n1 ++ n2). split; [by rewrite He2, He1, app_assoc|].
    split; [rewrite length_app; lia|].
    intros c Hc. apply Forall_app. split; [by apply Ht1|].
    apply Ht2. by rewrite Hpc.
Qed.

Lemma tidy_ret {A} (a : A) : tidy (ret a).
Proof. intros w _. split; [apply follows_refl|apply closes_refl]. Qed.

Lemma tidy_raise {A} e : tidy (raise (A:=A) e).
Proof. intros w _. split; [apply follows_refl|apply closes_refl]. Qed.

Lemma tidy_bind {A B} (m : M A) (k : A -> M B) :
  tidy m -> (forall a, tidy (k a)) -> tidy (bind m k).
Proof.
  intros Hm Hk w Hwf. destruct (Hm w Hwf) as [F1 C1]. unfold bind.
  destruct (m w) as [[a|e] w1]; cbn [fst snd] in *; [|done].
  destruct (Hk a w1 (well_formed_follows _ _ Hwf F1)) as [F2 C2].
  split; [by eapply follows_trans|by eapply closes_trans].
Qed.

Lemma tidy_try_except {A} (body : M A) handler :
  tidy body -> (forall e, tidy (handler e)) -> tidy (try_except body handler).
Proof.
  intros Hm Hk w Hwf. destruct (Hm w Hwf) as [F1 C1]. unfold try_except.
  destruct (body w) as [[a|e] w1]; cbn [fst snd] in *; [done|].
  destruct (Hk e w1 (well_formed_follows _ _ Hwf F1)) as [F2 C2].
  split; [by eapply follows_trans|by eapply closes_trans].
Qed.

Lemma tidy_for_each {A} (xs : list A) body :
  (forall x, tidy (body x)) -> tidy (for_each xs body).
Proof.
  intros Hb. induction xs as [|x xs IH]; cbn [for_each].
  - apply tidy_ret.
  - apply tidy_bind; auto.
Qed.

Lemma tidy_quiet {A} (m : M A) : traced m -> quiet m -> tidy m.
Proof.
  intros Ht Hq w Hwf. split; [by apply Ht|]. destruct (Hq w) as [Hn He].
  split; [intros h; lia|]. exists []. rewrite app_nil_r, Hn, Nat.sub_diag.
  by repeat split.
Qed.

Ltac quiet_prim :=
  intros w;
  cbv beta iota delta
    [time.sleep random._randbelow random.randint random.choice random.random
     random.uniform Bookshop.contains_key Bookshop.getitem
     Bookshop.setitem_stock Bookshop.values Bookshop.simulate_db_query
     Bookshop.simulate_cache_check Otel.set_attribute Otel.record_exception
     Otel.set_status bind ret raise];
  repeat case_match; simplify_eq; by split.

Lemma quiet_sleep secs : quiet (time.sleep secs).
Proof. quiet_prim. Qed.

Lemma quiet_randint a b : quiet (random.randint a b).
Proof. quiet_prim. Qed.

Lemma quiet_choice {A} (seq : list A) : quiet (random.choice seq).
Proof. quiet_prim. Qed.

Lemma quiet_random : quiet random.random.
Proof. quiet_prim. Qed.

Lemma quiet_uniform a b : quiet (random.uniform a b).
Proof. quiet_prim. Qed.

Lemma quiet_contains_key key : quiet (Bookshop.contains_key key).
Proof. quiet_prim. Qed.

Lemma quiet_getitem {A} key (field : Book.t -> A) :
  quiet (Bookshop.getitem key field).
Proof. quiet_prim. Qed.

Lemma quiet_setitem_stock key n : quiet (Bookshop.setitem_stock key n).
Proof. quiet_prim. Qed.

Lemma quiet_values : quiet Bookshop.values.
Proof. quiet_prim. Qed.

Lemma quiet_simulate_db_query op d : quiet (Bookshop.simulate_db_query op d).
Proof. quiet_prim. Qed.

Lemma quiet_simulate_cache_check key :
  quiet (Bookshop.simulate_cache_check key).
Proof. quiet_prim. Qed.

Lemma quiet_set_attribute h key v : quiet (Otel.set_attribute h key v).
Proof. quiet_prim. Qed.

Lemma quiet_record_exception h e : quiet (Otel.record_exception h e).
Proof. quiet_prim. Qed.

Lemma quiet_set_status h st : quiet (Otel.set_status h st).
Proof. quiet_prim. Qed.

(** Leaving a [with] block whose span is still open: the span that is
    exported is the one the heap then holds. *)
Lemma use_span_exit_ends {A} h saved (r : Result A) w s :
  spans w !! h = Some s -> end_time s = None ->
  exists s',
    spans (Otel.use_span_exit h saved r w) !! h = Some s'
    /\ exported (Otel.use_span_exit h saved r w) = exported w ++ [s'].
Proof.
  intros Hs Ht. unfold Otel.use_span_exit.
  set (w1 := set_current saved w).
  assert (H2 : exists s2,
             spans (match r with
                    | Return _ => w1
                    | Raise exc =>
                        ((Otel.record_exception h exc >>
                          Otel.set_status h (Otel.error_status exc)) w1).2
                    end) !! h = Some s2
             /\ end_time s2 = None
             /\ exported (match r with
                          | Return _ => w1
                          | Raise exc =>
                              ((Otel.record_exception h exc >>
                                Otel.set_status h (Otel.error_status exc)) w1).2
                          end) = exported w).
  { destruct r as [a|e]; [by exists s|].
    unfold bind. rewrite (record_exception_run h e w1 s) by done.
    cbn [fst snd]. unfold Otel.set_status. world_simpl.
    rewrite lookup_insert_eq. world_simpl. rewrite Ht.
    destruct (_ || _); cbn [snd]; world_simpl;
      rewrite ?lookup_insert_eq; eauto. }
  destruct H2 as (s2 & Hs2 & Ht2 & He2).
  rewrite (end_open_run h _ s2 Hs2 Ht2). cbn [snd]. world_simpl.
  rewrite lookup_insert_eq, He2. eauto.
Qed.

(** What a [with] block exports: the spans of its body, all of the trace of
    its own span, and then its own span. *)
Lemma with_closes {A} name (body : nat -> M A) w :
  (forall h, tidy (body h)) -> well_formed w ->
  exists kids root,
    exported (Otel.start_as_current_span name body w).2
    = exported w ++ kids ++ [root]
    /\ S (length kids)
       = (next_handle (Otel.start_as_current_span name body w).2
          - next_handle w)%nat
    /\ (forall c, Otel.get_current_span_context w = Some c ->
          trace_id (span_context root) = trace_id c)
    /\ Forall (fun s => trace_id (span_context s)
                        = trace_id (span_context root)) kids
    /\ forall h,
        (next_handle w <= h
         < next_handle (Otel.start_as_current_span name body w).2)%nat ->
        exists s t,
          spans (Otel.start_as_current_span name body w).2 !! h = Some s
          /\ end_time s = Some t.
Proof.
  intros Hbody Hwf. unfold Otel.start_as_current_span, Otel.start_span.
  set (pc := Otel.get_current_span_context w).
  set (c := Otel.new_context pc (id_entropy w)).
  set (s0 := Otel.new_span name c.1 pc (time.now w) (provider_resource w)).
  set (nh := next_handle w).
  world_simpl.
  match goal with |- context [body nh ?w1] => set (W1 := w1) end.
  assert (Hwf1 : well_formed W1).
  { unfold well_formed. subst W1. world_simpl. apply Forall_cons. split; [lia|].
    eapply Forall_impl; [exact Hwf|]. cbn. lia. }
  destruct (Hbody nh W1 Hwf1) as [Hfol Hcl].
  destruct (body nh W1) as [r W2]. cbn [snd] in *.
  destruct Hfol as [_ _ Hh _ Hheap _].
  destruct Hcl as [Hended (kids & He & Hlen & Htr)].
  assert (Hpc1 : Otel.get_current_span_context W1 = Some c.1).
  { apply (current_context_top W1 nh (current w) s0); subst W1; world_simpl;
      [done|apply lookup_insert_eq]. }
  assert (Hs2 : exists s2, spans W2 !! nh = Some s2 /\ span_core s2 = span_core s0).
  { specialize (Hheap nh). subst W1. world_simpl_in Hheap.
    rewrite lookup_insert_eq in Hheap. specialize (Hheap ltac:(lia)).
    destruct (spans W2 !! nh) as [s2|]; [|done].
    exists s2. split; [done|]. cbn in Hheap. congruence. }
  destruct Hs2 as (s2 & Hs2 & Hcore).
  unfold span_core in Hcore. subst s0. world_simpl_in Hcore.
  injection Hcore as Hctx Hpar Hst Hend Hres.
  destruct (use_span_exit_open nh (current w) r W2 s2 Hs2 Hend)
    as (s' & t & Hex & Hend' & _ & _ & Hctx' & _ & _ & _ & _ & Hh' & _ & _
        & Hheap').
  destruct (use_span_exit_ends nh (current w) r W2 s2 Hs2 Hend)
    as (s'' & Hs'' & Hex'').
  assert (s'' = s') as ->.
  { rewrite Hex in Hex''. apply app_inv_head in Hex''. congruence. }
  subst W1. world_simpl_in Hh. world_simpl_in He. world_simpl_in Hlen.
  exists kids, s'. split; [by rewrite Hex, He, app_assoc|].
  split; [rewrite Hh', Hlen; lia|].
  split.
  { intros c0 Hc0. rewrite Hctx', Hctx. subst c. by rewrite Hc0. }
  split.
  { rewrite Hctx', Hctx. by apply Htr. }
  intros h Hrange. rewrite Hh' in Hrange.
  destruct (decide (h = nh)) as [->|Hne]; [eauto|].
  rewrite Hheap' by done. apply Hended. world_simpl. lia.
Qed.

Lemma tidy_with {A} name (body : nat -> M A) :
  (forall h, tidy (body h)) -> tidy (Otel.start_as_current_span name body).
Proof.
  intros Hbody w Hwf.
  split; [apply traced_with; [intros h w0 Hw0; by apply Hbody|done]|].
  destruct (with_closes name body w Hbody Hwf)
    as (kids & root & He & Hlen & Hroot & Hkids & Hheap).
  split; [done|]. exists (kids ++ [root]). split; [done|].
  split; [rewrite length_app; change (length [root]) with 1%nat; lia|].
  intros c Hc. specialize (Hroot c Hc). apply Forall_app. split.
  - eapply Forall_impl; [exact Hkids|]. cbn. congruence.
  - by constructor.
Qed.

Create HintDb quiet.

#[local] Hint Resolve quiet_sleep quiet_randint quiet_choice quiet_random
  quiet_uniform quiet_contains_key quiet_getitem quiet_setitem_stock
  quiet_values quiet_simulate_db_query quiet_simulate_cache_check
  quiet_set_attribute quiet_record_exception quiet_set_status : quiet.

Ltac tidy_step :=
  match goal with
  | |- forall _, _ => intro
  | |- tidy (ret _) => apply tidy_ret
  | |- tidy (raise _) => apply tidy_raise
  | |- tidy (bind _ _) => apply tidy_bind
  | |- tidy (Otel.start_as_current_span _ _) => apply tidy_with
  | |- tidy (try_except _ _) => apply tidy_try_except
  | |- tidy (for_each _ _) => apply tidy_for_each
  | |- tidy (if ?b then _ else _) => destruct b
  | |- tidy (match ?x with _ => _ end) => destruct x
  | |- tidy _ =>
      apply tidy_quiet; [solve [auto with traced]|solve [auto with quiet]]
  end.

Lemma handler_tidy q : tidy (handler q).
Proof.
  destruct q; cbn [handler];
    unfold Bookshop.root, Bookshop.health, Bookshop.list_books,
      Bookshop.get_book, Bookshop.create_order, Bookshop.validate_book,
      Bookshop.check_inventory, Bookshop.calculate_total,
      Bookshop.process_payment, Bookshop.update_inventory,
      Bookshop.send_confirmation_email, Bookshop.get_stats, ECommerce.root,
      ECommerce.do_work;
    repeat tidy_step.
Qed.

(** X12: a handler ends every span it starts, on every path, the failing
    ones included: when it returns or raises, each span started since the
    request arrived has its end time, and as many spans were exported as
    were started. *)
Theorem handlers_end_their_spans (q : Request) (w : World) :
  well_formed w ->
  (forall h,
      (next_handle w <= h < next_handle (handler q w).2)%nat ->
      exists s t, spans (handler q w).2 !! h = Some s /\ end_time s = Some t)
  /\ exists new,
      exported (handler q w).2 = exported w ++ new
      /\ length new = (next_handle (handler q w).2 - next_handle w)%nat.
Proof.
  intros Hwf.
  destruct (handler_tidy q w Hwf) as [_ [Hheap (new & He & Hlen & _)]].
  split; [done|]. by exists new.
Qed.

Lemma handlers_end_their_spans_witness :
  well_formed sample_bookshop
  /\ exists new,
      exported (handler (GET_book 999) sample_bookshop).2
      = exported sample_bookshop ++ new
      /\ length new
         = (next_handle (handler (GET_book 999) sample_bookshop).2
            - next_handle sample_bookshop)%nat.
Proof.
  assert (Hwf : well_formed sample_bookshop) by constructor.
  split; [exact Hwf|].
  exact (proj2 (handlers_end_their_spans (GET_book 999) sample_bookshop Hwf)).
Defined.

Lemma bind_ret_world {A B} (m : M A) (b : B) w :
  ((m >> ret b) w).2 = (m w).2.
Proof. unfold bind. by destruct (m w) as [[a|e] w1]. Qed.

(** X13: the spans exported while a request is answered all belong to one
    trace, that of the span that was current when the request arrived if
    there was one. *)
Theorem one_trace_per_request (q : Request) (w : World) :
  well_formed w ->
  exists new,
    exported (handler q w).2 = exported w ++ new
    /\ (forall s1 s2, s1 ∈ new -> s2 ∈ new ->
          trace_id (span_context s1) = trace_id (span_context s2))
    /\ (forall c s, Otel.get_current_span_context w = Some c -> s ∈ new ->
          trace_id (span_context s) = trace_id c).
Proof.
  intros Hwf.
  assert (Hwith : forall A name (body : nat -> M A),
             (forall h, tidy (body h)) ->
             exists new,
               exported (Otel.start_as_current_span name body w).2
               = exported w ++ new
               /\ (forall s1 s2, s1 ∈ new -> s2 ∈ new ->
                     trace_id (span_context s1) = trace_id (span_context s2))
               /\ (forall c s, Otel.get_current_span_context w = Some c ->
                     s ∈ new -> trace_id (span_context s) = trace_id c)).
  { intros A name body Hbody.
    destruct (with_closes name body w Hbody Hwf)
      as (kids & root & He & _ & Hroot & Hkids & _).
    assert (Hall : forall s, s ∈ kids ++ [root] ->
                     trace_id (span_context s) = trace_id (span_context root)).
    { intros s Hs. apply elem_of_app in Hs as [Hs|Hs].
      - by apply (proj1 (Forall_forall _ _) Hkids).
      - apply list_elem_of_singleton in Hs. by subst. }
    exists (kids ++ [root]). split; [done|]. split.
    - intros s1 s2 H1 H2. by rewrite (Hall s1 H1), (Hall s2 H2).
    - intros c s Hc Hs. rewrite (Hall s Hs). by apply Hroot. }
  destruct q; cbn [handler];
    try (apply Hwith;
         unfold Bookshop.root, Bookshop.health, Bookshop.list_books,
           Bookshop.get_book, Bookshop.create_order, Bookshop.validate_book,
           Bookshop.check_inventory, Bookshop.calculate_total,
           Bookshop.process_payment, Bookshop.update_inventory,
           Bookshop.send_confirmation_email, Bookshop.get_stats,
           ECommerce.do_work;
         repeat tidy_step).
  - exists []. rewrite app_nil_r. split; [done|].
    split; [intros s1 s2 H1|intros c s _ H1]; by apply elem_of_nil in H1.
  - unfold ECommerce.do_work.
    rewrite bind_ret_world. apply Hwith. repeat tidy_step.
Qed.

Lemma one_trace_per_request_witness :
  well_formed sample_bookshop
  /\ exists new,
      exported
        (handler (POST_orders {| book_id := 2; quantity := 3;
                                 customer_email := "a@b.c" |})
           sample_bookshop).2
      = exported sample_bookshop ++ new
      /\ forall s1 s2, s1 ∈ new -> s2 ∈ new ->
           trace_id (span_context s1) = trace_id (span_context s2).
Proof.
  assert (Hwf : well_formed sample_bookshop) by constructor.
  split; [exact Hwf|].
  destruct (one_trace_per_request
              (POST_orders {| book_id := 2; quantity := 3;
                              customer_email := "a@b.c" |})
              sample_bookshop Hwf) as (new & He & Hone & _).
  exists new. split; [exact He|exact Hone].
Defined.

(** ** Sequences of requests *)

Lemma serve_follows requests : forall w,
  well_formed w -> follows w (serve requests w) /\ closes w (serve requests w).
Proof.
  induction requests as [|q requests IH]; intros w Hwf; cbn [serve].
  - split; [apply follows_refl|apply closes_refl].
  - destruct (handler_tidy q w Hwf) as [F1 C1].
    destruct (IH _ (well_formed_follows _ _ Hwf F1)) as [F2 C2].
    split; [by eapply follows_trans|by eapply closes_trans].
Qed.

(** X14: requests answered one after the other leave the tracer as the
    next request needs it.  After any sequence of requests the span that was
    current is current again, the clock has not gone back, the provider
    holds the same resource, the spans exported before are still at the head
    of the queue, the spans that existed before keep their identity, parent,
    start, end and resource, and every span started since is ended. *)
Theorem requests_keep_the_tracer (requests : list Request) (w : World) :
  well_formed w ->
  let w' := serve requests w in
  well_formed w'
  /\ current w' = current w
  /\ clock w <= clock w'
  /\ provider_resource w' = provider_resource w
  /\ (exists new,
        exported w' = exported w ++ new
        /\ length new = (next_handle w' - next_handle w)%nat)
  /\ (forall h, (h < next_handle w)%nat ->
        span_core <$> spans w' !! h = span_core <$> spans w !! h)
  /\ (forall h, (next_handle w <= h < next_handle w')%nat ->
        exists s t, spans w' !! h = Some s /\ end_time s = Some t).
Proof.
  intros Hwf. cbv zeta.
  destruct (serve_follows requests w Hwf) as [F C].
  split; [by eapply well_formed_follows|].
  destruct F as [Hc Hcur Hh Hr Hheap _].
  destruct C as [Hended (new & He & Hlen & _)].
  repeat split; try done. by exists new.
Qed.

Lemma requests_keep_the_tracer_witness :
  well_formed sample_bookshop
  /\ current (serve [GET_book 2; GET_stats; GET_book 999] sample_bookshop)
     = current sample_bookshop
  /\ clock sample_bookshop
     <= clock (serve [GET_book 2; GET_stats; GET_book 999] sample_bookshop).
Proof.
  assert (Hwf : well_formed sample_bookshop) by constructor.
  split; [exact Hwf|].
  destruct (requests_keep_the_tracer [GET_book 2; GET_stats; GET_book 999]
              sample_bookshop Hwf) as (_ & H1 & H2 & _).
  split; [exact H1|exact H2].
Defined.

Lemma handler_effect q w :
  BOOKS_DB (handler q w).2 = BOOKS_DB w
  \/ exists order b,
      q = POST_orders order
      /\ Bookshop.dict_get (BOOKS_DB w) (book_id order) = Some b
      /\ quantity order <= Book.stock b
      /\ BOOKS_DB (handler q w).2
         = Bookshop.dict_alter
             (fun b' => Book.set_stock b' (Book.stock b - quantity order))
             (book_id order) (BOOKS_DB w).
Proof.
  destruct (is_order q) eqn:Hq; [|left; by apply handler_read_only].
  destruct q; try discriminate. cbn [handler].
  pose proof (create_order_effect order w) as He. unfold order_effect in He.
  destruct (Bookshop.create_order order w) as [[v|e] w']; cbn [fst snd] in *.
  - destruct He as (b & Hb & Hle & ->). right. by exists order, b.
  - by left.
Qed.

Lemma serve_catalog requests : forall w,
  catalog_shape (BOOKS_DB (serve requests w)) = catalog_shape (BOOKS_DB w)
  /\ (stocks_nonneg (BOOKS_DB w) -> stocks_nonneg (BOOKS_DB (serve requests w))).
Proof.
  induction requests as [|q requests IH]; intros w; [done|].
  cbn [serve]. destruct (IH (handler q w).2) as [-> Hs].
  destruct (handler_effect q w) as [He|(order & b & _ & Hb & Hle & He)];
    rewrite He in *.
  - done.
  - split; [apply catalog_shape_alter|].
    intros Hw. apply Hs. apply stocks_nonneg_alter; [lia|done].
Qed.

(** X15: whatever requests arrive one after the other, orders and others
    mixed, the catalog keeps its books, with their ids, titles, authors and
    prices, in their order. *)
Theorem requests_keep_shape (requests : list Request) (w : World) :
  catalog_shape (BOOKS_DB (serve requests w)) = catalog_shape (BOOKS_DB w).
Proof. exact (proj1 (serve_catalog requests w)). Qed.

(** X16: whatever requests arrive one after the other, orders and others
    mixed, no stock becomes negative in a catalog whose stocks were not. *)
Theorem requests_keep_stock_nonneg (requests : list Request) (w : World) :
  stocks_nonneg (BOOKS_DB w) -> stocks_nonneg (BOOKS_DB (serve requests w)).
Proof. exact (proj2 (serve_catalog requests w)). Qed.

Lemma requests_keep_stock_nonneg_witness :
  stocks_nonneg (BOOKS_DB sample_bookshop)
  /\ stocks_nonneg
       (BOOKS_DB
          (serve [GET_stats;
                  POST_orders {| book_id := 2; quantity := 40;
                                 customer_email := "a@b.c" |};
                  POST_orders {| book_id := 2; quantity := -3;
                                 customer_email := "a@b.c" |};
                  GET_book 2]
             sample_bookshop)).
Proof.
  assert (H : stocks_nonneg (BOOKS_DB sample_bookshop)).
  { refine (bool_decide_unpack _ _). vm_compute. exact I. }
  split; [exact H|].
  exact (requests_keep_stock_nonneg _ sample_bookshop H).
Defined.

(** ** Outcomes and latencies *)

Ltac bound_draws :=
  repeat match goal with
         | |- context [?x mod ?n] =>
             let H := fresh "Hdraw" in
             pose proof (Z.mod_pos_bound x n ltac:(lia)) as H;
             generalize dependent (x mod n); intros
         end.


Lemma root_run environ w :
  wp (Bookshop.root environ) w (fun r w' =>
    (exists v, r = Return v) /\ clock w <= clock w').
Proof.
  destruct w as [db clk els ent ident res sp nh cur ex wn].
  unfold Bookshop.root. wp_run. split; [eauto|]. world_norm. lia.
Qed.

Lemma health_run environ w :
  wp (Bookshop.health environ) w (fun r w' =>
    (exists v, r = Return v) /\ clock w <= clock w').
Proof.
  destruct w as [db clk els ent ident res sp nh cur ex wn].
  unfold Bookshop.health. wp_run. split; [eauto|]. world_norm. lia.
Qed.

Lemma list_books_run author min_price w :
  wp (Bookshop.list_books author min_price) w (fun r w' =>
    (exists v, r = Return v) /\ clock w + 15 * 10 ^ 6 <= clock w').
Proof.
  destruct w as [db clk els ent ident res sp nh cur ex wn].
  unfold Bookshop.list_books. wp_run. split; [eauto|]. world_norm.
  unfold time.ns_of_secs. cbn [Qnum Qden].
  change (5 * 10 ^ 9 / 1000) with 5000000. bound_draws. lia.
Qed.

Lemma get_book_run book_id w :
  wp (Bookshop.get_book book_id) w (fun r w' =>
    clock w + 10 * 10 ^ 6 <= clock w').
Proof.
  destruct w as [db clk els ent ident res sp nh cur ex wn].
  unfold Bookshop.get_book. wp_run. world_norm.
  destruct (Bookshop.dict_get db book_id) as [b|] eqn:Hb.
  - rewrite bool_decide_eq_true_2 by eauto. cbn [negb]. wp_run.
    world_norm. bound_draws. lia.
  - rewrite bool_decide_eq_false_2 by (by intros [? ?]). cbn [negb]. wp_run.
    world_norm. bound_draws. lia.
Qed.

Lemma get_stats_run w :
  BOOKS_DB w <> [] ->
  wp Bookshop.get_stats w (fun r w' =>
    (exists v, r = Return v) /\ clock w + 30 * 10 ^ 6 <= clock w').
Proof.
  destruct w as [db clk els ent ident res sp nh cur ex wn]. cbn [BOOKS_DB].
  destruct db as [|[k b] db]; [done|]. intros _.
  unfold Bookshop.get_stats. wp_run.
  change (map Book.price (Bookshop.dict_values ((k, b) :: db)))
    with (Book.price b :: map Book.price (Bookshop.dict_values db)).
  cbv beta iota. wp_run. split; [eauto|]. world_norm. bound_draws. lia.
Qed.

Lemma do_work_run w :
  wp ECommerce.do_work w (fun r w' =>
    (exists v, r = Return v) /\ clock w + 300 * 10 ^ 6 <= clock w').
Proof.
  destruct w as [db clk els ent ident res sp nh cur ex wn].
  unfold ECommerce.do_work. cbn [for_each]. wp_run.
  change (tail ?l) with (tl l).
  assert (Hd : forall k, 0 <= k < 2 ^ 53 ->
             10 ^ 8 <= time.ns_of_secs
                         ((1 # 10) + ((5 # 10) - (1 # 10))
                                     * Qmake k (2 ^ 53)%positive)%Q).
  { intros k Hk. unfold time.ns_of_secs. cbn [Qnum Qden Qplus Qminus Qmult Qopp].
    apply Z.div_le_lower_bound; [lia|]. cbn in Hk |- *. lia. }
  pose proof (Hd _ (draw_bounds (hd 0 ent))).
  pose proof (Hd _ (draw_bounds (hd 0 (tl ent)))).
  pose proof (Hd _ (draw_bounds (hd 0 (tl (tl ent))))).
  destruct (ECommerce.flt _ _); wp_run; (split; [eauto|]); world_norm;
    change (tail ?l) with (tl l); lia.
Qed.

(** The run of an order up to its outcome. *)
Lemma create_order_run order w :
  wp (Bookshop.create_order order) w (fun r w' =>
    clock w + 10 * 10 ^ 6 <= clock w'
    /\ match Bookshop.dict_get (BOOKS_DB w) (book_id order) with
       | None => r = Raise (HTTPException 404 "Book not found")
       | Some b =>
           if Book.stock b <? quantity order
           then r = Raise (HTTPException 400 "Insufficient stock")
           else match Py.float_of_int (quantity order) with
                | Some _ =>
                    (exists v, r = Return v)
                    /\ clock w + 180 * 10 ^ 6 <= clock w'
                | None =>
                    r = Raise (OverflowError "int too large to convert to float")
                end
       end).
Proof.
  destruct w as [db clk els ent ident res sp nh cur ex wn]. cbn [BOOKS_DB clock].
  destruct (Bookshop.dict_get db (book_id order)) as [b|] eqn:Hb.
  - unfold Bookshop.create_order, Bookshop.validate_book. wp_run.
    rewrite (contains_key_present _ _ _ Hb). cbn [negb]. wp_run.
    unfold Bookshop.check_inventory. wp_run.
    destruct (Z.ltb_spec (Book.stock b) (quantity order)) as [Hlt|Hge].
    + wp_run. split; [|done]. world_norm. bound_draws. lia.
    + wp_run. unfold Bookshop.calculate_total. wp_run.
      destruct (Py.float_of_int (quantity order)) as [x|].
      * wp_run. unfold Bookshop.process_payment. wp_run.
        unfold Bookshop.update_inventory.
        pose proof (dict_get_alter_eq
                      (fun b' => Book.set_stock b' (Book.stock b - quantity order))
                      _ _ _ Hb) as Hb'.
        wp_run. unfold Bookshop.send_confirmation_email. wp_run.
        world_norm. unfold time.ns_of_secs. cbn [Qnum Qden].
        change (5 * 10 ^ 9 / 100) with 50000000.
        split; [|split; [eauto|]]; bound_draws; lia.
      * wp_run. split; [|done]. world_norm. bound_draws. lia.
  - unfold Bookshop.create_order, Bookshop.validate_book. wp_run.
    rewrite (contains_key_absent _ _ Hb). cbn [negb]. wp_run.
    split; [|done]. world_norm. bound_draws. lia.
Qed.

(** X17: the handlers fail on purpose only.  On a catalog that is not empty,
    and for an order whose quantity a float can hold, a handler either
    returns or raises one of the two HTTP errors of the bookshop: 404 when
    the book asked for or ordered is not in the catalog, 400 when the order
    asks for more copies than the stock holds. *)
Theorem handlers_raise_on_purpose (q : Request) (w : World) :
  BOOKS_DB w <> [] ->
  (forall order, q = POST_orders order ->
     Z.abs (quantity order) < 2 ^ 1024 - 2 ^ 970) ->
  match (handler q w).1 with
  | Return _ => True
  | Raise e =>
      (e = HTTPException 404 "Book not found"
       /\ exists key,
           (q = GET_book key
            \/ exists order, q = POST_orders order /\ book_id order = key)
           /\ Bookshop.dict_get (BOOKS_DB w) key = None)
      \/ (e = HTTPException 400 "Insufficient stock"
          /\ exists order b,
              q = POST_orders order
              /\ Bookshop.dict_get (BOOKS_DB w) (book_id order) = Some b
              /\ Book.stock b < quantity order)
  end.
Proof.
  intros Hne Hrange.
  destruct q as [environ|environ|author min_price|key|order| | |];
    cbn [handler].
  - destruct (root_run environ w) as [[v ->] _]. done.
  - destruct (health_run environ w) as [[v ->] _]. done.
  - destruct (list_books_run author min_price w) as [[v ->] _]. done.
  - rewrite get_book_answer.
    destruct (Bookshop.dict_get (BOOKS_DB w) key) eqn:Hb; [done|].
    left. split; [done|]. exists key. eauto.
  - destruct (create_order_run order w) as [_ H].
    destruct (Bookshop.dict_get (BOOKS_DB w) (book_id order)) as [b|] eqn:Hb.
    + destruct (Z.ltb_spec (Book.stock b) (quantity order)) as [Hlt|Hge].
      * rewrite H. right. split; [done|]. by exists order, b.
      * rewrite (float_of_int_in_range _ (Hrange order eq_refl)) in H.
        by destruct H as [[v ->] _].
    + rewrite H. left. split; [done|]. exists (book_id order). eauto.
  - destruct (get_stats_run w Hne) as [[v ->] _]. done.
  - done.
  - destruct (do_work_run w) as [[v ->] _]. done.
Qed.

Lemma handlers_raise_on_purpose_witness :
  BOOKS_DB sample_bookshop <> []
  /\ (forall order,
        POST_orders {| book_id := 2; quantity := 40; customer_email := "a@b.c" |}
        = POST_orders order ->
        Z.abs (quantity order) < 2 ^ 1024 - 2 ^ 970)
  /\ match (handler
             (POST_orders {| book_id := 2; quantity := 40;
                             customer_email := "a@b.c" |})
             sample_bookshop).1 with
     | Return _ => True
     | Raise e =>
         (e = HTTPException 404 "Book not found"
          /\ exists key,
              (POST_orders {| book_id := 2; quantity := 40;
                              customer_email := "a@b.c" |} = GET_book key
               \/ exists order,
                   POST_orders {| book_id := 2; quantity := 40;
                                  customer_email := "a@b.c" |}
                   = POST_orders order
                   /\ book_id order = key)
              /\ Bookshop.dict_get (BOOKS_DB sample_bookshop) key = None)
         \/ (e = HTTPException 400 "Insufficient stock"
             /\ exists order b,
                 POST_orders {| book_id := 2; quantity := 40;
                                customer_email := "a@b.c" |}
                 = POST_orders order
                 /\ Bookshop.dict_get (BOOKS_DB sample_bookshop) (book_id order)
                    = Some b
                 /\ Book.stock b < quantity order)
     end.
Proof.
  assert (H1 : BOOKS_DB sample_bookshop <> []) by discriminate.
  assert (H2 : forall order,
             POST_orders {| book_id := 2; quantity := 40;
                            customer_email := "a@b.c" |}
             = POST_orders order ->
             Z.abs (quantity order) < 2 ^ 1024 - 2 ^ 970).
  { intros order [= <-]. by vm_compute. }
  split; [exact H1|]. split; [exact H2|].
  exact (handlers_raise_on_purpose _ sample_bookshop H1 H2).
Defined.

(** X18: no route answers faster than its simulated queries and calls allow.
    Between the arrival of a request and its answer the clock advances by at
    least 15 ms for the list of books, 10 ms for one book and for an order
    however it ends, 30 ms for the statistics of a catalog that is not
    empty and 300 ms for the work of the e-commerce service; an order that
    is confirmed takes at least 180 ms. *)
Theorem minimum_latency (q : Request) (w : World) :
  BOOKS_DB w <> [] ->
  clock w + min_latency q <= clock (handler q w).2
  /\ (forall v, is_order q = true -> (handler q w).1 = Return v ->
        clock w + 180 * 10 ^ 6 <= clock (handler q w).2).
Proof.
  intros Hne.
  destruct q as [environ|environ|author min_price|key|order| | |];
    cbn [handler min_latency is_order];
    (split; [|try discriminate]).
  - destruct (root_run environ w) as [_ H]. lia.
  - destruct (health_run environ w) as [_ H]. lia.
  - by destruct (list_books_run author min_price w) as [_ H].
  - exact (get_book_run key w).
  - by destruct (create_order_run order w) as [H _].
  - intros v _ Hv. destruct (create_order_run order w) as [_ H].
    rewrite Hv in H.
    destruct (Bookshop.dict_get (BOOKS_DB w) (book_id order)) as [b|];
      [|done].
    destruct (Book.stock b <? quantity order); [done|].
    destruct (Py.float_of_int (quantity order)); [|done]. by destruct H.
  - by destruct (get_stats_run w Hne) as [_ H].
  - cbn. lia.
  - by destruct (do_work_run w) as [_ H].
Qed.

Lemma minimum_latency_witness :
  BOOKS_DB sample_bookshop <> []
  /\ clock sample_bookshop + min_latency GET_stats
     <= clock (handler GET_stats sample_bookshop).2.
Proof.
  assert (H1 : BOOKS_DB sample_bookshop <> []) by discriminate.
  split; [exact H1|].
  exact (proj1 (minimum_latency GET_stats sample_bookshop H1)).
Defined.

(** ** The running bookshop *)

(** X19: in a bookshop that has answered any sequence of requests since it
    started, whatever its environment, its clock and its draws, the catalog
    still holds the five books it started with, under their ids, titles,
    authors and prices, no stock is negative, no span is current, and the
    statistics can be computed: [get_stats] returns, its division by the
    number of books never fails. *)
Theorem running_bookshop (environ base : gmap string string) (t0 : Z)
    (elapsed : list N) (entropy : list Z) (ids : list N)
    (requests : list Request) :
  let w := serve requests
             (Bookshop.startup environ base t0 elapsed entropy ids) in
  catalog_shape (BOOKS_DB w) = catalog_shape Bookshop.BOOKS_DB_init
  /\ stocks_nonneg (BOOKS_DB w)
  /\ current w = []
  /\ provider_resource w = Bookshop.resource environ base
  /\ exists v, (Bookshop.get_stats w).1 = Return v.
Proof.
  cbv zeta.
  set (w0 := Bookshop.startup environ base t0 elapsed entropy ids).
  assert (Hwf : well_formed w0) by constructor.
  destruct (serve_catalog requests w0) as [Hshape Hstock].
  destruct (serve_follows requests w0 Hwf) as [[_ Hcur _ Hres _ _] _].
  change (BOOKS_DB w0) with Bookshop.BOOKS_DB_init in Hshape, Hstock.
  split; [exact Hshape|].
  split. { apply Hstock. unfold stocks_nonneg. repeat constructor; cbn; lia. }
  split; [exact Hcur|]. split; [exact Hres|].
  assert (Hne : BOOKS_DB (serve requests w0) <> []).
  { intros E. rewrite E in Hshape. discriminate. }
  by destruct (get_stats_run _ Hne) as [Hv _].
Qed.
